(** * Job-board ETL scripts (Adzuna, Jooble, RemoteOK): a shallow embedding

    The three scripts fetch a JSON feed, normalise it in a pandas frame,
    and merge the rows into a SQL Server table.  This file embeds

    - the Python values the scripts handle (JSON values, frame cells),
    - [str.encode], [hashlib.sha256] and [hexdigest] (the surrogate key),
    - the three fetch/normalise functions,
    - the three load functions over a transactional table,
    - the three [main] drivers, with the trace of what they touch,

    and proves what the specification says about them.

    Modelling conventions.  A Python [str] is its list of code points.
    JSON numbers are the integers; a feed with a number that has a fraction
    is outside the model.  A frame keeps in each cell the Python value it
    was given.  pandas also gives every column a type, and where what the
    scripts compute depends on it the model asks for it: a column of
    integers and missing values is float64 for [astype(str)] and [where].
    [float] and the cast to [int] are those of IEEE 754 doubles and 64-bit
    integers.  Of the text that [pd.to_numeric] reads, the integer numerals
    are modelled.  The regex class [\d] is the ASCII digits.  SQL Server
    compares keys as the strings they are.  Where a property depends on one
    of these limits, its statement says so in a hypothesis.

    The file has three parts: the embedding, the properties (inside the
    section that holds the two functions of the Python runtime left open),
    and concrete runs. *)

From Stdlib Require Import ZArith List Bool Lia String Ascii.
Import ListNotations.
Open Scope Z_scope.

(** ** Python strings *)

Definition pystr := list Z.

(** An ASCII literal as a Python string. *)
Definition lit (s : string) : pystr :=
  map (fun a => Z.of_nat (nat_of_ascii a)) (list_ascii_of_string s).

Fixpoint pystr_eqb (a b : pystr) : bool :=
  match a, b with
  | [], [] => true
  | x :: a', y :: b' => (x =? y) && pystr_eqb a' b'
  | _, _ => false
  end.

(** [sep.join(parts)]. *)
Fixpoint join (sep : pystr) (parts : list pystr) : pystr :=
  match parts with
  | [] => []
  | [p] => p
  | p :: rest => p ++ sep ++ join sep rest
  end.

(** ** [str.encode()]: UTF-8, strict

    [None] is [UnicodeEncodeError]: a lone surrogate (which [json.loads]
    accepts from an escape such as "\ud800") cannot be encoded. *)

Definition utf8_char (c : Z) : option (list Z) :=
  if c <? 0 then None
  else if c <? 128 then Some [c]
  else if c <? 2048 then Some [192 + c / 64; 128 + c mod 64]
  else if c <? 65536 then
    if (55296 <=? c) && (c <=? 57343) then None
    else Some [224 + c / 4096; 128 + (c / 64) mod 64; 128 + c mod 64]
  else if c <? 1114112 then
    Some [240 + c / 262144; 128 + (c / 4096) mod 64;
          128 + (c / 64) mod 64; 128 + c mod 64]
  else None.

Fixpoint encode (s : pystr) : option (list Z) :=
  match s with
  | [] => Some []
  | c :: s' =>
      match utf8_char c, encode s' with
      | Some b, Some bs => Some (b ++ bs)
      | _, _ => None
      end
  end.

(** ** [hashlib.sha256] (FIPS 180-4) on byte lists, words as [Z] mod 2^32 *)

Module SHA256.

Definition w32 (x : Z) : Z := x mod 4294967296.
Definition add32 (a b : Z) : Z := w32 (a + b).
Definition rotr (n x : Z) : Z :=
  Z.lor (Z.shiftr x n) (w32 (Z.shiftl x (32 - n))).
Definition shr (n x : Z) : Z := Z.shiftr x n.
Definition not32 (x : Z) : Z := Z.lxor x 4294967295.

Definition Ch (x y z : Z) : Z := Z.lxor (Z.land x y) (Z.land (not32 x) z).
Definition Maj (x y z : Z) : Z :=
  Z.lxor (Z.lxor (Z.land x y) (Z.land x z)) (Z.land y z).
Definition bsig0 (x : Z) : Z := Z.lxor (Z.lxor (rotr 2 x) (rotr 13 x)) (rotr 22 x).
Definition bsig1 (x : Z) : Z := Z.lxor (Z.lxor (rotr 6 x) (rotr 11 x)) (rotr 25 x).
Definition ssig0 (x : Z) : Z := Z.lxor (Z.lxor (rotr 7 x) (rotr 18 x)) (shr 3 x).
Definition ssig1 (x : Z) : Z := Z.lxor (Z.lxor (rotr 17 x) (rotr 19 x)) (shr 10 x).

(** The constants of FIPS 180-4, 4.2.2 and 5.3.3, from their definition:
    the first 32 bits of the fractional parts of the cube roots (square
    roots) of the first 64 (8) primes. *)

(** Largest [r] below [2 ^ bits] with [r ^ 3 <= n], bit by bit. *)
Fixpoint cube_root (bits : nat) (n r : Z) : Z :=
  match bits with
  | O => r
  | S b =>
      let r' := r + 2 ^ Z.of_nat b in
      cube_root b n (if r' * r' * r' <=? n then r' else r)
  end.

(** The primes among [n], [n + 1], ... by trial division with those found. *)
Fixpoint primes_from (fuel : nat) (n : Z) (found : list Z) : list Z :=
  match fuel with
  | O => rev found
  | S fuel' =>
      primes_from fuel' (n + 1)
        (if forallb (fun p => negb (n mod p =? 0)) found then n :: found else found)
  end.

Definition primes : list Z := Eval vm_compute in primes_from 310 2 [].

Definition K : list Z :=
  Eval vm_compute in map (fun p => w32 (cube_root 35 (p * 2 ^ 96) 0)) primes.

Definition H0 : list Z :=
  Eval vm_compute in map (fun p => w32 (Z.sqrt (p * 2 ^ 64))) (firstn 8 primes).

(** Big-endian bytes of a value, [n] of them. *)
Fixpoint be_bytes (n : nat) (x : Z) : list Z :=
  match n with
  | O => []
  | S n' => (x / 256 ^ Z.of_nat n') mod 256 :: be_bytes n' x
  end.

Definition pad (msg : list Z) : list Z :=
  let len := Z.of_nat (List.length msg) in
  let zeros := Z.to_nat ((55 - len) mod 64) in
  msg ++ [128] ++ repeat 0 zeros ++ be_bytes 8 (8 * len).

(** Big-endian 32-bit words of a byte list (a trailing partial word is
    dropped; [pad] never leaves one). *)
Fixpoint words (bs : list Z) : list Z :=
  match bs with
  | a :: b :: c :: d :: rest =>
      (((a * 256 + b) * 256 + c) * 256 + d) :: words rest
  | _ => []
  end.

(** Cut a list in chunks of [n] items, [fuel] bounding the number of them. *)
Fixpoint chunks {A} (fuel n : nat) (l : list A) : list (list A) :=
  match fuel with
  | O => []
  | S fuel' =>
      match l with
      | [] => []
      | _ => firstn n l :: chunks fuel' n (skipn n l)
      end
  end.

(** The message schedule: [w] holds the sixteen latest words, oldest first;
    each round emits the oldest and appends the next. *)
Fixpoint schedule (rounds : nat) (w : list Z) : list Z :=
  match rounds with
  | O => []
  | S r =>
      let next :=
        add32 (add32 (ssig1 (nth 14 w 0)) (nth 9 w 0))
              (add32 (ssig0 (nth 1 w 0)) (nth 0 w 0)) in
      nth 0 w 0 :: schedule r (tl w ++ [next])
  end.

Record regs := Regs { ra : Z; rb : Z; rc : Z; rd : Z;
                      re : Z; rf : Z; rg : Z; rh : Z }.

Definition round (s : regs) (kw : Z * Z) : regs :=
  let t1 := add32 (add32 (add32 (rh s) (bsig1 (re s)))
                         (add32 (Ch (re s) (rf s) (rg s)) (fst kw))) (snd kw) in
  let t2 := add32 (bsig0 (ra s)) (Maj (ra s) (rb s) (rc s)) in
  Regs (add32 t1 t2) (ra s) (rb s) (rc s) (add32 (rd s) t1) (re s) (rf s) (rg s).

Definition regs_of (h : list Z) : regs :=
  Regs (nth 0 h 0) (nth 1 h 0) (nth 2 h 0) (nth 3 h 0)
       (nth 4 h 0) (nth 5 h 0) (nth 6 h 0) (nth 7 h 0).

Definition compress (h : list Z) (block : list Z) : list Z :=
  let s0 := regs_of h in
  let s := fold_left round (combine K (schedule 64 (words block))) s0 in
  [add32 (ra s0) (ra s); add32 (rb s0) (rb s); add32 (rc s0) (rc s);
   add32 (rd s0) (rd s); add32 (re s0) (re s); add32 (rf s0) (rf s);
   add32 (rg s0) (rg s); add32 (rh s0) (rh s)].

Definition state (msg : list Z) : list Z :=
  let p := pad msg in
  fold_left compress (chunks (List.length p) 64 p) H0.

(** [hashlib.sha256(msg).digest()]: 32 bytes. *)
Definition digest (msg : list Z) : list Z :=
  flat_map (be_bytes 4) (state msg).

Definition hex_digit (n : Z) : Z := if n <? 10 then 48 + n else 87 + n.

(** [bytes.hex()]: two lower-case digits per byte. *)
Definition hex (bs : list Z) : pystr :=
  flat_map (fun b => [hex_digit (b / 16); hex_digit (b mod 16)]) bs.

(** [hashlib.sha256(msg).hexdigest()]. *)
Definition hexdigest (msg : list Z) : pystr := hex (digest msg).

End SHA256.

(** ** Python values

    What [json.loads] returns, plus NaN (a missing cell of a frame). *)

Set Warnings "-register-all".

Inductive pyval :=
| PNone
| PNaN
| PBool (b : bool)
| PInt (z : Z)
| PStr (s : pystr)
| PList (l : list pyval)
| PDict (d : list (pystr * pyval)).

(** The exceptions the scripts can meet, by class. *)
Inductive exn :=
| KeyError (k : pystr)
| TypeError
| ValueError
| AttributeError
| UnicodeEncodeError
| MemoryError
| RequestException          (* ConnectionError, Timeout, HTTPError, JSONDecodeError *)
| ConfigParserError         (* configparser.Error *)
| PyodbcError (sqlstate : pystr).

Inductive result (A : Type) :=
| Ok (a : A)
| Raise (e : exn).
Arguments Ok {A} a.
Arguments Raise {A} e.

Definition rbind {A B} (r : result A) (k : A -> result B) : result B :=
  match r with
  | Ok a => k a
  | Raise e => Raise e
  end.

Fixpoint rmap {A B} (f : A -> result B) (l : list A) : result (list B) :=
  match l with
  | [] => Ok []
  | x :: l' =>
      match f x with
      | Ok y => match rmap f l' with Ok ys => Ok (y :: ys) | Raise e => Raise e end
      | Raise e => Raise e
      end
  end.

(** Truth value of a Python object ([if x], [not x]). *)
Definition truthy (v : pyval) : bool :=
  match v with
  | PNone => false
  | PNaN => true
  | PBool b => b
  | PInt z => negb (z =? 0)
  | PStr s => negb (pystr_eqb s [])
  | PList l => match l with [] => false | _ => true end
  | PDict d => match d with [] => false | _ => true end
  end.

(** [d.get(k)] on the pairs of a dict; [None] when the key is absent. *)
Fixpoint lookup {A} (k : pystr) (d : list (pystr * A)) : option A :=
  match d with
  | [] => None
  | (k', v) :: d' => if pystr_eqb k k' then Some v else lookup k d'
  end.

Definition dict_get (d : list (pystr * pyval)) (k : pystr) (default : pyval) : pyval :=
  match lookup k d with
  | Some v => v
  | None => default
  end.

(** Decimal digits of a non-negative integer, most significant first;
    [fuel] bounds the number of digits. *)
Fixpoint digits_of (fuel : nat) (z : Z) (acc : pystr) : pystr :=
  match fuel with
  | O => acc
  | S fuel' =>
      let acc' := (48 + z mod 10) :: acc in
      if z <? 10 then acc' else digits_of fuel' (z / 10) acc'
  end.

(** [str(z)] for an [int]. *)
Definition str_int (z : Z) : pystr :=
  if z <? 0 then 45 :: digits_of (S (Z.to_nat (Z.log2 (- z)))) (- z) []
  else digits_of (S (Z.to_nat (Z.log2 z))) z [].

Definition is_digit (c : Z) : bool := (48 <=? c) && (c <=? 57).

(** Value of a string of ASCII digits. *)
Definition digits_value (s : pystr) : Z :=
  fold_left (fun acc c => acc * 10 + (c - 48)) s 0.

(** Numbers that [pd.to_numeric] reads in a string.  The model reads the
    integer numerals, an optional sign and ASCII digits; pandas also reads
    text with a fraction, an exponent or blanks around it, which is outside
    the model (it counts as unreadable here). *)
Definition parse_number (s : pystr) : option Z :=
  let unsigned (t : pystr) :=
    match t with
    | [] => None
    | _ => if forallb is_digit t then Some (digits_value t) else None
    end in
  match s with
  | 45 :: t => option_map Z.opp (unsigned t)
  | 43 :: t => unsigned t
  | _ => unsigned s
  end.

(** [pd.to_numeric(..., errors="coerce")], one cell; [None] is NaN. *)
Definition to_numeric (v : pyval) : option Z :=
  match v with
  | PInt z => Some z
  | PBool b => Some (if b then 1 else 0)
  | PStr s => parse_number s
  | _ => None
  end.

(** [.fillna(0)] on a numeric cell. *)
Definition fillna0 (x : option Z) : Z :=
  match x with
  | Some z => z
  | None => 0
  end.

(** [.clip(lower, upper)]. *)
Definition clip (lower upper x : Z) : Z := Z.min upper (Z.max lower x).

(** ** Columns as pandas stores them

    pandas gives every column a type.  A column that holds integers and
    missing values only, both present, is stored as float64: each integer
    as the double nearest to it, each missing value as NaN.  The model keeps
    the cells as they came and lets the operations that depend on the type
    ([astype(str)], [where]) ask for it.  Integers beyond 64 bits, for which
    the type depends on the order of the cells, are outside the model. *)

Definition is_missing (v : pyval) : bool :=
  match v with
  | PNone | PNaN => true
  | _ => false
  end.

Definition is_int64 (v : pyval) : bool :=
  match v with
  | PInt z => (-9223372036854775808 <=? z) && (z <=? 9223372036854775807)
  | _ => false
  end.

Definition float_column (c : list pyval) : bool :=
  forallb (fun v => is_int64 v || is_missing v) c &&
  existsb is_int64 c && existsb is_missing c.

(** [df.where(pd.notnull(df), None)] on one column.  A column of objects
    takes [None] where a cell is missing.  A float64 column cannot hold
    [None]: its missing cells stay NaN. *)
Definition where_notnull (c : list pyval) : list pyval :=
  if float_column c
  then map (fun v => if is_missing v then PNaN else v) c
  else map (fun v => match v with PNaN => PNone | _ => v end) c.

(** [sep.join(v)]: [v] must be an iterable of strings.  A string iterates
    over its characters and a dict over its keys. *)
Definition join_py (sep : pystr) (v : pyval) : result pyval :=
  match v with
  | PList l =>
      rbind (rmap (fun i => match i with PStr s => Ok s | _ => Raise TypeError end) l)
            (fun parts => Ok (PStr (join sep parts)))
  | PStr s => Ok (PStr (join sep (map (fun c => [c]) s)))
  | PDict d => Ok (PStr (join sep (map fst d)))
  | _ => Raise TypeError
  end.

(** ** The regular expressions of the Jooble salary cleaning *)

(** The class "digit, comma or dot". *)
Definition token_char (c : Z) : bool := is_digit c || (c =? 44) || (c =? 46).

(** Longest prefix made of digits, commas and dots. *)
Fixpoint take_token (s : pystr) : pystr :=
  match s with
  | c :: s' => if token_char c then c :: take_token s' else []
  | [] => []
  end.

(** The text after a token does not continue it. *)
Definition ends_token (rest : pystr) : bool :=
  match rest with
  | [] => true
  | c :: _ => negb (token_char c)
  end.

(** [.str.extract] with the pattern "a digit, then any run of digits,
    commas and dots": the first match, scanning from the left; [None] (NaN)
    when the text has no digit. *)
Fixpoint regex_extract (s : pystr) : option pystr :=
  match s with
  | [] => None
  | c :: s' => if is_digit c then Some (c :: take_token s') else regex_extract s'
  end.

(** [.replace] of every character that is neither a digit nor a dot by
    the empty string. *)
Definition strip_non_numeric (s : pystr) : pystr :=
  filter (fun c => is_digit c || (c =? 46)) s.

(** ** [float] and [int64]

    A double that is not negative: [Finite m e] is the number m * 2^e,
    with m <= 2^53. *)

Inductive float64 :=
| Finite (m e : Z)
| Infinity.

(** The integer nearest to n / d, the even one of two that are as near. *)
Definition round_half_even (n d : Z) : Z :=
  let q := n / d in
  let r := n mod d in
  if 2 * r <? d then q
  else if d <? 2 * r then q + 1
  else if Z.even q then q else q + 1.

(** n / d divided by 2^s, as a fraction. *)
Definition scaled (n d s : Z) : Z * Z :=
  if 0 <=? s then (n, d * 2 ^ s) else (n * 2 ^ (- s), d).

(** The e with 2^e <= n / d < 2^(e+1), for n and d positive. *)
Definition leading_bit (n d : Z) : Z :=
  if d <=? n then Z.log2 (n / d) else - Z.log2_up ((d + n - 1) / n).

(** The double nearest to n / d (IEEE 754, round to nearest, ties to
    even): 53 bits from the leading one, multiples of 2^-1074 below
    2^-1022, infinity from 2^1024 - 2^970 on. *)
Definition nearest_double (n d : Z) : float64 :=
  if n =? 0 then Finite 0 0
  else
    let s := Z.max (leading_bit n d - 52) (-1074) in
    let m := round_half_even (fst (scaled n d s)) (snd (scaled n d s)) in
    if (971 <? s) || ((s =? 971) && (m =? 2 ^ 53)) then Infinity else Finite m s.

(** The integer part of m * 2^e. *)
Definition trunc (m e : Z) : Z :=
  if 0 <=? e then m * 2 ^ e else m / 2 ^ (- e).

(** [.astype(int)] on a float64 column, one cell: pandas refuses a column
    with an infinity ([IntCastingNaNError], a [ValueError]); a finite value
    is cast as C casts it, and what does not fit 64 bits comes out as
    -2^63 (the "integer indefinite" of x86-64). *)
Definition astype_int (x : float64) : result Z :=
  match x with
  | Infinity => Raise ValueError
  | Finite m e =>
      Ok (if trunc m e <? 9223372036854775808 then trunc m e
          else -9223372036854775808)
  end.

(** The digits after the first dot. *)
Fixpoint fraction (s : pystr) : pystr :=
  match s with
  | [] => []
  | c :: s' => if c =? 46 then filter is_digit s' else fraction s'
  end.

(** [.astype(float)] on a string of digits and dots that starts with a
    digit: [float] rejects a second dot and rounds to the nearest double. *)
Definition astype_float (s : pystr) : result float64 :=
  if Z.of_nat (count_occ Z.eq_dec s 46) <=? 1
  then Ok (nearest_double (digits_value (filter is_digit s))
                          (10 ^ Z.of_nat (List.length (fraction s))))
  else Raise ValueError.

Definition float_to_int (s : pystr) : result Z :=
  rbind (astype_float s) astype_int.

(** The integer that the double nearest to an integer holds. *)
Definition float_of_int (z : Z) : Z :=
  match nearest_double (Z.abs z) 1 with
  | Finite m e => Z.sgn z * trunc m e
  | Infinity => z
  end.

(** [str] of a double that holds an integer: the digits and ".0" below
    10^16, and from there on the shortest digits that read back as the
    same double, with an exponent. *)
Fixpoint shortest (fuel k : nat) (a : Z) (nd : nat) : Z :=
  match fuel with
  | O => a
  | S fuel' =>
      let g := 10 ^ Z.of_nat (nd - k) in
      let lo := a - a mod g in
      let hi := lo + g in
      let back c := float_of_int c =? a in
      if back lo && back hi then (if a - lo <=? hi - a then lo else hi)
      else if back lo then lo
      else if back hi then hi
      else shortest fuel' (S k) a nd
  end.

Fixpoint drop_zeros (s : pystr) : pystr :=
  match s with
  | 48 :: s' => drop_zeros s'
  | _ => s
  end.

Definition exponent_form (c : Z) : pystr :=
  let ds := str_int c in
  let e := Z.of_nat (List.length ds) - 1 in
  let exponent := lit "e+" ++ (if e <? 10 then 48 :: str_int e else str_int e) in
  match rev (drop_zeros (rev ds)) with
  | [] => []
  | [d] => d :: exponent
  | d :: more => d :: 46 :: more ++ exponent
  end.

Definition float_str (z : Z) : pystr :=
  let a := Z.abs (float_of_int z) in
  (if z <? 0 then [45] else []) ++
  (if a <? 10 ^ 16 then str_int a ++ lit ".0"
   else exponent_form (shortest 17 1 a (List.length (str_int a)))).

(** ** Frames

    A [DataFrame], column by column: the labels in order, each with its
    cells.  A feed that carries a label twice after [rename] is outside the
    model ([lookup] takes the first). *)

Record DataFrame := mkFrame { nrows : nat; cols : list (pystr * list pyval) }.

(** [pd.DataFrame()]. *)
Definition empty_frame : DataFrame := mkFrame 0 [].

(** [df.empty]: an axis of length 0. *)
Definition df_empty (df : DataFrame) : bool :=
  (Nat.eqb (nrows df) 0) || match cols df with [] => true | _ => false end.

Fixpoint mem (k : pystr) (l : list pystr) : bool :=
  match l with
  | [] => false
  | k' :: l' => pystr_eqb k k' || mem k l'
  end.

(** Labels in the order they first appear. *)
Fixpoint first_seen (seen : list pystr) (l : list pystr) : list pystr :=
  match l with
  | [] => []
  | k :: l' => if mem k seen then first_seen seen l'
               else k :: first_seen (k :: seen) l'
  end.

(** [pd.DataFrame(records)] for a list of dicts: a column per key, NaN
    where a record lacks it.  The cells keep the values of the records; the
    type that pandas gives a column is asked for where it matters
    ([float_column]). *)
Definition frame_of_records (recs : list (list (pystr * pyval))) : DataFrame :=
  let labels := first_seen [] (flat_map (map fst) recs) in
  mkFrame (List.length recs)
          (map (fun k => (k, map (fun r => dict_get r k PNaN) recs)) labels).

(** The label of the one column of a frame built from scalars.  pandas
    labels it with the integer 0; here it is a label that is no string. *)
Definition label_0 : pystr := [-1].

Definition is_scalar (v : pyval) : bool :=
  match v with
  | PList _ | PDict _ => false
  | _ => true
  end.

Definition is_list (v : pyval) : bool :=
  match v with
  | PList _ => true
  | _ => false
  end.

(** [pd.DataFrame(jobs)] for the value found under the feed's key.  A list
    that starts with an object is a list of records, and an item that is
    no object has no [keys] ([AttributeError]).  A list that starts with a
    scalar and holds no list becomes one column labelled 0.  For any other
    value [ValueError] stands for what follows: the constructor refuses
    most of them. *)
Definition frame_of (jobs : pyval) : result DataFrame :=
  match jobs with
  | PList (PDict d0 :: l) =>
      rbind (rmap (fun j => match j with
                            | PDict d => Ok d
                            | _ => Raise AttributeError
                            end) (PDict d0 :: l))
            (fun recs => Ok (frame_of_records recs))
  | PList (v :: l) =>
      if is_scalar v && forallb (fun x => negb (is_list x)) l
      then Ok (mkFrame (S (List.length l)) [(label_0, v :: l)])
      else Raise ValueError
  | _ => Raise ValueError
  end.

(** [df.rename(columns=mapping)]. *)
Definition rename (mapping : list (pystr * pystr)) (df : DataFrame) : DataFrame :=
  mkFrame (nrows df)
          (map (fun kc => (match lookup (fst kc) mapping with
                           | Some k' => k'
                           | None => fst kc
                           end, snd kc)) (cols df)).

(** [df[col]]. *)
Definition get_col (col : pystr) (df : DataFrame) : result (list pyval) :=
  match lookup col (cols df) with
  | Some c => Ok c
  | None => Raise (KeyError col)
  end.

Fixpoint replace_col (col : pystr) (c : list pyval) (l : list (pystr * list pyval))
  : list (pystr * list pyval) :=
  match l with
  | [] => [(col, c)]
  | (k, c') :: l' =>
      if pystr_eqb col k then (k, c) :: l' else (k, c') :: replace_col col c l'
  end.

(** [df[col] = series]: in place when the label exists, a new last column
    otherwise. *)
Definition set_col (col : pystr) (c : list pyval) (df : DataFrame) : DataFrame :=
  mkFrame (nrows df) (replace_col col c (cols df)).

(** [df[col] = None]. *)
Definition set_col_none (col : pystr) (df : DataFrame) : DataFrame :=
  set_col col (repeat PNone (nrows df)) df.

(** [for col in required_cols: if col not in df.columns: df[col] = None]. *)
Definition ensure_columns (required : list pystr) (df : DataFrame) : DataFrame :=
  fold_left (fun d col => if mem col (map fst (cols d)) then d
                          else set_col_none col d) required df.

(** [df[labels]]. *)
Definition select (labels : list pystr) (df : DataFrame) : result DataFrame :=
  rbind (rmap (fun k => rbind (get_col k df) (fun c => Ok (k, c))) labels)
        (fun cs => Ok (mkFrame (nrows df) cs)).

(** The rows, as [(label, cell)] pairs ([df.apply(f, axis=1)] hands them to
    [f]) and as bare tuples ([df.values.tolist()], [df.itertuples]). *)
Definition row_at (df : DataFrame) (i : nat) : list (pystr * pyval) :=
  map (fun kc => (fst kc, nth i (snd kc) PNaN)) (cols df).

Definition row_dicts (df : DataFrame) : list (list (pystr * pyval)) :=
  map (row_at df) (seq 0 (nrows df)).

Definition rows_of (df : DataFrame) : list (list pyval) :=
  map (map snd) (row_dicts df).

(** [row[col]] inside [apply]. *)
Definition row_get (row : list (pystr * pyval)) (col : pystr) : result pyval :=
  match lookup col row with
  | Some v => Ok v
  | None => Raise (KeyError col)
  end.

(** Cell-wise update of a column that must exist. *)
Definition apply_col (col : pystr) (f : pyval -> result pyval) (df : DataFrame)
  : result DataFrame :=
  rbind (get_col col df) (fun c =>
  rbind (rmap f c) (fun c' => Ok (set_col col c' df))).

(** Update of a column as a whole, [df[col] = f(df[col])]. *)
Definition update_col (col : pystr) (f : list pyval -> result (list pyval))
           (df : DataFrame) : result DataFrame :=
  rbind (get_col col df) (fun c =>
  rbind (f c) (fun c' => Ok (set_col col c' df))).

(** [df.where(pd.notnull(df), None)] on a frame whose date_posted column
    went through [pd.to_datetime]: that column is datetime64 and keeps its
    NaT. *)
Definition where_frame (df : DataFrame) : DataFrame :=
  mkFrame (nrows df)
          (map (fun kc => (fst kc, if pystr_eqb (fst kc) (lit "date_posted")
                                   then snd kc else where_notnull (snd kc)))
               (cols df)).

(** ** The outside world: console, network, configuration file, database *)

Inductive provider := Adzuna | Jooble | RemoteOK.

(** One constructor per kind of [print] in the scripts. *)
Inductive message :=
| EtlStart | EtlFinished
| ConfigUnreadable | ConfigParseFailed
| ConnectStart | Connected
| ConnectErrorGeneric | ConnectErrorAuth | ConnectErrorOther
| ConnectMissingKey | ConnectUnexpected | ConnectError
| FetchStart | NoJobsWarning | Fetched | ApiError | UnexpectedFormat | Halting
| LoadStart | NoDataToLoad | TableChecked | Merged (n : nat) | SqlError
| ConfigKeyMissing
| ConnectionClosed.

(** What a run does, in order.  [Normalize] and [AssignKeys] mark the entry
    into the two pure stages; the others are calls that leave the process. *)
Inductive event :=
| Print (m : message)
| ReadConfig
| DbConnect
| HttpRequest
| Normalize
| OpenCursor
| CreateTable
| Commit
| AssignKeys
| ExecuteMany (n : nat)
| Rollback
| CloseCursor
| CloseConnection.

(** A table: its rows, the first column being the primary key. *)
Definition table := list (list pyval).

(** The provider's table as committed and as the open transaction sees it
    ([None]: no such table), whether the local variables [cursor] and [conn]
    hold an object (the [finally] blocks test them), and the trace so far. *)
Record world := mkWorld {
  committed : option table;
  working : option table;
  cursor : bool;
  conn : bool;
  trace : list event
}.

(** The reply to the single HTTP request of a run. *)
Inductive http_reply :=
| TransportError
| Response (status : Z) (body : option pyval).   (* [None]: not JSON *)

(** The configuration file: sections of options. *)
Definition ini := list (pystr * list (pystr * pystr)).

Inductive config_source :=
| Missing
| Malformed
| Parsed (c : ini).

(** Which database calls fail, and with what.  [executemany] fails after
    having applied a number of rows of the batch. *)
Record db_faults := mkFaults {
  cursor_fault : option exn;
  create_fault : option exn;
  commit_ddl_fault : option exn;
  executemany_fault : option (nat * exn);
  commit_rows_fault : option exn
}.

Definition no_faults : db_faults := mkFaults None None None None None.

Record env := mkEnv {
  config_file : config_source;
  connect_fault : option exn;
  reply : http_reply;
  faults : db_faults
}.

Inductive connection := Conn.

(** ** State and exceptions *)

Definition M (A : Type) := world -> result A * world.

Definition ret {A} (a : A) : M A := fun w => (Ok a, w).

Definition bind {A B} (m : M A) (k : A -> M B) : M B :=
  fun w => match m w with
           | (Ok a, w') => k a w'
           | (Raise e, w') => (Raise e, w')
           end.

Definition raise {A} (e : exn) : M A := fun w => (Raise e, w).

Definition lift {A} (r : result A) : M A := fun w => (r, w).

Definition emit (ev : event) : M unit :=
  fun w => (Ok tt, mkWorld (committed w) (working w) (cursor w) (conn w)
                           (trace w ++ [ev])).

(** [try: body except ...: handler]; [handler e = None] when no clause
    matches the class of [e]. *)
Definition try_except {A} (body : M A) (handler : exn -> option (M A)) : M A :=
  fun w => match body w with
           | (Ok a, w') => (Ok a, w')
           | (Raise e, w') =>
               match handler e with
               | Some h => h w'
               | None => (Raise e, w')
               end
           end.

(** [try: body finally: fin]. *)
Definition try_finally {A} (body : M A) (fin : M unit) : M A :=
  fun w => let (r, w') := body w in
           match fin w' with
           | (Ok _, w'') => (r, w'')
           | (Raise e, w'') => (Raise e, w'')
           end.

Declare Scope etl_scope.
Delimit Scope etl_scope with etl.
Notation "x <- m ;; k" := (bind m (fun x => k))
  (at level 61, m at next level, right associativity) : etl_scope.
Notation "m ;; k" := (bind m (fun _ => k))
  (at level 61, right associativity) : etl_scope.
Notation "x <~ r ;; k" := (rbind r (fun x => k))
  (at level 61, r at next level, right associativity) : etl_scope.
Open Scope etl_scope.

(** ** Requests *)

Definition requests_call (r : http_reply) : M (Z * option pyval) :=
  emit HttpRequest ;;
  match r with
  | TransportError => raise RequestException
  | Response status body => ret (status, body)
  end.

(** [response.raise_for_status()]: HTTPError on 4xx and 5xx. *)
Definition raise_for_status (status : Z) : M unit :=
  if (400 <=? status) && (status <? 600) then raise RequestException else ret tt.

(** [response.json()]; its JSONDecodeError is a RequestException. *)
Definition response_json (body : option pyval) : M pyval :=
  match body with
  | Some v => ret v
  | None => raise RequestException
  end.

(** [data.get(k, default)] on whatever [data] is. *)
Definition py_get (data : pyval) (k : pystr) (default : pyval) : result pyval :=
  match data with
  | PDict d => Ok (dict_get d k default)
  | _ => Raise AttributeError
  end.

(** ** The database connection *)

Definition get_world : M world := fun w => (Ok w, w).

Definition set_tables (c t : option table) : M unit :=
  fun w => (Ok tt, mkWorld c t (cursor w) (conn w) (trace w)).

Definition set_cursor (b : bool) : M unit :=
  fun w => (Ok tt, mkWorld (committed w) (working w) b (conn w) (trace w)).

Definition set_conn (b : bool) : M unit :=
  fun w => (Ok tt, mkWorld (committed w) (working w) (cursor w) b (trace w)).

Definition fail_if (f : option exn) : M unit :=
  match f with
  | Some e => raise e
  | None => ret tt
  end.

(** [cursor = conn.cursor()]. *)
Definition conn_cursor (f : db_faults) : M unit :=
  emit OpenCursor ;;
  fail_if (cursor_fault f) ;;
  set_cursor true.

(** [cursor.execute(create_table_query)]: creates the table unless it is
    there. *)
Definition execute_create (f : db_faults) : M unit :=
  emit CreateTable ;;
  fail_if (create_fault f) ;;
  w <- get_world ;;
  set_tables (committed w)
             (match working w with None => Some [] | Some t => Some t end).

(** [conn.commit()]. *)
Definition conn_commit (f : option exn) : M unit :=
  emit Commit ;;
  fail_if f ;;
  w <- get_world ;;
  set_tables (working w) (working w).

(** [conn.rollback()]. *)
Definition conn_rollback : M unit :=
  emit Rollback ;;
  w <- get_world ;;
  set_tables (committed w) (committed w).

(** [if cursor: cursor.close()]. *)
Definition cursor_close : M unit :=
  w <- get_world ;;
  if cursor w then emit CloseCursor else ret tt.

(** [conn.close()]: what was not committed is lost. *)
Definition conn_close : M unit :=
  emit CloseConnection ;;
  w <- get_world ;;
  set_tables (committed w) (committed w).

Section Pipelines.

(** Two functions of the Python runtime stay parameters: [repr] of a list
    or dict (what [str] shows for them), and pandas' date parser on a
    column, with [errors="coerce"]: what it cannot read becomes NaT, and it
    can still raise (time zone offsets that differ from cell to cell). *)
Variable py_repr : pyval -> pystr.
Variable to_datetime : list pyval -> result (list pyval).

(** A proof depends on a parameter only through its statement. *)
Set Default Proof Using "Type".

(** [str(v)], also what an f-string and [.astype(str)] put for [v]. *)
Definition py_str (v : pyval) : pystr :=
  match v with
  | PNone => lit "None"
  | PNaN => lit "nan"
  | PBool true => lit "True"
  | PBool false => lit "False"
  | PInt z => str_int z
  | PStr s => s
  | PList _ | PDict _ => py_repr v
  end.

(** [.astype(str)] on a column: in a float64 column an integer shows as
    the double it is stored as and a missing value as "nan"; any other
    column shows each cell as [str] does. *)
Definition astype_str (c : list pyval) : list pyval :=
  if float_column c
  then map (fun v => PStr match v with
                          | PInt z => float_str z
                          | _ => lit "nan"
                          end) c
  else map (fun v => PStr (py_str v)) c.

(** [df['date_posted'] = pd.to_datetime(df['date_posted'], errors='coerce')]. *)
Definition convert_dates (df : DataFrame) : result DataFrame :=
  update_col (lit "date_posted") to_datetime df.

(** ** The MERGE statement, one source row at a time *)

Definition row_key (r : list pyval) : pystr :=
  match r with
  | k :: _ => py_str k
  | [] => []
  end.

(** WHEN MATCHED: every column of the target row is overwritten;
    WHEN NOT MATCHED: the row is inserted. *)
Fixpoint merge_row (t : table) (r : list pyval) : table :=
  match t with
  | [] => [r]
  | r' :: t' =>
      if pystr_eqb (row_key r) (row_key r') then r :: t' else r' :: merge_row t' r
  end.

(** [cursor.executemany(merge_query, rows)]. *)
Definition executemany (f : db_faults) (rows : list (list pyval)) : M unit :=
  emit (ExecuteMany (List.length rows)) ;;
  w <- get_world ;;
  match working w with
  | None => raise (PyodbcError (lit "42S02"))
  | Some t =>
      match executemany_fault f with
      | Some (n, e) =>
          set_tables (committed w) (Some (fold_left merge_row (firstn n rows) t)) ;;
          raise e
      | None =>
          set_tables (committed w) (Some (fold_left merge_row rows t))
      end
  end.

(** ** Adzuna.py *)

(** [get_config] (the same in Adzuna.py and Jooble.py). *)
Definition get_config (src : config_source) : M (option ini) :=
  emit ReadConfig ;;
  match src with
  | Missing => emit (Print ConfigUnreadable) ;; ret None
  | Malformed => emit (Print ConfigParseFailed) ;; ret None
  | Parsed c => ret (Some c)
  end.

Definition adzuna_renames : list (pystr * pystr) :=
  [(lit "id", lit "api_id"); (lit "created", lit "date_posted");
   (lit "title", lit "position"); (lit "salary_min", lit "salary_min");
   (lit "salary_max", lit "salary_max"); (lit "redirect_url", lit "redirect_url")].

Definition adzuna_required : list pystr :=
  [lit "api_id"; lit "date_posted"; lit "company"; lit "position"; lit "location";
   lit "category"; lit "salary_min"; lit "salary_max"; lit "redirect_url"].

(** The four steps of the salary cleaning on one cell.  [round(0)] leaves
    an integer as it is; [astype("Int64")] refuses a column with a value
    that does not fit 64 bits ("cannot safely cast"), so that [clip] only
    ever raises a negative salary to 0. *)
Definition adzuna_salary (v : pyval) : result pyval :=
  let z := fillna0 (to_numeric v) in
  if (-9223372036854775808 <=? z) && (z <=? 9223372036854775807)
  then Ok (PInt (clip 0 9223372036854775807 z))
  else Raise TypeError.

(** Lines 48-84 of Adzuna.py: what [fetch_adzuna_data] does to the frame. *)
Definition adzuna_transform (df : DataFrame) : result DataFrame :=
  let df := rename adzuna_renames df in
  df <~ apply_col (lit "company")
          (fun x => Ok match x with
                       | PDict d => dict_get d (lit "display_name") PNone
                       | _ => x
                       end) df ;;
  df <~ apply_col (lit "location")
          (fun x => match x with
                    | PDict d => join_py (lit ", ") (dict_get d (lit "area") (PList []))
                    | _ => Ok x
                    end) df ;;
  df <~ apply_col (lit "category")
          (fun x => Ok match x with
                       | PDict d => dict_get d (lit "label") PNone
                       | _ => x
                       end) df ;;
  let df := ensure_columns adzuna_required df in
  df <~ select adzuna_required df ;;
  df <~ apply_col (lit "salary_min") adzuna_salary df ;;
  df <~ apply_col (lit "salary_max") adzuna_salary df ;;
  Ok df.

Definition fetch_adzuna_data (net : http_reply) : M DataFrame :=
  emit (Print FetchStart) ;;
  try_except
    (response <- requests_call net ;;
     raise_for_status (fst response) ;;
     data <- response_json (snd response) ;;
     jobs <- lift (py_get data (lit "results") (PList [])) ;;
     if negb (truthy jobs) then
       emit (Print NoJobsWarning) ;; ret empty_frame
     else
       df <- lift (frame_of jobs) ;;
       emit Normalize ;;
       df <- lift (adzuna_transform df) ;;
       emit (Print Fetched) ;;
       ret df)
    (fun e => match e with
              | RequestException => Some (emit (Print ApiError) ;; ret empty_frame)
              | _ => None
              end).

(** The lambda of [df.apply(..., axis=1)] in both loaders: the surrogate
    key of a row. *)
Definition key_text (company position location : pyval) : pystr :=
  py_str company ++ lit "-" ++ py_str position ++ lit "-" ++ py_str location.

Definition surrogate_key (company position location : pyval) : result pyval :=
  match encode (key_text company position location) with
  | Some bytes => Ok (PStr (SHA256.hexdigest bytes))
  | None => Raise UnicodeEncodeError
  end.

Definition unique_job_id (row : list (pystr * pyval)) : result pyval :=
  company <~ row_get row (lit "company") ;;
  position <~ row_get row (lit "position") ;;
  location <~ row_get row (lit "location") ;;
  surrogate_key company position location.

Definition adzuna_columns : list pystr :=
  [lit "unique_job_id"; lit "api_id"; lit "date_posted"; lit "company";
   lit "position"; lit "location"; lit "category"; lit "salary_min";
   lit "salary_max"; lit "redirect_url"].

(** From [df['unique_job_id'] = df.apply(...)] to [data_to_load]. *)
Definition keyed_rows (columns : list pystr) (df : DataFrame) : result (list (list pyval)) :=
  keys <~ rmap unique_job_id (row_dicts df) ;;
  df <~ select columns (set_col (lit "unique_job_id") keys df) ;;
  Ok (rows_of (where_frame df)).

(** The body of the [try] of the two hashing loaders. *)
Definition hashed_load (columns : list pystr) (df : DataFrame) (f : db_faults) : M unit :=
  conn_cursor f ;;
  execute_create f ;;
  conn_commit (commit_ddl_fault f) ;;
  emit AssignKeys ;;
  data_to_load <- lift (keyed_rows columns df) ;;
  executemany f data_to_load ;;
  conn_commit (commit_rows_fault f) ;;
  emit (Print (Merged (List.length data_to_load))).

Definition load_adzuna_to_sql (df : DataFrame) (f : db_faults) : M unit :=
  emit (Print LoadStart) ;;
  if df_empty df then emit (Print NoDataToLoad) ;; ret tt
  else
    set_cursor false ;;
    try_finally
      (try_except (hashed_load adzuna_columns df f)
                  (fun _ => Some (emit (Print SqlError) ;; conn_rollback)))
      cursor_close.

(** [config[section]] and [section[option]]. *)
Definition config_get {A} (c : list (pystr * A)) (k : pystr) : result A :=
  match lookup k c with
  | Some v => Ok v
  | None => Raise (KeyError k)
  end.

(** db_utils.py. *)
Definition get_db_connection (db_config : list (pystr * pystr)) (fault : option exn)
  : M (option connection) :=
  try_except
    (_ <- lift (config_get db_config (lit "server")) ;;
     _ <- lift (config_get db_config (lit "database")) ;;
     emit DbConnect ;;
     fail_if fault ;;
     emit (Print Connected) ;;
     ret (Some Conn))
    (fun e => Some
       match e with
       | PyodbcError sqlstate =>
           emit (Print (if pystr_eqb sqlstate (lit "HY000") then ConnectErrorGeneric
                        else if pystr_eqb sqlstate (lit "28000") then ConnectErrorAuth
                        else ConnectErrorOther)) ;; ret None
       | KeyError _ => emit (Print ConnectMissingKey) ;; ret None
       | _ => emit (Print ConnectUnexpected) ;; ret None
       end).

(** [finally: if conn: conn.close(); print(...)]; Adzuna and Jooble print
    a second line. *)
Definition close_if_connected (finished : bool) : M unit :=
  w <- get_world ;;
  if conn w then
    conn_close ;; emit (Print ConnectionClosed) ;;
    if finished then emit (Print EtlFinished) else ret tt
  else ret tt.

Definition is_some {A} (o : option A) : bool :=
  match o with Some _ => true | None => false end.

Definition adzuna_main (e : env) : M unit :=
  emit (Print EtlStart) ;;
  config <- get_config (config_file e) ;;
  match config with
  | None => ret tt
  | Some config =>
      set_conn false ;;
      try_finally
        (db_config <- lift (config_get config (lit "database")) ;;
         c <- get_db_connection db_config (connect_fault e) ;;
         set_conn (is_some c) ;;
         if is_some c then
           adzuna <- lift (config_get config (lit "adzuna")) ;;
           _ <- lift (config_get adzuna (lit "app_id")) ;;
           _ <- lift (config_get adzuna (lit "app_key")) ;;
           adzuna_df <- fetch_adzuna_data (reply e) ;;
           adzuna_df <- lift (convert_dates adzuna_df) ;;
           load_adzuna_to_sql adzuna_df (faults e)
         else ret tt)
        (close_if_connected true)
  end.

(** ** Jooble.py *)

Definition jooble_renames : list (pystr * pystr) :=
  [(lit "id", lit "api_id"); (lit "updated", lit "date_posted");
   (lit "title", lit "position"); (lit "snippet", lit "tags");
   (lit "salary", lit "salary_min"); (lit "link", lit "url")].

Definition jooble_required : list pystr :=
  [lit "api_id"; lit "date_posted"; lit "company"; lit "position"; lit "location";
   lit "tags"; lit "salary_min"; lit "salary_max"; lit "url"].

(** The chain [.str.extract(...).replace(...).astype(float).fillna(0)
    .astype(int)] on one cell of the column that [.astype(str)] made. *)
Definition jooble_salary (v : pyval) : result pyval :=
  match regex_extract (py_str v) with
  | None => Ok (PInt 0)
  | Some token =>
      z <~ float_to_int (strip_non_numeric token) ;;
      Ok (PInt z)
  end.

(** Lines 47-49 and 50-52 of Jooble.py, on the column. *)
Definition jooble_salaries (c : list pyval) : result (list pyval) :=
  rmap jooble_salary (astype_str c).

(** Lines 40-61 of Jooble.py: what [fetch_jooble_data] does to the frame. *)
Definition jooble_transform (df : DataFrame) : result DataFrame :=
  let df := rename jooble_renames df in
  salary <~ get_col (lit "salary_min") df ;;
  let df := set_col (lit "salary_max") salary df in
  df <~ update_col (lit "salary_min") jooble_salaries df ;;
  df <~ update_col (lit "salary_max") jooble_salaries df ;;
  let df := ensure_columns jooble_required df in
  select jooble_required df.

Definition fetch_jooble_data (net : http_reply) : M DataFrame :=
  emit (Print FetchStart) ;;
  try_except
    (response <- requests_call net ;;
     raise_for_status (fst response) ;;
     data <- response_json (snd response) ;;
     jobs <- lift (py_get data (lit "jobs") (PList [])) ;;
     if negb (truthy jobs) then
       emit (Print NoJobsWarning) ;; ret empty_frame
     else
       df <- lift (frame_of jobs) ;;
       emit Normalize ;;
       df <- lift (jooble_transform df) ;;
       emit (Print Fetched) ;;
       ret df)
    (fun e => match e with
              | RequestException => Some (emit (Print ApiError) ;; ret empty_frame)
              | _ => None
              end).

Definition jooble_columns : list pystr :=
  [lit "unique_job_id"; lit "api_id"; lit "date_posted"; lit "company";
   lit "position"; lit "location"; lit "tags"; lit "salary_min";
   lit "salary_max"; lit "url"].

Definition load_jooble_to_sql (df : DataFrame) (f : db_faults) : M unit :=
  emit (Print LoadStart) ;;
  if df_empty df then emit (Print NoDataToLoad) ;; ret tt
  else
    set_cursor false ;;
    try_finally
      (try_except (hashed_load jooble_columns df f)
                  (fun _ => Some (emit (Print SqlError) ;; conn_rollback)))
      cursor_close.

Definition jooble_main (e : env) : M unit :=
  emit (Print EtlStart) ;;
  config <- get_config (config_file e) ;;
  match config with
  | None => ret tt
  | Some config =>
      set_conn false ;;
      try_finally
        (try_except
           (db_config <- lift (config_get config (lit "database")) ;;
            c <- get_db_connection db_config (connect_fault e) ;;
            set_conn (is_some c) ;;
            if is_some c then
              api <- lift (config_get config (lit "api")) ;;
              _ <- lift (config_get api (lit "jooble_api_key")) ;;
              jooble_df <- fetch_jooble_data (reply e) ;;
              jooble_df <- lift (convert_dates jooble_df) ;;
              load_jooble_to_sql jooble_df (faults e)
            else ret tt)
           (fun x => match x with
                     | KeyError _ => Some (emit (Print ConfigKeyMissing))
                     | _ => None
                     end))
        (close_if_connected true)
  end.

(** ** RemoteOK.py *)

(** The dict built for one listing. *)
Definition job_info (job : pyval) : result (list (pystr * pyval)) :=
  match job with
  | PDict d =>
      tags <~ join_py (lit ", ") (dict_get d (lit "tags") (PList [])) ;;
      Ok [(lit "id", dict_get d (lit "id") PNone);
          (lit "date_posted", dict_get d (lit "date") PNone);
          (lit "company", dict_get d (lit "company") PNone);
          (lit "position", dict_get d (lit "position") PNone);
          (lit "location", dict_get d (lit "location") PNone);
          (lit "tags", tags);
          (lit "salary_min",
            if truthy (dict_get d (lit "salary_min") PNone)
            then dict_get d (lit "salary_min") PNone else PNone);
          (lit "salary_max",
            if truthy (dict_get d (lit "salary_max") PNone)
            then dict_get d (lit "salary_max") PNone else PNone);
          (lit "url", dict_get d (lit "url") PNone)]
  | _ => Raise AttributeError
  end.

(** [pd.to_numeric(..., errors='coerce').fillna(0).astype(int)], one cell.
    An integer of up to 2^53 in magnitude comes out as it is whatever type
    pandas gives the column; larger ones, which a float64 column rounds and
    the cast wraps, are outside the model and kept as they are. *)
Definition remoteok_salary (v : pyval) : pyval :=
  PInt (fillna0 (to_numeric v)).

(** Lines 45-56 of RemoteOK.py.  [tz_localize(None)] drops the zone of
    the timestamps, which the opaque cells do not show; where it raises (on
    a column that did not become datetime64) [to_datetime] stands for both
    steps. *)
Definition remoteok_transform (df : DataFrame) : result DataFrame :=
  df <~ convert_dates df ;;
  df <~ update_col (lit "id") (fun c => Ok (astype_str c)) df ;;
  df <~ apply_col (lit "salary_min") (fun v => Ok (remoteok_salary v)) df ;;
  df <~ apply_col (lit "salary_max") (fun v => Ok (remoteok_salary v)) df ;;
  Ok (where_frame df).

(** [None] is Python's [None]: the function returns no frame at all. *)
Definition fetch_remoteok_data (net : http_reply) : M (option DataFrame) :=
  emit (Print FetchStart) ;;
  try_except
    (response <- requests_call net ;;
     raise_for_status (fst response) ;;
     data <- response_json (snd response) ;;
     match data with
     | PList (_ :: job_listings) =>
         match job_listings with
         | [] => emit (Print UnexpectedFormat) ;; ret None
         | _ =>
             jobs_data <- lift (rmap job_info job_listings) ;;
             emit Normalize ;;
             df <- lift (remoteok_transform (frame_of_records jobs_data)) ;;
             emit (Print Fetched) ;;
             ret (Some df)
         end
     | _ => emit (Print UnexpectedFormat) ;; ret None
     end)
    (fun e => match e with
              | RequestException => Some (emit (Print ApiError) ;; ret None)
              | _ => None
              end).

(** [get_db_connection] of RemoteOK.py: it reads the configuration file
    itself.  [config.read] on a missing file reads nothing and says nothing. *)
Definition remoteok_get_db_connection (src : config_source) (fault : option exn)
  : M (option connection) :=
  emit (Print ConnectStart) ;;
  try_except
    (emit ReadConfig ;;
     config <- match src with
               | Missing => ret []
               | Malformed => raise ConfigParserError
               | Parsed c => ret c
               end ;;
     db_config <- lift (config_get config (lit "database")) ;;
     _ <- lift (config_get db_config (lit "server")) ;;
     _ <- lift (config_get db_config (lit "database")) ;;
     emit DbConnect ;;
     fail_if fault ;;
     emit (Print Connected) ;;
     ret (Some Conn))
    (fun e => match e with
              | PyodbcError _ | ConfigParserError =>
                  Some (emit (Print ConnectError) ;; ret None)
              | _ => None
              end).

Definition load_data_to_sql (df : DataFrame) (f : db_faults) : M unit :=
  emit (Print LoadStart) ;;
  set_cursor false ;;
  try_finally
    (try_except
       (conn_cursor f ;;
        execute_create f ;;
        conn_commit (commit_ddl_fault f) ;;
        emit (Print TableChecked) ;;
        let data_to_insert := rows_of df in
        executemany f data_to_insert ;;
        conn_commit (commit_rows_fault f) ;;
        emit (Print (Merged (List.length data_to_insert))))
       (fun e => match e with
                 | PyodbcError _ => Some (emit (Print SqlError) ;; conn_rollback)
                 | _ => None
                 end))
    cursor_close.

Definition remoteok_main (e : env) : M unit :=
  jobs_df <- fetch_remoteok_data (reply e) ;;
  match jobs_df with
  | None => emit (Print Halting) ;; ret tt
  | Some jobs_df =>
      if df_empty jobs_df then emit (Print Halting) ;; ret tt
      else
        set_conn false ;;
        try_finally
          (c <- remoteok_get_db_connection (config_file e) (connect_fault e) ;;
           set_conn (is_some c) ;;
           if is_some c then load_data_to_sql jobs_df (faults e) else ret tt)
          (close_if_connected false)
  end.

(** A run starts with nothing traced and no transaction open. *)
Definition start (t : option table) : world := mkWorld t t false false [].

(** The three scripts side by side. *)
Definition main (p : provider) (e : env) : M unit :=
  match p with
  | Adzuna => adzuna_main e
  | Jooble => jooble_main e
  | RemoteOK => remoteok_main e
  end.

Definition fetch (p : provider) (net : http_reply) : M (option DataFrame) :=
  match p with
  | Adzuna => df <- fetch_adzuna_data net ;; ret (Some df)
  | Jooble => df <- fetch_jooble_data net ;; ret (Some df)
  | RemoteOK => fetch_remoteok_data net
  end.

Definition load (p : provider) (df : DataFrame) (f : db_faults) : M unit :=
  match p with
  | Adzuna => load_adzuna_to_sql df f
  | Jooble => load_jooble_to_sql df f
  | RemoteOK => load_data_to_sql df f
  end.

(** ** Vocabulary of the properties *)

(** The request did not go through: no reply, or a 4xx/5xx status. *)
Definition http_failure (net : http_reply) : bool :=
  match net with
  | TransportError => true
  | Response status _ => (400 <=? status) && (status <? 600)
  end.

(** A reply that lists no job: an empty (or absent) list under the
    provider's key, or, for RemoteOK, the metadata item alone. *)
Definition zero_listings (p : provider) (net : http_reply) : bool :=
  match net with
  | Response status (Some body) =>
      negb ((400 <=? status) && (status <? 600)) &&
      match p, body with
      | Adzuna, PDict d =>
          match dict_get d (lit "results") (PList []) with PList [] => true | _ => false end
      | Jooble, PDict d =>
          match dict_get d (lit "jobs") (PList []) with PList [] => true | _ => false end
      | RemoteOK, PList [_] => true
      | _, _ => false
      end
  | _ => false
  end.

(** What the drivers take for "no data": no frame, or an empty one. *)
Definition no_data (r : option DataFrame) : bool :=
  match r with
  | None => true
  | Some df => df_empty df
  end.

(** An exception of the database driver. *)
Definition driver_error (x : exn) : bool :=
  match x with
  | PyodbcError _ => true
  | _ => false
  end.

(** What the [except] clause of a provider's loader catches:
    [Exception] for Adzuna and Jooble, [pyodbc.Error] for RemoteOK. *)
Definition handled (p : provider) (x : exn) : bool :=
  match p with
  | RemoteOK => driver_error x
  | _ => true
  end.

Definition opt_list {A} (o : option A) : list A :=
  match o with
  | Some a => [a]
  | None => []
  end.

(** The exceptions the database calls of a load are set to raise. *)
Definition fault_list (f : db_faults) : list exn :=
  opt_list (cursor_fault f) ++ opt_list (create_fault f) ++
  opt_list (commit_ddl_fault f) ++ opt_list (option_map snd (executemany_fault f)) ++
  opt_list (commit_rows_fault f).

(** The rows of a table that may not exist. *)
Definition rows (t : option table) : table :=
  match t with
  | Some r => r
  | None => []
  end.

(** How many times [executemany] was called. *)
Definition executions (evs : list event) : nat :=
  List.length (filter (fun ev => match ev with ExecuteMany _ => true | _ => false end) evs).

(** The stages of a run, numbered in the order each script goes through
    them.  Adzuna and Jooble: LOAD_CONFIG, CONNECT_DB, FETCH, NORMALIZE,
    ASSIGN_KEYS, UPSERT, CLOSE_CONNECTION.  RemoteOK: FETCH, NORMALIZE,
    LOAD_CONFIG, CONNECT_DB, UPSERT, CLOSE_CONNECTION. *)
Definition stage (p : provider) (ev : event) : option nat :=
  match p, ev with
  | RemoteOK, HttpRequest => Some 0%nat
  | RemoteOK, Normalize => Some 1%nat
  | RemoteOK, ReadConfig => Some 2%nat
  | RemoteOK, DbConnect => Some 3%nat
  | _, ReadConfig => Some 0%nat
  | _, DbConnect => Some 1%nat
  | _, HttpRequest => Some 2%nat
  | _, Normalize => Some 3%nat
  | _, AssignKeys => Some 4%nat
  | _, ExecuteMany _ => Some 5%nat
  | _, CloseConnection => Some 6%nat
  | _, _ => None
  end.

Definition stages (p : provider) (evs : list event) : list nat :=
  flat_map (fun ev => opt_list (stage p ev)) evs.

Fixpoint increasing (l : list nat) : bool :=
  match l with
  | a :: l' =>
      match l' with
      | b :: _ => Nat.ltb a b && increasing l'
      | [] => true
      end
  | [] => true
  end.

Definition connected_in (evs : list event) : bool :=
  existsb (fun ev => match ev with Print Connected => true | _ => false end) evs.

Definition closed_in (evs : list event) : bool :=
  existsb (fun ev => match ev with CloseConnection => true | _ => false end) evs.

Definition keys_assigned_in (evs : list event) : bool :=
  existsb (fun ev => match ev with AssignKeys => true | _ => false end) evs.

(** Something left the process for the network or the database. *)
Definition outside_in (evs : list event) : bool :=
  existsb (fun ev => match ev with
                     | DbConnect | HttpRequest | OpenCursor | CreateTable | Commit
                     | ExecuteMany _ | Rollback | CloseCursor | CloseConnection => true
                     | _ => false
                     end) evs.

(** The configuration file cannot be read or parsed. *)
Definition unreadable (src : config_source) : bool :=
  match src with
  | Parsed _ => false
  | _ => true
  end.

(** What a run must satisfy, as one test on its trace. *)
Definition orderly (p : provider) (evs : list event) : bool :=
  increasing (stages p evs) && implb (connected_in evs) (closed_in evs) &&
  match p with RemoteOK => negb (keys_assigned_in evs) | _ => true end.

(** A triple of strings whose company and position hold no hyphen. *)
Definition hyphen_free (s : pystr) : bool := forallb (fun c => negb (c =? 45)) s.

Definition plain (company position location : pyval) : bool :=
  match company, position, location with
  | PStr a, PStr b, PStr _ => hyphen_free a && hyphen_free b
  | _, _, _ => false
  end.

(** The identifier RemoteOK gives a listing. *)
Definition listing_id (job : pyval) : pyval :=
  match job with
  | PDict d => dict_get d (lit "id") PNone
  | _ => PNone
  end.

(** A cell that is no integer, or an integer that a double holds exactly. *)
Definition exact_int (v : pyval) : bool :=
  match v with
  | PInt z => Z.abs z <=? 9007199254740992
  | _ => true
  end.

(** What is written for an identifier in the id column: in a float64
    column the float and "nan", otherwise what [str] shows. *)
Definition shown_id (as_float : bool) (v : pyval) : pystr :=
  if as_float
  then match v with
       | PInt z => str_int z ++ lit ".0"
       | _ => lit "nan"
       end
  else py_str v.

(** The labels of the dict that [job_info] builds, in its order. *)
Definition remoteok_labels : list pystr :=
  [lit "id"; lit "date_posted"; lit "company"; lit "position"; lit "location";
   lit "tags"; lit "salary_min"; lit "salary_max"; lit "url"].

Definition is_byte (b : Z) : Prop := 0 <= b < 256.

(** ** Inputs of the concrete runs *)

(** A Python runtime for the concrete runs: none of them renders a list
    or a dict, and dates are left as they come. *)
Definition repr0 : pyval -> pystr := fun _ => [].
Definition dates0 : list pyval -> result (list pyval) := fun c => Ok c.

(** A complete config.ini. *)
Definition config_ok : ini :=
  [(lit "database", [(lit "server", lit "localhost"); (lit "database", lit "jobs")]);
   (lit "adzuna", [(lit "app_id", lit "id"); (lit "app_key", lit "key")]);
   (lit "api", [(lit "jooble_api_key", lit "key")])].

(** A run where the file is there, the server answers and the database
    does what it is asked. *)
Definition env_ok (net : http_reply) : env :=
  mkEnv (Parsed config_ok) None net no_faults.

Definition json_ok (body : pyval) : http_reply := Response 200 (Some body).

(** Adzuna listings: a full one, and one without its company. *)
Definition adzuna_job : pyval :=
  PDict [(lit "id", PStr (lit "1")); (lit "title", PStr (lit "Data Engineer"));
         (lit "company", PDict [(lit "display_name", PStr (lit "Acme"))]);
         (lit "location", PDict [(lit "area", PList [PStr (lit "India"); PStr (lit "Pune")])]);
         (lit "category", PDict [(lit "label", PStr (lit "IT Jobs"))]);
         (lit "salary_min", PInt 40000); (lit "salary_max", PInt 60000);
         (lit "redirect_url", PStr (lit "http://x"))].

Definition adzuna_job_without_company : pyval :=
  PDict [(lit "id", PStr (lit "2")); (lit "title", PStr (lit "Developer"));
         (lit "location", PDict [(lit "area", PList [PStr (lit "India")])]);
         (lit "category", PDict [(lit "label", PStr (lit "IT Jobs"))])].

Definition adzuna_job_null_area : pyval :=
  PDict [(lit "id", PStr (lit "3")); (lit "title", PStr (lit "Analyst"));
         (lit "company", PDict [(lit "display_name", PStr (lit "Acme"))]);
         (lit "location", PDict [(lit "area", PNone)]);
         (lit "category", PDict [(lit "label", PStr (lit "IT Jobs"))])].

Definition adzuna_feed (jobs : list pyval) : http_reply :=
  json_ok (PDict [(lit "results", PList jobs)]).

(** A Jooble listing with the given salary text. *)
Definition jooble_job (salary : pystr) : pyval :=
  PDict [(lit "id", PInt 7); (lit "title", PStr (lit "Python Developer"));
         (lit "company", PStr (lit "Acme")); (lit "location", PStr (lit "Pune"));
         (lit "snippet", PStr (lit "python")); (lit "salary", PStr salary);
         (lit "updated", PStr (lit "2024-01-01")); (lit "link", PStr (lit "http://x"))].

Definition jooble_feed (jobs : list pyval) : http_reply :=
  json_ok (PDict [(lit "jobs", PList jobs)]).

(** The RemoteOK listing of the specification's end-to-end scenario, with
    the salaries left open. *)
Definition remoteok_job (salary_min salary_max : pyval) : pyval :=
  PDict [(lit "id", PStr (lit "123")); (lit "company", PStr (lit "Acme"));
         (lit "position", PStr (lit "Engineer")); (lit "location", PStr (lit "Remote"));
         (lit "tags", PList [PStr (lit "python")]);
         (lit "salary_min", salary_min); (lit "salary_max", salary_max);
         (lit "url", PStr (lit "http://x"))].

Definition remoteok_feed (jobs : list pyval) : http_reply :=
  json_ok (PList (PDict [(lit "legal", PStr (lit "terms"))] :: jobs)).

(** ** Vocabulary of the further properties *)

(** The row stored under a key: the first one, as MERGE matches it. *)
Fixpoint find_row (k : pystr) (t : table) : option (list pyval) :=
  match t with
  | [] => None
  | r :: t' => if pystr_eqb k (row_key r) then Some r else find_row k t'
  end.

(** The last row of a batch with a given key. *)
Fixpoint last_with_key (k : pystr) (batch : list (list pyval)) : option (list pyval) :=
  match batch with
  | [] => None
  | r :: rest =>
      match last_with_key k rest with
      | Some x => Some x
      | None => if pystr_eqb k (row_key r) then Some r else None
      end
  end.

(** The whole batch through MERGE, as [executemany] applies it. *)
Definition merge_batch (batch : list (list pyval)) (t : table) : table :=
  fold_left merge_row batch t.

(** The run printed that rows were merged. *)
Definition merged_in (evs : list event) : bool :=
  existsb (fun ev => match ev with Print (Merged _) => true | _ => false end) evs.

(** How many HTTP requests, connection attempts and messages a trace has. *)
Definition requests (evs : list event) : nat :=
  List.length (filter (fun ev => match ev with HttpRequest => true | _ => false end) evs).

Definition attempts (evs : list event) : nat :=
  List.length (filter (fun ev => match ev with DbConnect => true | _ => false end) evs).

Definition prints (evs : list event) : nat :=
  List.length (filter (fun ev => match ev with Print _ => true | _ => false end) evs).

(** Something was asked of the database. *)
Definition database_in (evs : list event) : bool :=
  existsb (fun ev => match ev with
                     | DbConnect | OpenCursor | CreateTable | Commit | ExecuteMany _
                     | Rollback | CloseCursor | CloseConnection => true
                     | _ => false
                     end) evs.

(** Nothing is asked of the database once the connection is closed. *)
Fixpoint quiet_after_close (evs : list event) : bool :=
  match evs with
  | [] => true
  | CloseConnection :: rest => negb (database_in rest)
  | _ :: rest => quiet_after_close rest
  end.

Definition cursor_closed_in (evs : list event) : bool :=
  existsb (fun ev => match ev with CloseCursor => true | _ => false end) evs.

(** The [database] section names a server and a database. *)
Definition has_keys (db_config : list (pystr * pystr)) : bool :=
  is_some (lookup (lit "server") db_config) &&
  is_some (lookup (lit "database") db_config).

Definition config_has_keys (src : config_source) : bool :=
  match src with
  | Parsed c =>
      match lookup (lit "database") c with
      | Some db_config => has_keys db_config
      | None => false
      end
  | _ => false
  end.

(** A field of a RemoteOK listing, [None] when it is not there. *)
Definition listing_get (k : pystr) (job : pyval) : pyval :=
  match job with
  | PDict d => dict_get d k PNone
  | _ => PNone
  end.

(** A lower-case hexadecimal digit. *)
Definition is_hex (c : Z) : bool :=
  ((48 <=? c) && (c <=? 57)) || ((97 <=? c) && (c <=? 102)).

(** An integer cell within bounds. *)
Definition int_between (lo hi : Z) (v : pyval) : Prop :=
  exists z, v = PInt z /\ lo <= z <= hi.

(** What a cast from float64 to int64 can give for a number that is not
    negative: the number when it fits, the lowest 64-bit integer when not. *)
Definition from_float_cast (v : pyval) : Prop :=
  exists z, v = PInt z /\
            (0 <= z <= 9223372036854775807 \/ z = -9223372036854775808).

(** The part of a token before its first dot, and the characters of
    ASCII. *)
Fixpoint before_dot (s : pystr) : pystr :=
  match s with
  | [] => []
  | c :: s' => if c =? 46 then [] else c :: before_dot s'
  end.

Definition is_ascii (c : Z) : bool := (0 <=? c) && (c <? 128).

(** A cell that is missing or holds an integer that a double holds
    exactly, and the integer of a cell. *)
Definition small_or_missing (v : pyval) : bool :=
  match v with
  | PNone | PNaN => true
  | PInt z => Z.abs z <=? 9007199254740992
  | _ => false
  end.

Definition number_of (v : pyval) : Z :=
  match v with
  | PInt z => z
  | _ => 0
  end.

(** config.ini has what the provider's driver reads, and the server lets
    the driver in. *)
Definition ready (p : provider) (e : env) : bool :=
  config_has_keys (config_file e) && negb (is_some (connect_fault e)) &&
  match p, config_file e with
  | Adzuna, Parsed c =>
      match lookup (lit "adzuna") c with
      | Some s => is_some (lookup (lit "app_id") s) && is_some (lookup (lit "app_key") s)
      | None => false
      end
  | Jooble, Parsed c =>
      match lookup (lit "api") c with
      | Some s => is_some (lookup (lit "jooble_api_key") s)
      | None => false
      end
  | _, _ => true
  end.

Definition config_read_in (evs : list event) : bool :=
  existsb (fun ev => match ev with ReadConfig => true | _ => false end) evs.

Definition reported_in (m : message) (evs : list event) : bool :=
  existsb (fun ev => match ev, m with
                     | Print ConfigKeyMissing, ConfigKeyMissing => true
                     | Print Halting, Halting => true
                     | Print NoDataToLoad, NoDataToLoad => true
                     | _, _ => false
                     end) evs.

(** The rows a provider's loader hands to [executemany]. *)
Definition batch_of (p : provider) (df : DataFrame) : result (list (list pyval)) :=
  match p with
  | Adzuna => keyed_rows adzuna_columns df
  | Jooble => keyed_rows jooble_columns df
  | RemoteOK => Ok (rows_of df)
  end.

(** ** Inputs of the further concrete runs *)

(** A table with one row, and a batch that updates it and inserts a row
    twice. *)
Definition sample_table : table := [[PStr (lit "a"); PInt 1]].

Definition sample_batch : list (list pyval) :=
  [[PStr (lit "b"); PInt 2]; [PStr (lit "a"); PInt 3]; [PStr (lit "b"); PInt 4]].

(** A RemoteOK frame cut down to its key column, the key twice. *)
Definition sample_ids_frame : DataFrame :=
  mkFrame 2 [(lit "id", [PStr (lit "7"); PStr (lit "7")])].

(** Raw frames of one listing. *)
Definition sample_adzuna_raw : DataFrame :=
  mkFrame 1 [(lit "company", [PDict [(lit "display_name", PStr (lit "Acme"))]]);
             (lit "location", [PDict [(lit "area", PList [PStr (lit "Pune")])]]);
             (lit "category", [PNone]);
             (lit "salary_min", [PInt (-7)])].

Definition sample_jooble_raw : DataFrame :=
  mkFrame 1 [(lit "salary", [PStr (lit "from 1,200 to 1,500")])].

(** A normalised frame of one row, every cell a string. *)
Definition sample_normal_frame : DataFrame :=
  mkFrame 1 (map (fun k => (k, [PStr k])) adzuna_required).

Definition sample_row : list (pystr * pyval) :=
  [(lit "company", PStr (lit "Acme")); (lit "position", PStr (lit "Engineer"));
   (lit "location", PStr (lit "Remote"))].

(** * Properties *)

(** ** Strings, lookups, frames *)

Lemma pystr_eqb_refl (a : pystr) : pystr_eqb a a = true.
Proof.
  induction a as [|x a IH]; simpl; [reflexivity|].
  now rewrite Z.eqb_refl, IH.
Qed.

Lemma pystr_eqb_eq (a b : pystr) : pystr_eqb a b = true <-> a = b.
Proof.
  split; [|intros ->; apply pystr_eqb_refl].
  revert b; induction a as [|x a IH]; intros [|y b]; simpl; try easy.
  intros H; apply andb_true_iff in H as [Hx Hab].
  apply Z.eqb_eq in Hx; subst; f_equal; auto.
Qed.

Lemma lookup_replace_same (k : pystr) (c : list pyval) l :
  lookup k (replace_col k c l) = Some c.
Proof.
  induction l as [|[k' c'] l IH]; simpl.
  - now rewrite pystr_eqb_refl.
  - destruct (pystr_eqb k k') eqn:E; simpl; rewrite E; auto.
Qed.

Lemma lookup_replace_other (k k' : pystr) (c : list pyval) l :
  pystr_eqb k k' = false ->
  lookup k (replace_col k' c l) = lookup k l.
Proof.
  intros Hk; induction l as [|[k0 c0] l IH]; simpl.
  - now rewrite Hk.
  - destruct (pystr_eqb k' k0) eqn:E; simpl.
    + apply pystr_eqb_eq in E; subst k0. now rewrite Hk.
    + now rewrite IH.
Qed.

Lemma mem_lookup {A} (k : pystr) (l : list (pystr * A)) :
  mem k (map fst l) = true -> exists v, lookup k l = Some v.
Proof.
  induction l as [|[k' v] l IH]; simpl; [discriminate|].
  destruct (pystr_eqb k k'); simpl; eauto.
Qed.

Lemma lookup_mem {A} (k : pystr) (l : list (pystr * A)) v :
  lookup k l = Some v -> mem k (map fst l) = true.
Proof.
  induction l as [|[k' v'] l IH]; simpl; [discriminate|].
  destruct (pystr_eqb k k'); simpl; auto.
Qed.

(** [ensure_columns] leaves the columns that exist as they are. *)
Lemma ensure_columns_lookup (required : list pystr) (df : DataFrame) k c :
  lookup k (cols df) = Some c ->
  lookup k (cols (ensure_columns required df)) = Some c.
Proof.
  unfold ensure_columns. revert df.
  induction required as [|r required IH]; intros df H; simpl; [exact H|].
  apply IH.
  destruct (mem r (map fst (cols df))) eqn:M; [exact H|].
  unfold set_col_none, set_col; simpl.
  rewrite lookup_replace_other; [exact H|].
  destruct (pystr_eqb k r) eqn:E; [|reflexivity].
  apply pystr_eqb_eq in E; subst r.
  apply lookup_mem in H. congruence.
Qed.

Lemma rmap_length {A B} (f : A -> result B) l l' :
  rmap f l = Ok l' -> List.length l' = List.length l.
Proof.
  revert l'; induction l as [|x l IH]; simpl; intros l' H.
  - now inversion H.
  - destruct (f x); [|discriminate].
    destruct (rmap f l); [|discriminate].
    inversion H; simpl; f_equal; auto.
Qed.

Lemma rmap_total {A B} (f : A -> B) (l : list A) :
  rmap (fun x => Ok (f x)) l = Ok (map f l).
Proof.
  induction l as [|x l IH]; simpl; [reflexivity|now rewrite IH].
Qed.

(** ** The Jooble salary expression *)

Lemma regex_extract_skip (pre s : pystr) :
  forallb (fun c => negb (is_digit c)) pre = true ->
  regex_extract (pre ++ s) = regex_extract s.
Proof.
  induction pre as [|c pre IH]; simpl; [reflexivity|].
  intros H; apply andb_true_iff in H as [Hc Hpre].
  apply negb_true_iff in Hc; rewrite Hc; auto.
Qed.

Lemma take_token_app (tok rest : pystr) :
  forallb token_char tok = true -> ends_token rest = true ->
  take_token (tok ++ rest) = tok.
Proof.
  intros Htok Hrest; induction tok as [|c tok IH];
    cbn [take_token app forallb ends_token] in *.
  - destruct rest as [|c rest]; [reflexivity|].
    cbn [take_token]. apply negb_true_iff in Hrest; now rewrite Hrest.
  - apply andb_true_iff in Htok as [Hc Htok]; rewrite Hc; f_equal; auto.
Qed.

Lemma count_dots_filter (s : pystr) :
  count_occ Z.eq_dec (filter is_digit s) 46 = O.
Proof.
  induction s as [|c s IH]; simpl; [reflexivity|].
  destruct (is_digit c) eqn:E; simpl; [|exact IH].
  destruct (Z.eq_dec c 46) as [->|_]; [discriminate E|exact IH].
Qed.

(** The text of a salary with a numeric token in it: what the chain makes
    of the cell is what the conversions make of the token, commas removed. *)
Lemma jooble_salary_token (pre tok rest : pystr) (d : Z) :
  forallb (fun c => negb (is_digit c)) pre = true ->
  is_digit d = true ->
  forallb token_char tok = true ->
  ends_token rest = true ->
  regex_extract (pre ++ (d :: tok) ++ rest) = Some (d :: tok) /\
  jooble_salary (PStr (pre ++ (d :: tok) ++ rest)) =
    rbind (float_to_int (strip_non_numeric (d :: tok))) (fun z => Ok (PInt z)).
Proof.
  intros Hpre Hd Htok Hrest.
  assert (E : regex_extract (pre ++ (d :: tok) ++ rest) = Some (d :: tok)).
  { rewrite regex_extract_skip by exact Hpre.
    simpl. rewrite Hd. now rewrite take_token_app. }
  split; [exact E|].
  unfold jooble_salary; cbn [py_str]; rewrite E. reflexivity.
Qed.

(** ** Doubles *)

Lemma round_half_even_exact (n d : Z) : 0 < d -> round_half_even (n * d) d = n.
Proof.
  intros Hd. unfold round_half_even.
  rewrite Z.div_mul, Z.mod_mul by lia.
  assert ((2 * 0 <? d) = true) as -> by (apply Z.ltb_lt; lia). reflexivity.
Qed.

Lemma round_half_even_bounds (n d : Z) :
  0 < d -> n / d <= round_half_even n d <= n / d + 1.
Proof.
  intros Hd. unfold round_half_even.
  destruct (2 * (n mod d) <? d); [lia|].
  destruct (d <? 2 * (n mod d)); [lia|].
  destruct (Z.even (n / d)); lia.
Qed.

Lemma pow2_pos (k : Z) : 0 <= k -> 0 < 2 ^ k.
Proof. intros; apply Z.pow_pos_nonneg; lia. Qed.

(** Integers up to 2^53 are doubles. *)
Lemma nearest_double_exact (v d : Z) :
  0 <= v <= 2 ^ 53 -> 0 < d ->
  exists m e, nearest_double (v * d) d = Finite m e /\ trunc m e = v.
Proof.
  intros Hv Hd. unfold nearest_double.
  destruct (Z.eqb_spec (v * d) 0) as [E|E].
  { exists 0, 0. split; [reflexivity|]. unfold trunc. cbn. nia. }
  assert (Hv1 : 1 <= v) by nia.
  assert (L : leading_bit (v * d) d = Z.log2 v).
  { unfold leading_bit.
    assert ((d <=? v * d) = true) as -> by (apply Z.leb_le; nia).
    now rewrite Z.div_mul by lia. }
  rewrite L.
  assert (B : 0 <= Z.log2 v <= 53).
  { split; [apply Z.log2_nonneg|].
    destruct (Z.eq_dec v (2 ^ 53)) as [->|Hne]; [rewrite Z.log2_pow2; lia|].
    assert (Z.log2 v < 53) by (apply Z.log2_lt_pow2; lia). lia. }
  rewrite Z.max_l by lia.
  remember (Z.log2 v - 52) as s eqn:Es.
  assert ((971 <? s) = false) as -> by (apply Z.ltb_ge; lia).
  assert ((s =? 971) = false) as -> by (apply Z.eqb_neq; lia).
  cbn [orb andb].
  do 2 eexists; split; [reflexivity|].
  unfold scaled, trunc.
  destruct (Z.leb_spec 0 s) as [Hs|Hs]; cbn [fst snd].
  - assert (Hs' : s = 0 \/ s = 1) by lia. destruct Hs' as [->| ->].
    + change (2 ^ 0) with 1. rewrite !Z.mul_1_r. apply round_half_even_exact; lia.
    + change (2 ^ 1) with 2.
      assert (v = 2 ^ 53).
      { pose proof (Z.log2_spec v ltac:(lia)) as [Hlo _].
        replace (Z.log2 v) with 53 in Hlo by lia. lia. }
      subst v.
      replace (2 ^ 53 * d) with (2 ^ 52 * (d * 2)) by lia.
      rewrite round_half_even_exact by lia. lia.
  - pose proof (pow2_pos (- s) ltac:(lia)) as Hp.
    replace (v * d * 2 ^ (- s)) with (v * 2 ^ (- s) * d) by lia.
    rewrite round_half_even_exact by lia.
    apply Z.div_mul; lia.
Qed.

Lemma astype_int_exact (v d : Z) :
  0 <= v <= 2 ^ 53 -> 0 < d -> astype_int (nearest_double (v * d) d) = Ok v.
Proof.
  intros Hv Hd. destruct (nearest_double_exact v d Hv Hd) as (m & e & -> & T).
  cbn [astype_int]. rewrite T.
  assert ((v <? 9223372036854775808) = true) as -> by (apply Z.ltb_lt; lia).
  reflexivity.
Qed.

(** Below 2^53 the integer part survives, up to the rounding of the fraction. *)
Lemma astype_int_bracket (n d : Z) :
  0 <= n -> 0 < d -> n / d < 2 ^ 53 ->
  exists t, astype_int (nearest_double n d) = Ok t /\ n / d <= t <= n / d + 1.
Proof.
  intros Hn Hd Hq. unfold nearest_double.
  destruct (Z.eqb_spec n 0) as [->|E].
  { exists 0. cbn [astype_int]. split; [reflexivity|]. rewrite Z.div_0_l; lia. }
  assert (A0 : 0 <= n / d) by (apply Z.div_pos; lia).
  assert (L : leading_bit n d <= 52).
  { unfold leading_bit. destruct (Z.leb_spec d n) as [Hdn|Hdn].
    - assert (1 <= n / d) by (apply Z.div_le_lower_bound; lia).
      assert (Z.log2 (n / d) < 53) by (apply Z.log2_lt_pow2; lia). lia.
    - pose proof (Z.log2_up_nonneg ((d + n - 1) / n)). lia. }
  set (s := Z.max (leading_bit n d - 52) (-1074)).
  assert (Hs : s <= 0) by (subst s; lia).
  assert ((971 <? s) = false) as -> by (apply Z.ltb_ge; lia).
  assert ((s =? 971) = false) as -> by (apply Z.eqb_neq; lia).
  cbn [orb andb astype_int].
  unfold scaled, trunc.
  assert (Fin : forall t, n / d <= t <= n / d + 1 ->
            exists t', Ok (if t <? 9223372036854775808 then t else -9223372036854775808)
                       = Ok t' /\ n / d <= t' <= n / d + 1).
  { intros t Ht. exists t. split; [|exact Ht].
    assert ((t <? 9223372036854775808) = true) as -> by (apply Z.ltb_lt; lia).
    reflexivity. }
  destruct (Z.leb_spec 0 s) as [Hs0|Hs0]; cbn [fst snd]; apply Fin.
  - assert (s = 0) as -> by lia. change (2 ^ 0) with 1. rewrite !Z.mul_1_r.
    apply round_half_even_bounds; lia.
  - pose proof (pow2_pos (- s) ltac:(lia)) as Hp.
    set (P := 2 ^ (- s)) in *.
    pose proof (round_half_even_bounds (n * P) d Hd) as [Hlo Hhi].
    pose proof (Z.mul_div_le n d Hd) as Hle.
    pose proof (Z.mul_succ_div_gt n d Hd) as Hgt.
    assert (G1 : n / d * P <= n * P / d) by (apply Z.div_le_lower_bound; nia).
    assert (G2 : n * P / d < (n / d + 1) * P) by (apply Z.div_lt_upper_bound; nia).
    split.
    + apply Z.div_le_lower_bound; lia.
    + apply Z.div_le_upper_bound; lia.
Qed.

(** Whatever the value, the cast gives a 64-bit integer that is not negative
    unless it is the lowest one. *)
Lemma astype_int_range (n d t : Z) :
  0 <= n -> 0 < d -> astype_int (nearest_double n d) = Ok t ->
  0 <= t <= 9223372036854775807 \/ t = -9223372036854775808.
Proof.
  intros Hn Hd. unfold nearest_double.
  destruct (n =? 0).
  { cbn. intros H; injection H as <-. lia. }
  set (s := Z.max _ _).
  destruct (_ || _); [discriminate|].
  cbn [astype_int]. intros H; injection H as <-.
  set (m := round_half_even _ _).
  assert (Hm : 0 <= m).
  { subst m. unfold scaled. destruct (0 <=? s) eqn:E; cbn [fst snd].
    - apply Z.leb_le in E. pose proof (pow2_pos s E).
      pose proof (round_half_even_bounds n (d * 2 ^ s) ltac:(nia)).
      assert (0 <= n / (d * 2 ^ s)) by (apply Z.div_pos; nia). lia.
    - apply Z.leb_gt in E. pose proof (pow2_pos (- s) ltac:(lia)).
      pose proof (round_half_even_bounds (n * 2 ^ (- s)) d Hd).
      assert (0 <= n * 2 ^ (- s) / d) by (apply Z.div_pos; nia). lia. }
  assert (Ht : 0 <= trunc m s).
  { unfold trunc. destruct (0 <=? s) eqn:E.
    - apply Z.leb_le in E. pose proof (pow2_pos s E). nia.
    - apply Z.leb_gt in E. pose proof (pow2_pos (- s) ltac:(lia)).
      apply Z.div_pos; lia. }
  destruct (Z.ltb_spec (trunc m s) 9223372036854775808); lia.
Qed.

Lemma get_col_lookup (k : pystr) (df : DataFrame) c :
  get_col k df = Ok c <-> lookup k (cols df) = Some c.
Proof.
  unfold get_col; destruct (lookup k (cols df)); split; congruence.
Qed.

Lemma apply_col_inv (k : pystr) f (df df' : DataFrame) :
  apply_col k f df = Ok df' ->
  exists c c', lookup k (cols df) = Some c /\ rmap f c = Ok c' /\
               df' = set_col k c' df.
Proof.
  unfold apply_col; intros H.
  destruct (get_col k df) as [c|] eqn:E; [|discriminate].
  cbn [rbind] in H.
  destruct (rmap f c) as [c'|] eqn:E'; [|discriminate].
  cbn [rbind] in H. inversion H; subst.
  apply get_col_lookup in E. eauto.
Qed.

Lemma update_col_inv (k : pystr) f (df df' : DataFrame) :
  update_col k f df = Ok df' ->
  exists c c', lookup k (cols df) = Some c /\ f c = Ok c' /\
               df' = set_col k c' df.
Proof.
  unfold update_col; intros H.
  destruct (get_col k df) as [c|] eqn:E; [|discriminate].
  cbn [rbind] in H.
  destruct (f c) as [c'|] eqn:E'; [|discriminate].
  cbn [rbind] in H. inversion H; subst.
  apply get_col_lookup in E. eauto.
Qed.

Lemma select_cols_lookup (df : DataFrame) (labels : list pystr) cs :
  rmap (fun k => rbind (get_col k df) (fun c => Ok (k, c))) labels = Ok cs ->
  map fst cs = labels /\
  forall k, mem k labels = true -> lookup k cs = lookup k (cols df).
Proof.
  revert cs; induction labels as [|l labels IH]; simpl; intros cs H.
  - inversion H; split; [reflexivity|discriminate].
  - destruct (get_col l df) as [c|] eqn:E; [|discriminate].
    cbn [rbind] in H.
    destruct (rmap _ labels) as [cs'|] eqn:E'; [|discriminate].
    inversion H; subst; clear H.
    destruct (IH cs' eq_refl) as [Hfst Hlk].
    split; [simpl; now rewrite Hfst|].
    intros k Hk; simpl.
    destruct (pystr_eqb k l) eqn:Ekl.
    + apply pystr_eqb_eq in Ekl; subst l.
      apply get_col_lookup in E. now rewrite E.
    + simpl in Hk. apply Hlk. exact Hk.
Qed.

Lemma select_inv (labels : list pystr) (df df' : DataFrame) :
  select labels df = Ok df' ->
  nrows df' = nrows df /\ map fst (cols df') = labels /\
  forall k, mem k labels = true -> lookup k (cols df') = lookup k (cols df).
Proof.
  unfold select; intros H.
  destruct (rmap _ labels) as [cs|] eqn:E; [|discriminate].
  cbn [rbind] in H; inversion H; subst; simpl.
  split; [reflexivity|]. now apply select_cols_lookup.
Qed.

(** C10.  Whenever the Jooble normaliser returns a frame, its salary_max
    column is its salary_min column: both come from the provider's salary
    text through the same extraction. *)
Theorem C10_jooble_salary_max_is_min (df df' : DataFrame) :
  jooble_transform df = Ok df' ->
  exists c, get_col (lit "salary_min") df' = Ok c /\
            get_col (lit "salary_max") df' = Ok c.
Proof.
  unfold jooble_transform; intros H.
  set (df0 := rename jooble_renames df) in H.
  destruct (get_col (lit "salary_min") df0) as [salary|] eqn:E0; [|discriminate].
  cbn [rbind] in H. apply get_col_lookup in E0.
  set (df1 := set_col (lit "salary_max") salary df0) in H.
  destruct (update_col (lit "salary_min") jooble_salaries df1) as [df2|] eqn:E2;
    [|discriminate].
  cbn [rbind] in H.
  destruct (update_col (lit "salary_max") jooble_salaries df2) as [df3|] eqn:E3;
    [|discriminate].
  cbn [rbind] in H.
  apply update_col_inv in E2 as (c & c1 & Hc & Hc1 & ->).
  apply update_col_inv in E3 as (c' & c2 & Hc' & Hc2 & ->).
  subst df1; cbn [set_col cols] in Hc, Hc'.
  rewrite lookup_replace_other in Hc by reflexivity.
  rewrite lookup_replace_other, lookup_replace_same in Hc' by reflexivity.
  assert (c = salary) by congruence; assert (c' = salary) by congruence.
  subst c c'. assert (c2 = c1) by congruence; subst c2.
  apply select_inv in H as (_ & _ & Hlk).
  exists c1; split; apply get_col_lookup; rewrite Hlk by reflexivity;
    apply ensure_columns_lookup; cbn [set_col cols].
  - rewrite lookup_replace_other by reflexivity. apply lookup_replace_same.
  - apply lookup_replace_same.
Qed.

(** ** Running the scripts *)

(** Unfold the monad and the effectful functions, keeping the pure ones
    folded; the world must be a constructor. *)
Ltac run :=
  cbv beta iota zeta delta
    [bind ret raise lift emit try_except try_finally get_world set_tables
     set_cursor set_conn fail_if conn_cursor execute_create conn_commit
     conn_rollback cursor_close conn_close requests_call raise_for_status
     response_json executemany fetch fetch_adzuna_data fetch_jooble_data
     fetch_remoteok_data load load_adzuna_to_sql load_jooble_to_sql
     load_data_to_sql hashed_load get_config get_db_connection
     remoteok_get_db_connection close_if_connected main adzuna_main
     jooble_main remoteok_main start is_some
     fst snd trace committed working cursor conn
     cursor_fault create_fault commit_ddl_fault executemany_fault
     commit_rows_fault config_file connect_fault reply faults].

(** Present the trace as what came before followed by what was added. *)
Ltac new_events := repeat rewrite <- app_assoc; cbn [app].

(** ** Fetchers *)

(** C6 (amended).  Each fetcher, on a transport error or a 4xx/5xx status,
    catches the failure, prints the API error and returns no data (an empty
    frame for Adzuna and Jooble, [None] for RemoteOK); on a reply that lists
    no job it returns no data either.  It never raises in these cases and
    leaves the database alone. *)
Theorem C6_no_data_on_failure_or_empty_feed (p : provider) (net : http_reply) (w : world) :
  http_failure net = true \/ zero_listings p net = true ->
  exists r w' evs,
    fetch p net w = (Ok r, w') /\ no_data r = true /\
    trace w' = trace w ++ evs /\
    (http_failure net = true -> In (Print ApiError) evs) /\
    committed w' = committed w /\ working w' = working w.
Proof.
  destruct w as [c0 t0 cur0 con0 tr0].
  assert (Fin : forall r tr evs (P : Prop),
            no_data r = true -> tr = tr0 ++ evs -> (P -> In (Print ApiError) evs) ->
            exists r' w' evs',
              (Ok r, mkWorld c0 t0 cur0 con0 tr) = (Ok r', w') /\
              no_data r' = true /\ trace w' = tr0 ++ evs' /\
              (P -> In (Print ApiError) evs') /\
              committed w' = c0 /\ working w' = t0).
  { intros r tr evs P Hr -> HP. exists r, (mkWorld c0 t0 cur0 con0 (tr0 ++ evs)), evs.
    repeat split; auto. }
  intros [H|H].
  - destruct net as [|status body]; cbn [http_failure] in H.
    + destruct p; run; (eapply Fin; [reflexivity|new_events; reflexivity|]);
        intros _; simpl; tauto.
    + destruct p; run; rewrite H; run;
        (eapply Fin; [reflexivity|new_events; reflexivity|]);
        intros _; simpl; tauto.
  - destruct net as [|status [body|]]; cbn [zero_listings] in H; try discriminate.
    apply andb_true_iff in H as [Hs H]. apply negb_true_iff in Hs.
    cbn [http_failure]. rewrite Hs.
    destruct p.
    + destruct body as [| | | | | |d]; try discriminate.
      destruct (dict_get d (lit "results") (PList [])) as [| | | | |[|]|] eqn:E;
        try discriminate.
      run; rewrite Hs; run; cbn [py_get]; rewrite E; cbn [truthy negb].
      eapply Fin; [reflexivity|new_events; reflexivity|discriminate].
    + destruct body as [| | | | | |d]; try discriminate.
      destruct (dict_get d (lit "jobs") (PList [])) as [| | | | |[|]|] eqn:E;
        try discriminate.
      run; rewrite Hs; run; cbn [py_get]; rewrite E; cbn [truthy negb].
      eapply Fin; [reflexivity|new_events; reflexivity|discriminate].
    + destruct body as [| | | | |[|meta [|]]|]; try discriminate.
      run; rewrite Hs; run.
      eapply Fin; [reflexivity|new_events; reflexivity|discriminate].
Qed.

(** ** Loaders *)

Lemma driver_error_inv (x : exn) :
  driver_error x = true -> exists s, x = PyodbcError s.
Proof. destruct x; try discriminate; eauto. Qed.

(** Close a goal about a finished run: the result, the events it added,
    and facts that compute. *)
Ltac finished :=
  do 2 eexists; split; [reflexivity|];
  cbn [trace committed working]; split; [new_events; reflexivity|];
  cbn [In executions filter List.length rows];
  repeat split; auto; try tauto; try lia.

(** The [try]/[except Exception]/[finally] of the two hashing loaders,
    when some database call fails. *)
Lemma hashed_load_failure (columns : list pystr) (df : DataFrame) (f : db_faults)
      (c0 : option table) (con0 : bool) (tr0 : list event) :
  fault_list f <> [] ->
  exists w' evs,
    try_finally
      (try_except (hashed_load columns df f)
                  (fun _ => Some (emit (Print SqlError) ;; conn_rollback)))
      cursor_close (mkWorld c0 c0 false con0 tr0) = (Ok tt, w') /\
    trace w' = tr0 ++ evs /\
    In (Print SqlError) evs /\ In Rollback evs /\
    rows (committed w') = rows c0 /\ working w' = committed w' /\
    (executions evs <= 1)%nat.
Proof.
  destruct f as [f1 f2 f3 f4 f5]; unfold fault_list; cbn [cursor_fault
    create_fault commit_ddl_fault executemany_fault commit_rows_fault].
  intros Hf.
  destruct f1 as [e1|]; [run; finished|].
  destruct f2 as [e2|]; [run; finished|].
  destruct f3 as [e3|]; [run; finished|].
  destruct (keyed_rows columns df) as [data|x] eqn:K.
  - destruct f4 as [[n e4]|].
    + run; rewrite K; destruct c0; run; finished.
    + destruct f5 as [e5|]; [|exfalso; apply Hf; reflexivity].
      run; rewrite K; destruct c0; run; finished.
  - run; rewrite K; destruct c0; run; finished.
Qed.

(** C4 (amended).  In every provider's load step, a failure of a database
    call (opening the cursor, creating the table, either commit, the
    upsert) that the loader's [except] clause covers - any exception for
    Adzuna and Jooble, a driver error for RemoteOK - is caught: the load
    returns normally, the error is printed, the transaction is rolled back
    so that the table holds the rows it held before, and the upsert was
    attempted at most once. *)
Theorem C4_load_failure_rolls_back (p : provider) (df : DataFrame) (f : db_faults)
        (w : world) :
  working w = committed w ->
  df_empty df = false ->
  fault_list f <> [] ->
  forallb (handled p) (fault_list f) = true ->
  exists w' evs,
    load p df f w = (Ok tt, w') /\
    trace w' = trace w ++ evs /\
    In (Print SqlError) evs /\ In Rollback evs /\
    rows (committed w') = rows (committed w) /\ working w' = committed w' /\
    (executions evs <= 1)%nat.
Proof.
  destruct w as [c0 t0 cur0 con0 tr0]; cbn [working committed trace].
  intros -> Hdf Hf Hh.
  destruct p.
  - destruct (hashed_load_failure adzuna_columns df f c0 con0
                (tr0 ++ [Print LoadStart]) Hf) as (w' & evs & H & Ht & Hr).
    exists w', (Print LoadStart :: evs).
    split; [|split; [rewrite Ht; new_events; reflexivity|]].
    + unfold load, load_adzuna_to_sql. rewrite <- H. run. rewrite Hdf. reflexivity.
    + cbn [In executions filter] in *. fold (executions evs). tauto.
  - destruct (hashed_load_failure jooble_columns df f c0 con0
                (tr0 ++ [Print LoadStart]) Hf) as (w' & evs & H & Ht & Hr).
    exists w', (Print LoadStart :: evs).
    split; [|split; [rewrite Ht; new_events; reflexivity|]].
    + unfold load, load_jooble_to_sql. rewrite <- H. run. rewrite Hdf. reflexivity.
    + cbn [In executions filter] in *. fold (executions evs). tauto.
  - clear Hdf. destruct f as [f1 f2 f3 f4 f5]; unfold fault_list in *;
      cbn [cursor_fault create_fault commit_ddl_fault executemany_fault
           commit_rows_fault] in *.
    destruct f1 as [e1|].
    { cbn in Hh. apply andb_true_iff in Hh as [He _].
      apply driver_error_inv in He as [s ->]. run; finished. }
    destruct f2 as [e2|].
    { cbn in Hh. apply andb_true_iff in Hh as [He _].
      apply driver_error_inv in He as [s ->]. run; finished. }
    destruct f3 as [e3|].
    { cbn in Hh. apply andb_true_iff in Hh as [He _].
      apply driver_error_inv in He as [s ->]. run; finished. }
    destruct f4 as [[n e4]|].
    { cbn in Hh. apply andb_true_iff in Hh as [He _].
      apply driver_error_inv in He as [s ->]. destruct c0; run; finished. }
    destruct f5 as [e5|]; [|exfalso; apply Hf; reflexivity].
    cbn in Hh. apply andb_true_iff in Hh as [He _].
    apply driver_error_inv in He as [s ->]. destruct c0; run; finished.
Qed.

(** ** Drivers *)

(** Split on whatever the run is waiting for: a scrutinee that holds no
    further case distinction. *)
Ltac split_run :=
  repeat (run;
          match goal with
          | |- context [match ?x with _ => _ end] =>
              lazymatch x with
              | context [match _ with _ => _ end] => fail
              | _ => destruct x eqn:?
              end
          end).

Lemma adzuna_run_orderly (e : env) (t : option table) :
  orderly Adzuna (trace (snd (adzuna_main e (start t)))) = true.
Proof.
  destruct e as [src cf net [f1 f2 f3 f4 f5]].
  split_run; reflexivity.
Qed.

Lemma jooble_run_orderly (e : env) (t : option table) :
  orderly Jooble (trace (snd (jooble_main e (start t)))) = true.
Proof.
  destruct e as [src cf net [f1 f2 f3 f4 f5]].
  split_run; reflexivity.
Qed.

Lemma remoteok_run_orderly (e : env) (t : option table) :
  orderly RemoteOK (trace (snd (remoteok_main e (start t)))) = true.
Proof.
  destruct e as [src cf net [f1 f2 f3 f4 f5]].
  split_run; reflexivity.
Qed.

(** C5 (amended).  A run of Adzuna or Jooble goes through LOAD_CONFIG,
    CONNECT_DB, FETCH, NORMALIZE, ASSIGN_KEYS, UPSERT and CLOSE_CONNECTION
    in this order, each at most once, stopping where something fails; a run
    of RemoteOK goes through FETCH, NORMALIZE, LOAD_CONFIG, CONNECT_DB,
    UPSERT and CLOSE_CONNECTION and assigns no key.  In all three the
    connection is closed whenever it was opened, also when the run ends in
    an exception.  In Adzuna and Jooble a configuration file that cannot be
    read or parsed ends the run, normally, before anything touches the
    network or the database. *)
Theorem C5_run_order (p : provider) (e : env) (t : option table) :
  let r := main p e (start t) in
  increasing (stages p (trace (snd r))) = true /\
  (connected_in (trace (snd r)) = true -> closed_in (trace (snd r)) = true) /\
  (p = RemoteOK -> keys_assigned_in (trace (snd r)) = false) /\
  (p <> RemoteOK -> unreadable (config_file e) = true ->
   fst r = Ok tt /\ outside_in (trace (snd r)) = false).
Proof.
  intros r.
  assert (H : orderly p (trace (snd r)) = true).
  { subst r; destruct p; cbn [main];
      auto using adzuna_run_orderly, jooble_run_orderly, remoteok_run_orderly. }
  unfold orderly in H.
  apply andb_true_iff in H as [H H3]. apply andb_true_iff in H as [H1 H2].
  split; [exact H1|]. split.
  { intros Hc; rewrite Hc in H2; exact H2. }
  split.
  { intros ->. now apply negb_true_iff in H3. }
  intros Hp Hu. subst r.
  destruct e as [src cf net f]; cbn [config_file] in Hu.
  destruct p; [| |congruence];
    (destruct src; [| |discriminate]); split; reflexivity.
Qed.

(** ** UTF-8 *)

Ltac split_ifs :=
  repeat match goal with
         | |- context [if ?b then _ else _] => destruct b eqn:?
         end.

Ltac to_prop :=
  repeat match goal with
         | H : (_ <? _) = true |- _ => apply Z.ltb_lt in H
         | H : (_ <? _) = false |- _ => apply Z.ltb_ge in H
         | H : (_ <=? _) = true |- _ => apply Z.leb_le in H
         | H : (_ <=? _) = false |- _ => apply Z.leb_gt in H
         | H : (_ =? _) = true |- _ => apply Z.eqb_eq in H
         | H : (_ =? _) = false |- _ => apply Z.eqb_neq in H
         | H : (_ && _) = true |- _ => apply andb_true_iff in H as [? ?]
         | H : (_ && _) = false |- _ => clear H
         end.

Lemma utf8_char_nonempty (c : Z) (b : list Z) : utf8_char c = Some b -> b <> [].
Proof.
  unfold utf8_char; split_ifs; intros H; inversion H; discriminate.
Qed.

(** The four shapes of an encoded character. *)
Lemma utf8_char_shape (c : Z) (b : list Z) :
  utf8_char c = Some b ->
  (b = [c] /\ 0 <= c < 128) \/
  (exists x y, b = [x; y] /\ x = 192 + c / 64 /\ y = 128 + c mod 64 /\
               128 <= c < 2048) \/
  (exists x y z, b = [x; y; z] /\ x = 224 + c / 4096 /\
                 y = 128 + (c / 64) mod 64 /\ z = 128 + c mod 64 /\
                 2048 <= c < 65536) \/
  (exists x y z t, b = [x; y; z; t] /\ x = 240 + c / 262144 /\
                   y = 128 + (c / 4096) mod 64 /\ z = 128 + (c / 64) mod 64 /\
                   t = 128 + c mod 64 /\ 65536 <= c < 1114112).
Proof.
  unfold utf8_char; split_ifs; intros H; try discriminate;
    injection H as <-; to_prop.
  - left; split; [reflexivity|lia].
  - right; left; do 2 eexists; repeat split; lia.
  - right; right; left; do 3 eexists; repeat split; lia.
  - right; right; right; do 4 eexists; repeat split; lia.
Qed.

(** No encoding of a character is the beginning of another's. *)
Lemma utf8_char_prefix (c1 c2 : Z) (b1 b2 r1 r2 : list Z) :
  utf8_char c1 = Some b1 -> utf8_char c2 = Some b2 ->
  b1 ++ r1 = b2 ++ r2 -> c1 = c2 /\ r1 = r2.
Proof.
  intros H1 H2 E.
  apply utf8_char_shape in H1, H2.
  destruct H1 as [(-> & ?)|[(x1 & y1 & -> & ? & ? & ?)|
                 [(x1 & y1 & z1 & -> & ? & ? & ? & ?)|
                  (x1 & y1 & z1 & t1 & -> & ? & ? & ? & ? & ?)]]];
  destruct H2 as [(-> & ?)|[(x2 & y2 & -> & ? & ? & ?)|
                 [(x2 & y2 & z2 & -> & ? & ? & ? & ?)|
                  (x2 & y2 & z2 & t2 & -> & ? & ? & ? & ? & ?)]]];
  cbn [app] in E; injection E; intros;
    first [ split; [Z.to_euclidean_division_equations; lia|congruence]
          | exfalso; Z.to_euclidean_division_equations; lia ].
Qed.

Lemma encode_inj (s1 s2 : pystr) (b : list Z) :
  encode s1 = Some b -> encode s2 = Some b -> s1 = s2.
Proof.
  revert s2 b; induction s1 as [|c1 s1 IH]; intros [|c2 s2] b; cbn [encode].
  - reflexivity.
  - intros H1; inversion H1; subst.
    destruct (utf8_char c2) as [b2|] eqn:E2; [|discriminate].
    destruct (encode s2); [|discriminate].
    intros H; inversion H. apply utf8_char_nonempty in E2.
    destruct b2; [congruence|discriminate].
  - destruct (utf8_char c1) as [b1|] eqn:E1; [|discriminate].
    destruct (encode s1); [|discriminate].
    intros H H'; inversion H; inversion H'; subst.
    apply utf8_char_nonempty in E1.
    destruct b1; [congruence|discriminate].
  - destruct (utf8_char c1) as [b1|] eqn:E1; [|discriminate].
    destruct (encode s1) as [bs1|] eqn:Es1; [|discriminate].
    destruct (utf8_char c2) as [b2|] eqn:E2; [|discriminate].
    destruct (encode s2) as [bs2|] eqn:Es2; [|discriminate].
    intros H H'; inversion H; inversion H'; subst.
    destruct (utf8_char_prefix _ _ _ _ _ _ E1 E2 (eq_sym H2)) as [-> ->].
    f_equal. eapply IH; eauto.
Qed.

(** ** The digest and its hexadecimal form *)

Lemma compress_length (h block : list Z) : List.length (SHA256.compress h block) = 8%nat.
Proof. reflexivity. Qed.

Lemma state_length (msg : list Z) : List.length (SHA256.state msg) = 8%nat.
Proof.
  unfold SHA256.state.
  assert (G : forall l h, List.length h = 8%nat ->
                          List.length (fold_left SHA256.compress l h) = 8%nat).
  { induction l as [|b l IH]; intros h Hh; cbn [fold_left]; [exact Hh|].
    apply IH, compress_length. }
  apply G. reflexivity.
Qed.

Lemma flat_map_length_const {A B} (f : A -> list B) (n : nat) (l : list A) :
  (forall x, List.length (f x) = n) ->
  List.length (flat_map f l) = (n * List.length l)%nat.
Proof.
  intros Hf; induction l as [|x l IH]; cbn [flat_map List.length]; [lia|].
  rewrite length_app, Hf, IH. lia.
Qed.

Lemma digest_length (msg : list Z) : List.length (SHA256.digest msg) = 32%nat.
Proof.
  unfold SHA256.digest.
  rewrite (flat_map_length_const _ 4) by reflexivity.
  now rewrite state_length.
Qed.

Lemma hexdigest_length (msg : list Z) : List.length (SHA256.hexdigest msg) = 64%nat.
Proof.
  unfold SHA256.hexdigest, SHA256.hex.
  rewrite (flat_map_length_const _ 2) by reflexivity.
  now rewrite digest_length.
Qed.

Lemma digest_bytes (msg : list Z) : Forall is_byte (SHA256.digest msg).
Proof.
  unfold SHA256.digest. generalize (SHA256.state msg) as l.
  induction l as [|x l IH]; cbn [flat_map]; [constructor|].
  apply Forall_app; split; [|exact IH].
  cbn [SHA256.be_bytes]. repeat constructor; apply Z.mod_pos_bound; lia.
Qed.

Lemma hex_inj (a b : list Z) :
  Forall is_byte a -> Forall is_byte b -> SHA256.hex a = SHA256.hex b -> a = b.
Proof.
  unfold SHA256.hex. intros Ha; revert b.
  induction Ha as [|x a Hx Ha IH]; intros b Hb; destruct Hb as [|y b Hy Hb];
    cbn [flat_map app]; try discriminate; [reflexivity|].
  intros E; injection E as E1 E2 E3.
  f_equal; [|now apply IH].
  unfold is_byte in Hx, Hy. unfold SHA256.hex_digit in E1, E2.
  revert E1 E2; split_ifs; intros; to_prop;
    Z.to_euclidean_division_equations; lia.
Qed.

(** ** The surrogate key *)

Lemma split_at_hyphen (a a' r r' : pystr) :
  hyphen_free a = true -> hyphen_free a' = true ->
  a ++ 45 :: r = a' ++ 45 :: r' -> a = a' /\ r = r'.
Proof.
  revert a'; induction a as [|x a IH]; intros [|y a'] Ha Ha' E;
    cbn [app hyphen_free forallb] in *.
  - injection E as ->. auto.
  - injection E as <- _. discriminate Ha'.
  - injection E as -> _. discriminate Ha.
  - injection E as -> E.
    apply andb_true_iff in Ha as [_ Ha]; apply andb_true_iff in Ha' as [_ Ha'].
    destruct (IH a' Ha Ha' E) as [-> ->]. auto.
Qed.

(** On plain triples the joined text determines the triple. *)
Lemma key_text_inj (c p l c' p' l' : pyval) :
  plain c p l = true -> plain c' p' l' = true ->
  key_text c p l = key_text c' p' l' -> (c, p, l) = (c', p', l').
Proof.
  unfold plain, key_text.
  destruct c as [| | | |a| |]; try discriminate.
  destruct p as [| | | |b| |]; try discriminate.
  destruct l as [| | | |d| |]; try discriminate.
  destruct c' as [| | | |a'| |]; try discriminate.
  destruct p' as [| | | |b'| |]; try discriminate.
  destruct l' as [| | | |d'| |]; try discriminate.
  cbn [py_str]. change (lit "-") with [45]. cbn [app].
  intros H H' E.
  apply andb_true_iff in H as [Ha Hb]; apply andb_true_iff in H' as [Ha' Hb'].
  apply split_at_hyphen in E as [-> E]; [|assumption..].
  apply split_at_hyphen in E as [-> ->]; [|assumption..].
  reflexivity.
Qed.

Lemma surrogate_key_inv (c p l : pyval) (v : pyval) :
  surrogate_key c p l = Ok v ->
  exists bytes, encode (key_text c p l) = Some bytes /\
                v = PStr (SHA256.hexdigest bytes).
Proof.
  unfold surrogate_key. destruct (encode (key_text c p l)) as [bytes|];
    [|discriminate].
  intros H; injection H as <-. eauto.
Qed.

(** C1 (amended).  For a record whose company, position and location
    render to a text that UTF-8 can encode, the key is the hex-encoded
    SHA-256 digest of the UTF-8 encoding of "{company}-{position}-{location}":
    64 hex digits, the same for every record with these three fields and
    for every triple that renders to the same joined text (the hyphen is not
    escaped).  A triple that renders to a different joined text and has the
    same key is a collision of SHA-256: two different messages with one
    digest.  Triples of strings whose company and position hold no hyphen
    render to different texts whenever they differ. *)
Theorem C1_surrogate_key (row : list (pystr * pyval)) (c p l : pyval) (bytes : list Z) :
  row_get row (lit "company") = Ok c ->
  row_get row (lit "position") = Ok p ->
  row_get row (lit "location") = Ok l ->
  encode (key_text c p l) = Some bytes ->
  unique_job_id row = Ok (PStr (SHA256.hexdigest bytes)) /\
  List.length (SHA256.hexdigest bytes) = 64%nat /\
  (forall row',
      row_get row' (lit "company") = Ok c ->
      row_get row' (lit "position") = Ok p ->
      row_get row' (lit "location") = Ok l ->
      unique_job_id row' = unique_job_id row) /\
  (forall c' p' l',
      key_text c' p' l' = key_text c p l ->
      surrogate_key c' p' l' = unique_job_id row) /\
  (forall c' p' l',
      key_text c' p' l' <> key_text c p l ->
      surrogate_key c' p' l' = unique_job_id row ->
      exists bytes',
        encode (key_text c' p' l') = Some bytes' /\ bytes' <> bytes /\
        SHA256.digest bytes' = SHA256.digest bytes) /\
  (forall c' p' l',
      plain c p l = true -> plain c' p' l' = true ->
      (c', p', l') <> (c, p, l) ->
      key_text c' p' l' <> key_text c p l).
Proof.
  intros Hc Hp Hl He.
  assert (K : unique_job_id row = Ok (PStr (SHA256.hexdigest bytes))).
  { unfold unique_job_id. rewrite Hc, Hp, Hl. cbn [rbind].
    unfold surrogate_key. now rewrite He. }
  split; [exact K|]. split; [apply hexdigest_length|].
  split; [|split; [|split]].
  - intros row' Hc' Hp' Hl'. rewrite K.
    unfold unique_job_id. rewrite Hc', Hp', Hl'. cbn [rbind].
    unfold surrogate_key. now rewrite He.
  - intros c' p' l' E. rewrite K. unfold surrogate_key. now rewrite E, He.
  - intros c' p' l' Hne E. rewrite K in E.
    apply surrogate_key_inv in E as (bytes' & He' & E).
    exists bytes'. split; [exact He'|].
    injection E as E. split.
    + intros ->. apply Hne. eapply encode_inj; eassumption.
    + symmetry. apply hex_inj; auto using digest_bytes.
  - intros c' p' l' Hpl Hpl' Hne E. apply Hne.
    apply key_text_inj; assumption.
Qed.

(** ** The key column of a batch *)

Lemma unique_job_id_str (row : list (pystr * pyval)) (v : pyval) :
  unique_job_id row = Ok v ->
  exists k, v = PStr k /\ List.length k = 64%nat.
Proof.
  unfold unique_job_id.
  destruct (row_get row (lit "company")); [|discriminate].
  destruct (row_get row (lit "position")); [|discriminate].
  destruct (row_get row (lit "location")); [|discriminate].
  cbn [rbind]. intros H.
  apply surrogate_key_inv in H as (bytes & _ & ->).
  eexists; split; [reflexivity|apply hexdigest_length].
Qed.

Lemma rmap_nth {A B} (f : A -> result B) (l : list A) (l' : list B) d d' :
  rmap f l = Ok l' ->
  forall i, (i < List.length l)%nat -> f (nth i l d) = Ok (nth i l' d').
Proof.
  revert l'; induction l as [|x l IH]; cbn [rmap List.length]; intros l' H i Hi;
    [lia|].
  destruct (f x) as [y|] eqn:E; [|discriminate].
  destruct (rmap f l) as [ys|]; [|discriminate].
  injection H as <-.
  destruct i as [|i]; cbn [nth]; [exact E|]. apply IH; [reflexivity|lia].
Qed.

Lemma Forall2_map_both {A B C} (R : B -> C -> Prop) (f : A -> B) (g : A -> C) l :
  (forall x, In x l -> R (f x) (g x)) -> Forall2 R (map f l) (map g l).
Proof.
  induction l as [|x l IH]; cbn [map]; intros H; constructor.
  - apply H; left; reflexivity.
  - apply IH; intros y Hy; apply H; right; exact Hy.
Qed.

Lemma row_dicts_nth (df : DataFrame) (i : nat) :
  (i < nrows df)%nat -> nth i (row_dicts df) [] = row_at df i.
Proof.
  intros Hi. unfold row_dicts.
  rewrite (nth_indep _ [] (row_at df O)) by (rewrite length_map, length_seq; exact Hi).
  rewrite map_nth, seq_nth by exact Hi. reflexivity.
Qed.

Lemma nth_map_in {A B} (f : A -> B) (l : list A) (i : nat) d d' :
  (i < List.length l)%nat -> nth i (map f l) d' = f (nth i l d).
Proof.
  intros Hi. rewrite (nth_indep _ d' (f d)) by (now rewrite length_map).
  apply map_nth.
Qed.

(** [where] leaves a string where it is. *)
Lemma where_notnull_nth_str (c : list pyval) (i : nat) (k : pystr) :
  nth i c PNaN = PStr k -> nth i (where_notnull c) PNaN = PStr k.
Proof.
  intros H.
  assert (Hi : (i < List.length c)%nat).
  { destruct (Nat.lt_ge_cases i (List.length c)) as [Hi|Hi]; [exact Hi|].
    rewrite nth_overflow in H by exact Hi. discriminate. }
  unfold where_notnull. destruct (float_column c);
    rewrite (nth_map_in _ _ _ PNaN) by exact Hi; rewrite H; reflexivity.
Qed.

(** In the batch of a hashing loader, the first column of every row is the
    surrogate key of the frame's row it comes from. *)
Lemma keyed_rows_first_column (rest : list pystr) (df : DataFrame) data :
  keyed_rows (lit "unique_job_id" :: rest) df = Ok data ->
  Forall2 (fun r row => exists k, unique_job_id r = Ok (PStr k) /\
                                  row_key row = k /\ List.length k = 64%nat)
          (row_dicts df) data.
Proof.
  unfold keyed_rows.
  destruct (rmap unique_job_id (row_dicts df)) as [keys|] eqn:K; [|discriminate].
  cbn [rbind].
  destruct (select _ _) as [df2|] eqn:S; [|discriminate].
  cbn [rbind]. intros H; injection H as <-.
  apply select_inv in S as (Hn & Hfst & Hlk).
  specialize (Hlk (lit "unique_job_id")).
  cbn [mem] in Hlk. rewrite pystr_eqb_refl in Hlk. specialize (Hlk eq_refl).
  cbn [set_col cols nrows] in Hlk, Hn. rewrite lookup_replace_same in Hlk.
  destruct (cols df2) as [|[k0 c0] cs] eqn:C; [discriminate|].
  cbn [map fst] in Hfst. injection Hfst as -> _.
  cbn [lookup] in Hlk. rewrite pystr_eqb_refl in Hlk. injection Hlk as ->.
  unfold rows_of, row_dicts. cbn [where_frame nrows]. rewrite Hn, !map_map.
  apply Forall2_map_both. intros i Hi. apply in_seq in Hi.
  assert (Hlen : (i < List.length (row_dicts df))%nat)
    by (unfold row_dicts; rewrite length_map, length_seq; lia).
  pose proof (rmap_nth _ _ _ [] PNaN K i Hlen) as E.
  rewrite row_dicts_nth in E by lia.
  destruct (unique_job_id_str _ _ E) as (k & Ek & Hk).
  exists k. rewrite E, Ek. split; [reflexivity|]. split; [|exact Hk].
  unfold row_at, where_frame. cbn [cols]. rewrite C. cbn [map fst snd].
  change (pystr_eqb (lit "unique_job_id") (lit "date_posted")) with false.
  cbn [row_key]. rewrite (where_notnull_nth_str _ _ _ Ek). reflexivity.
Qed.

Lemma job_info_inv (job : pyval) (rec : list (pystr * pyval)) :
  job_info job = Ok rec ->
  map fst rec = remoteok_labels /\
  dict_get rec (lit "id") PNaN = listing_id job.
Proof.
  destruct job as [| | | | | |d]; try discriminate.
  cbn [job_info].
  destruct (join_py (lit ", ") (dict_get d (lit "tags") (PList []))) as [tags|];
    [|discriminate].
  cbn [rbind]. intros H; injection H as <-. split; reflexivity.
Qed.

Lemma mem_in (k : pystr) (l : list pystr) : In k l -> mem k l = true.
Proof.
  induction l as [|x l IH]; cbn [In mem]; [tauto|].
  intros [->|H]; [now rewrite pystr_eqb_refl|].
  rewrite IH by exact H. apply orb_true_r.
Qed.

Lemma first_seen_nothing_new (seen l : list pystr) :
  (forall k, In k l -> mem k seen = true) -> first_seen seen l = [].
Proof.
  revert seen; induction l as [|x l IH]; intros seen H; cbn [first_seen];
    [reflexivity|].
  rewrite (H x) by (left; reflexivity).
  apply IH; intros k Hk; apply H; right; exact Hk.
Qed.

Lemma first_seen_app (seen l1 l2 : list pystr) :
  first_seen seen (l1 ++ l2) =
  first_seen seen l1 ++ first_seen (rev (first_seen seen l1) ++ seen) l2.
Proof.
  revert seen; induction l1 as [|x l1 IH]; intros seen; cbn [app first_seen];
    [reflexivity|].
  destruct (mem x seen); [apply IH|].
  cbn [app rev]. rewrite IH, <- app_assoc. reflexivity.
Qed.

(** The frame of the listings that [job_info] prepared: its nine columns,
    the identifier first. *)
Lemma remoteok_frame (listings : list pyval) recs :
  rmap job_info listings = Ok recs -> listings <> [] ->
  frame_of_records recs =
    mkFrame (List.length listings)
            (map (fun k => (k, map (fun r => dict_get r k PNaN) recs)) remoteok_labels) /\
  map (fun r => dict_get r (lit "id") PNaN) recs = map listing_id listings.
Proof.
  intros H Hne.
  assert (G : Forall (fun r => map fst r = remoteok_labels) recs /\
              map (fun r => dict_get r (lit "id") PNaN) recs = map listing_id listings).
  { clear Hne. revert recs H; induction listings as [|j js IH]; cbn [rmap];
      intros recs H.
    - injection H as <-. split; [constructor|reflexivity].
    - destruct (job_info j) as [r|] eqn:E; [|discriminate].
      destruct (rmap job_info js) as [rs|]; [|discriminate].
      injection H as <-. apply job_info_inv in E as [E1 E2].
      destruct (IH rs eq_refl) as [I1 I2].
      split; [constructor; assumption|]. cbn [map]. now rewrite E2, I2. }
  destruct G as [G1 G2]. split; [|exact G2].
  unfold frame_of_records. rewrite (rmap_length _ _ _ H). f_equal.
  destruct recs as [|r rs].
  { destruct listings; [congruence|]. cbn [rmap] in H.
    destruct (job_info p); [|discriminate].
    destruct (rmap job_info listings); discriminate. }
  inversion G1 as [|? ? Hr Hrs]; subst.
  cbn [flat_map]. rewrite Hr.
  assert (T : first_seen [] (remoteok_labels ++ flat_map (map fst) rs) = remoteok_labels).
  { assert (R : forall k, In k (flat_map (map fst) rs) -> In k remoteok_labels).
    { intros k Hk. apply in_flat_map in Hk as (r' & Hr' & Hk).
      rewrite Forall_forall in Hrs. now rewrite (Hrs r' Hr') in Hk. }
    rewrite first_seen_app.
    assert (L : first_seen [] remoteok_labels = remoteok_labels)
      by (vm_compute; reflexivity).
    rewrite L, first_seen_nothing_new; [apply app_nil_r|].
    intros k Hk. apply mem_in, in_or_app. left. apply -> in_rev. now apply R. }
  now rewrite T.
Qed.

Lemma nth_over_seq {A} (c : list A) (d : A) :
  map (fun i => nth i c d) (seq 0 (List.length c)) = c.
Proof.
  induction c as [|x c IH]; cbn [List.length seq map nth]; [reflexivity|].
  f_equal. rewrite <- seq_shift, map_map. exact IH.
Qed.

(** The keys under which the rows of a frame are merged: its first column. *)
Lemma rows_first_column (df : DataFrame) k c rest :
  cols df = (k, c) :: rest -> nrows df = List.length c ->
  map row_key (rows_of df) = map py_str c.
Proof.
  intros C N. unfold rows_of, row_dicts, row_at. rewrite C, N, !map_map.
  cbn [map snd row_key].
  rewrite <- (nth_over_seq c PNaN) at 2. rewrite map_map. reflexivity.
Qed.

(** [where] leaves a column without a missing cell as it is. *)
Lemma where_notnull_present (c : list pyval) :
  (forall v, In v c -> is_missing v = false) -> where_notnull c = c.
Proof.
  intros H. unfold where_notnull.
  destruct (float_column c); rewrite <- (map_id c) at 2; apply map_ext_in;
    intros v Hv; specialize (H v Hv); destruct v; try reflexivity; discriminate.
Qed.

Lemma where_notnull_strs (c : list pyval) :
  (forall v, In v c -> exists k, v = PStr k) -> where_notnull c = c.
Proof.
  intros H. apply where_notnull_present.
  intros v Hv. destruct (H v Hv) as [k ->]. reflexivity.
Qed.

Lemma astype_str_strs (c : list pyval) :
  forall v, In v (astype_str c) -> exists k, v = PStr k.
Proof.
  unfold astype_str. intros v Hv.
  destruct (float_column c); apply in_map_iff in Hv as (x & <- & _); eauto.
Qed.

Lemma astype_str_length (c : list pyval) :
  List.length (astype_str c) = List.length c.
Proof. unfold astype_str. destruct (float_column c); apply length_map. Qed.

Lemma remoteok_transform_ids (n : nat) (ids : list pyval) rest (df : DataFrame) :
  remoteok_transform (mkFrame n ((lit "id", ids) :: rest)) = Ok df ->
  nrows df = n /\
  exists rest', cols df = (lit "id", astype_str ids) :: rest'.
Proof.
  unfold remoteok_transform, convert_dates. intros H.
  destruct (update_col (lit "date_posted") _ _) as [df1|] eqn:E1; [|discriminate].
  cbn [rbind] in H.
  destruct (update_col (lit "id") _ df1) as [df2|] eqn:E2; [|discriminate].
  cbn [rbind] in H.
  destruct (apply_col (lit "salary_min") _ df2) as [df3|] eqn:E3; [|discriminate].
  cbn [rbind] in H.
  destruct (apply_col (lit "salary_max") _ df3) as [df4|] eqn:E4; [|discriminate].
  cbn [rbind] in H. injection H as <-.
  apply update_col_inv in E1 as (c1 & c1' & _ & _ & ->).
  apply update_col_inv in E2 as (c2 & c2' & L2 & R2 & ->).
  apply apply_col_inv in E3 as (c3 & c3' & _ & _ & ->).
  apply apply_col_inv in E4 as (c4 & c4' & _ & _ & ->).
  injection R2 as <-.
  unfold where_frame. cbn [set_col cols nrows] in *.
  change (replace_col (lit "date_posted") c1' ((lit "id", ids) :: rest))
    with ((lit "id", ids) :: replace_col (lit "date_posted") c1' rest) in *.
  cbn [lookup] in L2. rewrite pystr_eqb_refl in L2. injection L2 as <-.
  split; [reflexivity|].
  set (tail := replace_col (lit "date_posted") c1' rest).
  change (replace_col (lit "id") (astype_str ids) ((lit "id", ids) :: tail))
    with ((lit "id", astype_str ids) :: tail).
  set (c := astype_str ids).
  change (replace_col (lit "salary_min") c3' ((lit "id", c) :: tail))
    with ((lit "id", c) :: replace_col (lit "salary_min") c3' tail).
  set (tail' := replace_col (lit "salary_min") c3' tail).
  change (replace_col (lit "salary_max") c4' ((lit "id", c) :: tail'))
    with ((lit "id", c) :: replace_col (lit "salary_max") c4' tail').
  cbn [map fst snd].
  change (pystr_eqb (lit "id") (lit "date_posted")) with false. cbv iota.
  rewrite where_notnull_strs by (subst c; apply astype_str_strs).
  eexists. reflexivity.
Qed.

Lemma str_int_signed (z : Z) :
  (if z <? 0 then [45] else []) ++ str_int (Z.abs z) = str_int z.
Proof.
  unfold str_int. destruct (Z.ltb_spec z 0) as [Hz|Hz].
  - rewrite Z.abs_neq by lia.
    assert ((- z <? 0) = false) as -> by (apply Z.ltb_ge; lia). reflexivity.
  - rewrite Z.abs_eq by lia.
    assert ((z <? 0) = false) as -> by (apply Z.ltb_ge; lia). reflexivity.
Qed.

(** An integer that a double holds shows as the integer and ".0". *)
Lemma float_str_exact (z : Z) :
  Z.abs z <= 2 ^ 53 -> float_str z = str_int z ++ lit ".0".
Proof.
  intros Hz. unfold float_str.
  assert (F : float_of_int z = z).
  { unfold float_of_int.
    destruct (nearest_double_exact (Z.abs z) 1) as (m & e & E & T); [lia|lia|].
    rewrite Z.mul_1_r in E. rewrite E, T.
    destruct (Z.abs_spec z) as [[? ->]|[? ->]];
      destruct (Z.sgn_spec z) as [[? ->]|[[? ->]|[? ->]]]; lia. }
  rewrite F.
  assert ((Z.abs z <? 10 ^ 16) = true) as -> by (apply Z.ltb_lt; lia).
  rewrite app_assoc, str_int_signed. reflexivity.
Qed.

Lemma astype_str_shown (c : list pyval) :
  forallb exact_int c = true ->
  map py_str (astype_str c) = map (shown_id (float_column c)) c.
Proof.
  intros H. unfold astype_str.
  destruct (float_column c); rewrite map_map; apply map_ext_in; intros v Hv;
    [|reflexivity].
  rewrite forallb_forall in H. specialize (H v Hv).
  destruct v as [| | |z| | |]; try reflexivity.
  cbn [py_str shown_id exact_int] in *. apply float_str_exact.
  apply Z.leb_le in H. lia.
Qed.

(** C2 (amended).  In the Adzuna and Jooble pipelines the primary key
    under which each row is merged is derived: it is the 64-digit hex
    surrogate key of the row's company, position and location.  In the
    RemoteOK pipeline it is the identifier the provider supplied for the
    listing, as pandas writes the id column as strings: a string as it is,
    an integer as its decimal numeral, a missing identifier as "None"; and,
    when the column holds integers and missing identifiers only, both
    present, an integer as a float ("123.0") and a missing identifier as
    "nan".  (Integers up to 2^53 in magnitude.) *)
Theorem C2_primary_key :
  (forall columns df data,
      columns = adzuna_columns \/ columns = jooble_columns ->
      keyed_rows columns df = Ok data ->
      Forall2 (fun r row => exists k, unique_job_id r = Ok (PStr k) /\
                                      row_key row = k /\ List.length k = 64%nat)
              (row_dicts df) data) /\
  (forall status meta listings w df w',
      fetch_remoteok_data (Response status (Some (PList (meta :: listings)))) w
        = (Ok (Some df), w') ->
      forallb exact_int (map listing_id listings) = true ->
      map row_key (rows_of df) =
        map (shown_id (float_column (map listing_id listings)))
            (map listing_id listings)).
Proof.
  split.
  - intros columns df data [->| ->]; apply keyed_rows_first_column.
  - intros status meta listings [c0 t0 cur0 con0 tr0] df w'.
    run. destruct ((400 <=? status) && (status <? 600)); run; [discriminate|].
    destruct listings as [|j js]; run; [discriminate|].
    destruct (rmap job_info (j :: js)) as [recs|x] eqn:R; run;
      [|destruct x; run; discriminate].
    destruct (remoteok_transform (frame_of_records recs)) as [df'|x] eqn:T; run;
      [|destruct x; run; discriminate].
    intros H Hids; injection H as -> _.
    destruct (remoteok_frame _ _ R) as [F I]; [discriminate|].
    rewrite F in T. cbn [map remoteok_labels] in T.
    apply remoteok_transform_ids in T as (N & rest' & C).
    rewrite (rows_first_column _ _ _ _ C).
    + rewrite I. now apply astype_str_shown.
    + rewrite N, astype_str_length, !length_map. symmetry.
      apply (rmap_length _ _ _ R).
Qed.

(** ** What the cleaning does guarantee *)

(** Adzuna clips: whenever the cleaning goes through, the salary is in the
    BIGINT range and not negative. *)
Lemma adzuna_salary_in_range (v r : pyval) :
  adzuna_salary v = Ok r ->
  exists z, r = PInt z /\ 0 <= z <= 9223372036854775807.
Proof.
  unfold adzuna_salary, clip. destruct (_ && _); [|discriminate].
  intros H; injection H as <-. eexists; split; [reflexivity|lia].
Qed.

Lemma digits_value_nonneg (s : pystr) :
  forallb is_digit s = true -> 0 <= digits_value s.
Proof.
  unfold digits_value.
  assert (G : forall acc, 0 <= acc -> forallb is_digit s = true ->
                          0 <= fold_left (fun a c => a * 10 + (c - 48)) s acc).
  { induction s as [|c s IH]; cbn [fold_left forallb]; intros acc Ha H; [exact Ha|].
    apply andb_true_iff in H as [Hc Hs]. apply IH; [|exact Hs].
    unfold is_digit in Hc. apply andb_true_iff in Hc as [Hc _].
    apply Z.leb_le in Hc. lia. }
  apply G. lia.
Qed.

Lemma filter_digits (s : pystr) : forallb is_digit (filter is_digit s) = true.
Proof.
  induction s as [|c s IH]; cbn [filter]; [reflexivity|].
  destruct (is_digit c) eqn:E; [|exact IH].
  cbn [forallb]. now rewrite E, IH.
Qed.

(** The regex never takes a sign, and the conversions end in a cast to
    64 bits: a Jooble salary is not negative unless the number is too large
    for the cast, and then it is the lowest 64-bit integer. *)
Lemma jooble_salary_range (v r : pyval) :
  jooble_salary v = Ok r -> from_float_cast r.
Proof.
  unfold jooble_salary, from_float_cast.
  destruct (regex_extract (py_str v)) as [token|].
  - unfold float_to_int, astype_float.
    destruct (_ <=? 1); [|discriminate]. cbn [rbind].
    destruct (astype_int _) as [z|] eqn:E; [|discriminate]. cbn [rbind].
    intros H; injection H as <-. exists z; split; [reflexivity|].
    eapply astype_int_range; [| |exact E].
    + apply digits_value_nonneg, filter_digits.
    + apply Z.pow_pos_nonneg; lia.
  - intros H; injection H as <-. exists 0; split; [reflexivity|lia].
Qed.

Lemma replace_col_labels (k : pystr) (c c0 : list pyval) l :
  lookup k l = Some c0 -> map fst (replace_col k c l) = map fst l.
Proof.
  induction l as [|[k' c'] l IH]; cbn [lookup replace_col]; [discriminate|].
  destruct (pystr_eqb k k') eqn:E; cbn [map fst]; [reflexivity|].
  intros H; now rewrite IH.
Qed.

Lemma apply_col_labels (k : pystr) f (df df' : DataFrame) :
  apply_col k f df = Ok df' -> map fst (cols df') = map fst (cols df).
Proof.
  intros H. apply apply_col_inv in H as (c & c' & L & _ & ->).
  cbn [set_col cols]. eapply replace_col_labels; eassumption.
Qed.

(** Whenever a normaliser returns a frame, the frame has the required
    columns, in order. *)
Lemma adzuna_transform_columns (df df' : DataFrame) :
  adzuna_transform df = Ok df' -> map fst (cols df') = adzuna_required.
Proof.
  unfold adzuna_transform. intros H.
  destruct (apply_col (lit "company") _ _) as [d1|]; [|discriminate].
  cbn [rbind] in H.
  destruct (apply_col (lit "location") _ _) as [d2|]; [|discriminate].
  cbn [rbind] in H.
  destruct (apply_col (lit "category") _ _) as [d3|]; [|discriminate].
  cbn [rbind] in H.
  destruct (select adzuna_required _) as [d4|] eqn:S; [|discriminate].
  cbn [rbind] in H.
  destruct (apply_col (lit "salary_min") _ d4) as [d5|] eqn:E5; [|discriminate].
  cbn [rbind] in H.
  destruct (apply_col (lit "salary_max") _ d5) as [d6|] eqn:E6; [|discriminate].
  cbn [rbind] in H. injection H as <-.
  apply apply_col_labels in E5, E6. apply select_inv in S as (_ & S & _).
  congruence.
Qed.

Lemma jooble_transform_columns (df df' : DataFrame) :
  jooble_transform df = Ok df' -> map fst (cols df') = jooble_required.
Proof.
  unfold jooble_transform. intros H.
  destruct (get_col (lit "salary_min") _) as [s|]; [|discriminate].
  cbn [rbind] in H.
  destruct (update_col (lit "salary_min") _ _) as [d1|]; [|discriminate].
  cbn [rbind] in H.
  destruct (update_col (lit "salary_max") _ _) as [d2|]; [|discriminate].
  cbn [rbind] in H.
  now apply select_inv in H as (_ & S & _).
Qed.

(** * Further properties *)

(** ** The upsert *)

Lemma pystr_eqb_sym (a b : pystr) : pystr_eqb a b = pystr_eqb b a.
Proof.
  destruct (pystr_eqb a b) eqn:E.
  - apply pystr_eqb_eq in E; subst. symmetry; apply pystr_eqb_refl.
  - destruct (pystr_eqb b a) eqn:E'; [|reflexivity].
    apply pystr_eqb_eq in E'; subst. now rewrite pystr_eqb_refl in E.
Qed.

Lemma pystr_eqb_neq (a b : pystr) : pystr_eqb a b = false <-> a <> b.
Proof.
  split.
  - intros E ->. now rewrite pystr_eqb_refl in E.
  - intros N. destruct (pystr_eqb a b) eqn:E; [|reflexivity].
    apply pystr_eqb_eq in E; contradiction.
Qed.

(** What one MERGE leaves under each key. *)
Lemma find_row_merge (k : pystr) (t : table) (r : list pyval) :
  find_row k (merge_row t r) =
  if pystr_eqb k (row_key r) then Some r else find_row k t.
Proof.
  induction t as [|x t IH]; cbn [merge_row find_row]; [reflexivity|].
  destruct (pystr_eqb (row_key r) (row_key x)) eqn:E; cbn [find_row].
  - apply pystr_eqb_eq in E. rewrite <- E.
    destruct (pystr_eqb k (row_key r)); reflexivity.
  - rewrite IH.
    destruct (pystr_eqb k (row_key x)) eqn:Ex; [|reflexivity].
    apply pystr_eqb_eq in Ex; subst k.
    rewrite pystr_eqb_sym, E. reflexivity.
Qed.

Lemma last_with_key_in (k : pystr) (batch : list (list pyval)) x :
  last_with_key k batch = Some x -> In x batch /\ row_key x = k.
Proof.
  induction batch as [|r rest IH]; cbn [last_with_key]; [discriminate|].
  destruct (last_with_key k rest) as [y|].
  - intros H; injection H as ->. destruct (IH eq_refl); split; [right|]; auto.
  - destruct (pystr_eqb k (row_key r)) eqn:E; [|discriminate].
    intros H; injection H as <-. apply pystr_eqb_eq in E.
    split; [left; reflexivity|auto].
Qed.

Lemma in_last_with_key (r : list pyval) (batch : list (list pyval)) :
  In r batch -> exists x, last_with_key (row_key r) batch = Some x.
Proof.
  clear to_datetime.
  induction batch as [|y rest IH]; cbn [In last_with_key]; [tauto|].
  intros [->|H].
  - destruct (last_with_key (row_key r) rest); [eauto|].
    rewrite pystr_eqb_refl. eauto.
  - destruct (IH H) as [x ->]. eauto.
Qed.

Lemma find_row_merge_batch (k : pystr) (batch : list (list pyval)) (t : table) :
  find_row k (merge_batch batch t) =
  match last_with_key k batch with
  | Some r => Some r
  | None => find_row k t
  end.
Proof.
  unfold merge_batch. revert t.
  induction batch as [|r rest IH]; intros t; cbn [fold_left last_with_key];
    [reflexivity|].
  rewrite IH, find_row_merge.
  destruct (last_with_key k rest); [reflexivity|].
  destruct (pystr_eqb k (row_key r)); reflexivity.
Qed.

Lemma merge_row_fixed (t : table) (r : list pyval) :
  find_row (row_key r) t = Some r -> merge_row t r = t.
Proof.
  induction t as [|x t IH]; cbn [find_row merge_row]; [discriminate|].
  destruct (pystr_eqb (row_key r) (row_key x)).
  - intros H; injection H as ->. reflexivity.
  - intros H. now rewrite IH.
Qed.

Lemma merge_row_absorb (t : table) (r r' : list pyval) :
  row_key r = row_key r' ->
  merge_row (merge_row t r) r' = merge_row t r'.
Proof.
  intros K. induction t as [|x t IH]; cbn [merge_row].
  - now rewrite <- K, pystr_eqb_refl.
  - rewrite <- K.
    destruct (pystr_eqb (row_key r) (row_key x)) eqn:E; cbn [merge_row].
    + now rewrite <- K, pystr_eqb_refl.
    + rewrite <- K, E, IH. reflexivity.
Qed.

Lemma merge_row_commute (t : table) (r r' : list pyval) :
  row_key r <> row_key r' -> find_row (row_key r) t <> None ->
  merge_row (merge_row t r) r' = merge_row (merge_row t r') r.
Proof.
  intros N. apply pystr_eqb_neq in N as N1.
  rewrite pystr_eqb_sym in N1. pose proof N1 as N2. rewrite pystr_eqb_sym in N2.
  induction t as [|x t IH]; cbn [find_row merge_row]; [congruence|].
  destruct (pystr_eqb (row_key r) (row_key x)) eqn:E.
  - intros _. apply pystr_eqb_eq in E.
    cbn [merge_row]. rewrite N1. rewrite <- E, N1. cbn [merge_row].
    rewrite E, pystr_eqb_refl. reflexivity.
  - intros F.
    destruct (pystr_eqb (row_key r') (row_key x)) eqn:E'; cbn [merge_row];
      rewrite ?E, ?E', ?N2; [reflexivity|]. now rewrite IH.
Qed.

Lemma merge_batch_absorb (rest : list (list pyval)) (t : table) (r : list pyval) :
  (exists r', In r' rest /\ row_key r' = row_key r) ->
  find_row (row_key r) t <> None ->
  fold_left merge_row rest (merge_row t r) = fold_left merge_row rest t.
Proof.
  revert t; induction rest as [|x rest IH]; intros t (r' & Hin & K) F;
    cbn [fold_left]; [destruct Hin|].
  destruct (pystr_eqb (row_key r) (row_key x)) eqn:E.
  - apply pystr_eqb_eq in E. now rewrite merge_row_absorb.
  - apply pystr_eqb_neq in E.
    rewrite merge_row_commute by assumption.
    apply IH.
    + destruct Hin as [->|Hin]; [congruence|eauto].
    + rewrite find_row_merge.
      destruct (pystr_eqb (row_key r) (row_key x)); [discriminate|exact F].
Qed.

(** A table that already holds, under every key of the batch, the last
    row of the batch with that key is left as it is. *)
Lemma merge_batch_settled (batch : list (list pyval)) (t : table) :
  (forall r, In r batch -> find_row (row_key r) t = last_with_key (row_key r) batch) ->
  merge_batch batch t = t.
Proof.
  unfold merge_batch.
  induction batch as [|r rest IH]; intros H; cbn [fold_left]; [reflexivity|].
  assert (Hr := H r (or_introl eq_refl)). cbn [last_with_key] in Hr.
  assert (E : fold_left merge_row rest (merge_row t r) = fold_left merge_row rest t).
  { destruct (last_with_key (row_key r) rest) as [x|] eqn:L.
    - apply merge_batch_absorb; [|congruence].
      apply last_with_key_in in L as [? ?]; eauto.
    - rewrite pystr_eqb_refl in Hr. now rewrite merge_row_fixed. }
  rewrite E. apply IH. intros r' Hin.
  rewrite (H r' (or_intror Hin)). cbn [last_with_key].
  destruct (in_last_with_key r' rest Hin) as [x ->]. reflexivity.
Qed.

(** Merging the same batch a second time changes nothing. *)
Lemma merge_batch_twice (batch : list (list pyval)) (t : table) :
  merge_batch batch (merge_batch batch t) = merge_batch batch t.
Proof.
  apply merge_batch_settled. intros r Hin.
  rewrite find_row_merge_batch.
  destruct (in_last_with_key r batch Hin) as [x ->]. reflexivity.
Qed.

(** X1.  After a batch went through MERGE, the row found under a key is
    the last row of the batch with that key, and the row that was there
    before when the batch has none: a later record overwrites an earlier
    one, rows the batch does not mention stay, and every row of the batch
    is represented. *)
Theorem X1_find_after_batch (batch : list (list pyval)) (t : table) :
  (forall k, find_row k (merge_batch batch t) =
             match last_with_key k batch with
             | Some r => Some r
             | None => find_row k t
             end) /\
  (forall r, In r batch ->
             exists r', find_row (row_key r) (merge_batch batch t) = Some r' /\
                        In r' batch /\ row_key r' = row_key r).
Proof.
  split; [intros k; apply find_row_merge_batch|].
  intros r Hin. rewrite find_row_merge_batch.
  destruct (in_last_with_key r batch Hin) as [x L]. rewrite L.
  apply last_with_key_in in L as [? ?]. eauto.
Qed.

Lemma keys_merge_row (t : table) (r : list pyval) :
  map row_key (merge_row t r) =
  map row_key t ++
  match find_row (row_key r) t with Some _ => [] | None => [row_key r] end.
Proof.
  induction t as [|x t IH]; cbn [merge_row find_row map app]; [reflexivity|].
  destruct (pystr_eqb (row_key r) (row_key x)) eqn:E; cbn [map].
  - apply pystr_eqb_eq in E. rewrite E, app_nil_r. reflexivity.
  - rewrite IH. reflexivity.
Qed.

Lemma find_row_none (k : pystr) (t : table) :
  find_row k t = None <-> ~ In k (map row_key t).
Proof.
  clear to_datetime.
  induction t as [|x t IH]; cbn [find_row map In]; [tauto|].
  destruct (pystr_eqb k (row_key x)) eqn:E.
  - apply pystr_eqb_eq in E. split; [discriminate|].
    intros H; exfalso; apply H; left; congruence.
  - apply pystr_eqb_neq in E. rewrite IH. intuition congruence.
Qed.

(** X3.  The upsert neither drops nor duplicates a key: the keys of the
    table before are still there, in their order, followed by the new ones;
    and a table without duplicate keys stays so. *)
Theorem X3_merge_batch_keys (batch : list (list pyval)) (t : table) :
  (exists added, map row_key (merge_batch batch t) = map row_key t ++ added) /\
  (NoDup (map row_key t) -> NoDup (map row_key (merge_batch batch t))) /\
  (List.length t <= List.length (merge_batch batch t))%nat.
Proof.
  unfold merge_batch. revert t.
  induction batch as [|r rest IH]; intros t; cbn [fold_left].
  - split; [exists []; now rewrite app_nil_r|]. split; [auto|lia].
  - destruct (IH (merge_row t r)) as ((added & A) & N & L).
    pose proof (keys_merge_row t r) as K.
    split; [|split].
    + rewrite A, K, <- app_assoc. eauto.
    + intros Ht. apply N. rewrite K.
      destruct (find_row (row_key r) t) eqn:F; [now rewrite app_nil_r|].
      apply find_row_none in F.
      apply NoDup_app; [exact Ht|repeat constructor; auto|].
      intros k Hk [<-|[]]. contradiction.
    + apply (f_equal (@List.length _)) in K.
      rewrite !length_map, length_app, length_map in K. lia.
Qed.

(** X2.  The load step is idempotent: running it a second time with the
    same frame, nothing failing, leaves the table as the first run left
    it.  Both runs return normally and leave no transaction open. *)
Theorem X2_load_twice (p : provider) (df : DataFrame) (w : world) :
  working w = committed w ->
  let once := load p df no_faults w in
  let twice := load p df no_faults (snd once) in
  fst once = Ok tt /\ fst twice = Ok tt /\
  working (snd once) = committed (snd once) /\
  committed (snd twice) = committed (snd once) /\
  working (snd twice) = committed (snd twice).
Proof.
  destruct w as [c0 t0 cur0 con0 tr0]; cbn [working committed].
  intros ->. cbv zeta. unfold no_faults.
  destruct p.
  - run. destruct (df_empty df); run; [repeat split; reflexivity|].
    destruct (keyed_rows adzuna_columns df) as [data|x]; run.
    + destruct c0 as [t|]; run; repeat split; try reflexivity;
        f_equal; apply merge_batch_twice.
    + destruct c0 as [t|]; run; repeat split; reflexivity.
  - run. destruct (df_empty df); run; [repeat split; reflexivity|].
    destruct (keyed_rows jooble_columns df) as [data|x]; run.
    + destruct c0 as [t|]; run; repeat split; try reflexivity;
        f_equal; apply merge_batch_twice.
    + destruct c0 as [t|]; run; repeat split; reflexivity.
  - run. destruct c0 as [t|]; run; repeat split; try reflexivity;
      f_equal; apply merge_batch_twice.
Qed.

(** ** Runs as a whole *)

Ltac all_or_nothing :=
  split; [reflexivity|];
  split; intros H; first [discriminate H | reflexivity].

(** X4.  All or nothing: whatever fails and however (also an exception
    no handler catches), the rows of the table after a run are the rows
    before it unless the run printed that it merged its batch, in which
    case it returned normally; and no run leaves a transaction open. *)
Theorem X4_run_all_or_nothing (p : provider) (e : env) (t : option table) :
  let r := main p e (start t) in
  working (snd r) = committed (snd r) /\
  (merged_in (trace (snd r)) = false -> rows (committed (snd r)) = rows t) /\
  (merged_in (trace (snd r)) = true -> fst r = Ok tt).
Proof.
  destruct e as [src cf net [f1 f2 f3 f4 f5]]. cbv zeta.
  destruct p; split_run; all_or_nothing.
Qed.

(** X5.  Every fetch sends exactly one HTTP request, whatever the reply
    (no retry after a failure), and asks nothing of the database. *)
Theorem X5_fetch_one_request (p : provider) (net : http_reply) (w : world) :
  exists evs,
    trace (snd (fetch p net w)) = trace w ++ evs /\
    requests evs = 1%nat /\ database_in evs = false /\
    committed (snd (fetch p net w)) = committed w /\
    working (snd (fetch p net w)) = working w.
Proof.
  destruct w as [c0 t0 cur0 con0 tr0].
  destruct p; split_run;
    (eexists; split; [new_events; reflexivity|repeat split; reflexivity]).
Qed.

(** ** Connecting *)

(** X6.  [get_db_connection] of db_utils.py never raises: whatever the
    section holds and whatever [pyodbc.connect] raises, it returns, with a
    connection exactly when the section has both keys and the connect went
    through.  It tries to connect at most once, not at all when a key is
    missing, prints exactly one message, and leaves the table alone. *)
Theorem X6_get_db_connection_total (db_config : list (pystr * pystr))
        (fault : option exn) (w : world) :
  let r := get_db_connection db_config fault w in
  exists c evs,
    fst r = Ok c /\
    is_some c = has_keys db_config && negb (is_some fault) /\
    trace (snd r) = trace w ++ evs /\
    attempts evs = (if has_keys db_config then 1 else 0)%nat /\
    prints evs = 1%nat /\
    committed (snd r) = committed w /\ working (snd r) = working w.
Proof.
  destruct w as [c0 t0 cur0 con0 tr0]. cbv zeta. run.
  unfold has_keys, config_get.
  destruct (lookup (lit "server") db_config), (lookup (lit "database") db_config),
    fault as [x|]; cbn [is_some andb negb]; split_run;
    (do 2 eexists; split; [reflexivity|]; split; [reflexivity|];
     split; [new_events; reflexivity|repeat split; reflexivity]).
Qed.

(** Settle a statement about the outcome of a finished call, part by part. *)
Ltac outcome :=
  repeat match goal with
         | |- _ /\ _ => split
         | |- _ <-> _ => split
         | |- exists _, _ /\ _ =>
             eexists; split; [new_events; reflexivity|repeat split; reflexivity]
         | |- _ -> _ => intro
         | H : _ /\ _ |- _ => destruct H
         end;
  try congruence; try (eexists; reflexivity).

(** X7.  [get_db_connection] of RemoteOK.py returns a connection exactly
    when config.ini has the database section with both keys and the connect
    goes through.  It catches a file that does not parse (and returns
    nothing), but a missing file is read as an empty configuration, so that
    the lookup of the section raises [KeyError]; so does any file without
    the section or one of the keys.  It never tries to connect then, and at
    most once otherwise. *)
Theorem X7_remoteok_get_db_connection (src : config_source) (fault : option exn)
        (w : world) :
  let r := remoteok_get_db_connection src fault w in
  (fst r = Ok (Some Conn) <-> config_has_keys src = true /\ fault = None) /\
  (src = Missing -> fst r = Raise (KeyError (lit "database"))) /\
  (src = Malformed -> fst r = Ok None) /\
  (config_has_keys src = false -> src <> Malformed ->
   exists k, fst r = Raise (KeyError k)) /\
  exists evs,
    trace (snd r) = trace w ++ evs /\
    attempts evs = (if config_has_keys src then 1 else 0)%nat /\
    committed (snd r) = committed w /\ working (snd r) = working w.
Proof.
  destruct w as [c0 t0 cur0 con0 tr0]. cbv zeta. run.
  unfold config_has_keys, has_keys, config_get.
  destruct src as [| |c]; run.
  - cbn [lookup]; run; outcome.
  - outcome.
  - destruct (lookup (lit "database") c) as [d|]; run; [|outcome].
    destruct (lookup (lit "server") d), (lookup (lit "database") d),
      fault as [x|]; cbn [is_some andb]; split_run; outcome.
Qed.

(** ** Discipline of the drivers *)

(** X8.  In every run, nothing is asked of the database once the
    connection is closed, and the cursor is closed exactly when one was
    obtained. *)
Theorem X8_nothing_after_close (p : provider) (e : env) (t : option table) :
  let w' := snd (main p e (start t)) in
  quiet_after_close (trace w') = true /\
  cursor_closed_in (trace w') = cursor w' /\
  closed_in (trace w') = conn w'.
Proof.
  destruct e as [src cf net [f1 f2 f3 f4 f5]]. cbv zeta.
  destruct p; split_run; repeat split; reflexivity.
Qed.

(** X9.  Jooble's driver never ends in a [KeyError]: whatever raises one
    (a configuration without a section or the API key, a frame without the
    column the driver reads) is caught by its handler.  In particular a
    config.ini without the database section is reported and the run returns
    normally, nothing attempted. *)
Theorem X9_jooble_main_catches_key_errors (e : env) (t : option table) :
  let r := jooble_main e (start t) in
  (forall k, fst r <> Raise (KeyError k)) /\
  (forall c, config_file e = Parsed c -> lookup (lit "database") c = None ->
             fst r = Ok tt /\
             trace (snd r) = [Print EtlStart; ReadConfig; Print ConfigKeyMissing]).
Proof.
  destruct e as [src cf net [f1 f2 f3 f4 f5]]. cbv zeta. split.
  - intros k. split_run; discriminate.
  - cbn [config_file]. intros c -> L. run. unfold config_get. rewrite L.
    split; reflexivity.
Qed.

(** X10.  Adzuna's driver has no such handler.  A config.ini without the
    database section ends the run in [KeyError] before anything is
    attempted; one without the adzuna section does so after the connection
    was made, which is closed, and before any request is sent. *)
Theorem X10_adzuna_main_config_keys (e : env) (t : option table) (c : ini) :
  config_file e = Parsed c ->
  let r := adzuna_main e (start t) in
  (lookup (lit "database") c = None ->
   fst r = Raise (KeyError (lit "database")) /\
   outside_in (trace (snd r)) = false) /\
  (config_has_keys (Parsed c) = true -> connect_fault e = None ->
   lookup (lit "adzuna") c = None ->
   fst r = Raise (KeyError (lit "adzuna")) /\
   closed_in (trace (snd r)) = true /\ requests (trace (snd r)) = 0%nat /\
   committed (snd r) = t).
Proof.
  destruct e as [src cf net [f1 f2 f3 f4 f5]]. cbn [config_file connect_fault].
  intros ->. cbv zeta. unfold config_has_keys, has_keys. split.
  - intros L. run. unfold config_get. rewrite L. split; reflexivity.
  - destruct (lookup (lit "database") c) as [d|] eqn:D; [|discriminate].
    destruct (lookup (lit "server") d) eqn:S; [|discriminate].
    destruct (lookup (lit "database") d) eqn:B; [|discriminate].
    intros _ -> L. run. unfold config_get. rewrite D. run. rewrite S, B. run.
    rewrite L. run. repeat split; reflexivity.
Qed.


(** ** Normalised frames *)

Lemma ensure_columns_nrows (required : list pystr) (df : DataFrame) :
  nrows (ensure_columns required df) = nrows df.
Proof.
  unfold ensure_columns. revert df.
  induction required as [|r required IH]; intros df; cbn [fold_left];
    [reflexivity|].
  rewrite IH. destruct (mem r (map fst (cols df))); reflexivity.
Qed.

Lemma apply_col_nrows (k : pystr) f (df df' : DataFrame) :
  apply_col k f df = Ok df' -> nrows df' = nrows df.
Proof.
  intros H. apply apply_col_inv in H as (c & c' & _ & _ & ->). reflexivity.
Qed.

Lemma rmap_forall {A B} (f : A -> result B) (P : B -> Prop) l l' :
  (forall x y, f x = Ok y -> P y) -> rmap f l = Ok l' -> Forall P l'.
Proof.
  intros Hf. revert l'; induction l as [|x l IH]; cbn [rmap]; intros l' H.
  - injection H as <-. constructor.
  - destruct (f x) as [y|] eqn:E; [|discriminate].
    destruct (rmap f l) as [ys|]; [|discriminate].
    injection H as <-. constructor; eauto.
Qed.

(** X11.  Whenever Adzuna's normaliser returns a frame, the frame has the
    nine required columns in their order and a row per listing, and every
    salary cell is an integer between 0 and the largest BIGINT. *)
Theorem X11_adzuna_frame (df df' : DataFrame) :
  adzuna_transform df = Ok df' ->
  map fst (cols df') = adzuna_required /\
  nrows df' = nrows df /\
  exists lo hi,
    get_col (lit "salary_min") df' = Ok lo /\
    get_col (lit "salary_max") df' = Ok hi /\
    Forall (int_between 0 9223372036854775807) lo /\
    Forall (int_between 0 9223372036854775807) hi.
Proof.
  unfold adzuna_transform. intros H.
  destruct (apply_col (lit "company") _ _) as [d1|] eqn:E1; [|discriminate].
  cbn [rbind] in H.
  destruct (apply_col (lit "location") _ _) as [d2|] eqn:E2; [|discriminate].
  cbn [rbind] in H.
  destruct (apply_col (lit "category") _ _) as [d3|] eqn:E3; [|discriminate].
  cbn [rbind] in H.
  destruct (select adzuna_required _) as [d4|] eqn:S; [|discriminate].
  cbn [rbind] in H.
  destruct (apply_col (lit "salary_min") _ d4) as [d5|] eqn:E5; [|discriminate].
  cbn [rbind] in H.
  destruct (apply_col (lit "salary_max") _ d5) as [d6|] eqn:E6; [|discriminate].
  cbn [rbind] in H. injection H as <-.
  pose proof (apply_col_labels _ _ _ _ E5) as L5.
  pose proof (apply_col_labels _ _ _ _ E6) as L6.
  apply apply_col_nrows in E1 as N1, E2 as N2, E3 as N3.
  pose proof (apply_col_nrows _ _ _ _ E5) as N5.
  pose proof (apply_col_nrows _ _ _ _ E6) as N6.
  apply select_inv in S as (N4 & S & _).
  rewrite ensure_columns_nrows in N4.
  split; [congruence|]. split; [cbn [rename nrows] in N1; congruence|].
  apply apply_col_inv in E5 as (c5 & c5' & _ & R5 & ->).
  apply apply_col_inv in E6 as (c6 & c6' & _ & R6 & ->).
  exists c5', c6'.
  split; [|split].
  - apply get_col_lookup. cbn [set_col cols].
    rewrite lookup_replace_other by reflexivity. apply lookup_replace_same.
  - apply get_col_lookup. cbn [set_col cols]. apply lookup_replace_same.
  - split; [eapply rmap_forall; [|exact R5]|eapply rmap_forall; [|exact R6]];
      intros x y Hxy; apply adzuna_salary_in_range in Hxy; exact Hxy.
Qed.

(** X12.  Whenever Jooble's normaliser returns a frame, the frame has the
    nine required columns in their order and a row per listing, and every
    salary cell is a 64-bit integer that is not negative or, for a number
    from 2^63 on, the lowest 64-bit integer, which the cast to [int] makes
    of it. *)
Theorem X12_jooble_frame (df df' : DataFrame) :
  jooble_transform df = Ok df' ->
  map fst (cols df') = jooble_required /\
  nrows df' = nrows df /\
  exists lo hi,
    get_col (lit "salary_min") df' = Ok lo /\
    get_col (lit "salary_max") df' = Ok hi /\
    Forall from_float_cast lo /\ Forall from_float_cast hi.
Proof.
  unfold jooble_transform. intros H.
  destruct (get_col (lit "salary_min") _) as [s|]; [|discriminate].
  cbn [rbind] in H.
  destruct (update_col (lit "salary_min") _ _) as [d1|] eqn:E1; [|discriminate].
  cbn [rbind] in H.
  destruct (update_col (lit "salary_max") _ d1) as [d2|] eqn:E2; [|discriminate].
  cbn [rbind] in H.
  apply select_inv in H as (N & L & Hlk).
  rewrite ensure_columns_nrows in N.
  apply update_col_inv in E1 as (c1 & c1' & _ & R1 & ->).
  apply update_col_inv in E2 as (c2 & c2' & _ & R2 & ->).
  split; [exact L|]. split; [exact N|].
  exists c1', c2'.
  split; [|split].
  - apply get_col_lookup. rewrite Hlk by reflexivity.
    apply ensure_columns_lookup. cbn [set_col cols].
    rewrite lookup_replace_other by reflexivity. apply lookup_replace_same.
  - apply get_col_lookup. rewrite Hlk by reflexivity.
    apply ensure_columns_lookup. cbn [set_col cols]. apply lookup_replace_same.
  - split; [eapply rmap_forall; [|exact R1]|eapply rmap_forall; [|exact R2]];
      intros x y Hxy; apply jooble_salary_range in Hxy; exact Hxy.
Qed.

(** ** Integers through the Jooble cleaning *)

Lemma digits_of_S (n : nat) (z : Z) (acc : pystr) :
  digits_of (S n) z acc =
  if z <? 10 then (48 + z mod 10) :: acc
  else digits_of n (z / 10) ((48 + z mod 10) :: acc).
Proof. reflexivity. Qed.

Lemma is_digit_last (z : Z) : is_digit (48 + z mod 10) = true.
Proof.
  unfold is_digit. apply andb_true_iff; split; apply Z.leb_le;
    Z.to_euclidean_division_equations; lia.
Qed.

Lemma digits_of_spec (f : nat) (z : Z) (acc : pystr) :
  0 <= z < 2 ^ Z.of_nat (S f) ->
  exists ds,
    digits_of (S f) z acc = ds ++ acc /\
    forallb is_digit ds = true /\ ds <> [] /\
    forall a, fold_left (fun x c => x * 10 + (c - 48)) ds a =
              a * 10 ^ Z.of_nat (List.length ds) + z.
Proof.
  revert z acc; induction f as [|f IH]; intros z acc Hz.
  - exists [48 + z mod 10]. rewrite digits_of_S.
    change (2 ^ Z.of_nat 1) with 2 in Hz.
    assert ((z <? 10) = true) as -> by (apply Z.ltb_lt; lia).
    split; [reflexivity|]. split.
    { cbn [forallb]. now rewrite is_digit_last. }
    split; [discriminate|].
    intros a. cbn [fold_left List.length]. change (10 ^ Z.of_nat 1) with 10.
    Z.to_euclidean_division_equations; lia.
  - rewrite digits_of_S. destruct (z <? 10) eqn:E.
    + apply Z.ltb_lt in E. exists [48 + z mod 10].
      split; [reflexivity|]. split.
      { cbn [forallb]. now rewrite is_digit_last. }
      split; [discriminate|].
      intros a. cbn [fold_left List.length]. change (10 ^ Z.of_nat 1) with 10.
      Z.to_euclidean_division_equations; lia.
    + apply Z.ltb_ge in E.
      assert (Hq : 0 <= z / 10 < 2 ^ Z.of_nat (S f)).
      { replace (Z.of_nat (S (S f))) with (Z.succ (Z.of_nat (S f))) in Hz by lia.
        rewrite Z.pow_succ_r in Hz by lia.
        Z.to_euclidean_division_equations; lia. }
      destruct (IH (z / 10) ((48 + z mod 10) :: acc) Hq) as (ds & D & A & N & V).
      exists (ds ++ [48 + z mod 10]).
      split; [rewrite D, <- app_assoc; reflexivity|]. split.
      { rewrite forallb_app, A. cbn [forallb]. now rewrite is_digit_last. }
      split; [destruct ds; discriminate|].
      intros a. rewrite fold_left_app, V. cbn [fold_left].
      rewrite length_app. cbn [List.length].
      replace (Z.of_nat (List.length ds + 1)) with (Z.succ (Z.of_nat (List.length ds)))
        by lia.
      rewrite Z.pow_succ_r by lia.
      Z.to_euclidean_division_equations; nia.
Qed.

(** [str] of a non-negative integer: its decimal digits, which spell it. *)
Lemma str_int_digits (z : Z) :
  0 <= z ->
  forallb is_digit (str_int z) = true /\ str_int z <> [] /\
  digits_value (str_int z) = z.
Proof.
  intros Hz. unfold str_int.
  assert ((z <? 0) = false) as -> by (apply Z.ltb_ge; lia).
  assert (B : 0 <= z < 2 ^ Z.of_nat (S (Z.to_nat (Z.log2 z)))).
  { replace (Z.of_nat (S (Z.to_nat (Z.log2 z)))) with (Z.succ (Z.log2 z))
      by (pose proof (Z.log2_nonneg z); lia).
    destruct (Z.eq_dec z 0) as [->|Hn]; [cbn; lia|].
    pose proof (Z.log2_spec z). lia. }
  destruct (digits_of_spec _ z [] B) as (ds & D & A & N & V).
  rewrite D, app_nil_r. split; [exact A|]. split; [exact N|].
  unfold digits_value. rewrite V. lia.
Qed.

Lemma digit_is_token_char (s : pystr) :
  forallb is_digit s = true -> forallb token_char s = true.
Proof.
  induction s as [|c s IH]; cbn [forallb]; [reflexivity|].
  intros H; apply andb_true_iff in H as [Hc Hs].
  rewrite IH by exact Hs. unfold token_char. now rewrite Hc.
Qed.

Lemma filter_all_digits (s : pystr) :
  forallb is_digit s = true -> filter is_digit s = s.
Proof.
  induction s as [|c s IH]; cbn [forallb filter]; [reflexivity|].
  intros H; apply andb_true_iff in H as [Hc Hs]. now rewrite Hc, IH.
Qed.

Lemma digits_value_snoc (s : pystr) (c : Z) :
  digits_value (s ++ [c]) = digits_value s * 10 + (c - 48).
Proof. unfold digits_value. rewrite fold_left_app. reflexivity. Qed.

Lemma fraction_digits (ds rest : pystr) :
  forallb is_digit ds = true -> fraction (ds ++ rest) = fraction rest.
Proof.
  induction ds as [|c ds IH]; cbn [forallb app fraction]; [reflexivity|].
  intros H; apply andb_true_iff in H as [Hc Hs].
  destruct (Z.eqb_spec c 46) as [->|_]; [discriminate Hc|auto].
Qed.

Lemma count_dots_digits (ds : pystr) :
  forallb is_digit ds = true -> count_occ Z.eq_dec ds 46 = O.
Proof.
  intros H. rewrite <- (filter_all_digits ds H). apply count_dots_filter.
Qed.

(** A numeral, and a numeral followed by ".0", through the conversions. *)
Lemma float_to_int_numeral (ds : pystr) (point : bool) :
  forallb is_digit ds = true -> digits_value ds <= 2 ^ 53 ->
  float_to_int (ds ++ if point then lit ".0" else []) = Ok (digits_value ds).
Proof.
  intros Hds Hv. pose proof (digits_value_nonneg ds Hds) as H0.
  unfold float_to_int, astype_float.
  rewrite count_occ_app, (count_dots_digits ds Hds), filter_app,
    (filter_all_digits ds Hds), (fraction_digits ds _ Hds).
  destruct point.
  - change (count_occ Z.eq_dec (lit ".0") 46) with 1%nat.
    change (filter is_digit (lit ".0")) with [48].
    change (fraction (lit ".0")) with [48]. cbn [Nat.add Z.of_nat Z.leb List.length].
    cbn [rbind]. rewrite digits_value_snoc.
    change (10 ^ Z.of_nat 1) with 10.
    replace (digits_value ds * 10 + (48 - 48)) with (digits_value ds * 10) by lia.
    apply astype_int_exact; lia.
  - cbn [count_occ filter fraction Nat.add List.length]. rewrite app_nil_r.
    cbn [rbind]. change (10 ^ Z.of_nat 0) with 1.
    rewrite <- (Z.mul_1_r (digits_value ds)) at 1.
    apply astype_int_exact; lia.
Qed.

Lemma strip_numeral (ds : pystr) (point : bool) :
  forallb is_digit ds = true ->
  strip_non_numeric (ds ++ if point then lit ".0" else []) =
  ds ++ if point then lit ".0" else [].
Proof.
  intros H. unfold strip_non_numeric. rewrite filter_app. f_equal.
  - rewrite <- (filter_all_digits ds H) at 2.
    apply filter_ext_in. intros c Hc.
    rewrite forallb_forall in H. now rewrite (H c Hc).
  - destruct point; reflexivity.
Qed.

(** What the chain makes of the text of an integer, written as an integer
    or as a float. *)
Lemma jooble_salary_numeral (z : Z) (point : bool) :
  Z.abs z <= 2 ^ 53 ->
  jooble_salary (PStr (str_int z ++ if point then lit ".0" else []))
  = Ok (PInt (Z.abs z)).
Proof.
  intros Hz.
  destruct (str_int_digits (Z.abs z)) as (A & N & V); [lia|].
  rewrite <- (str_int_signed z).
  destruct (str_int (Z.abs z)) as [|d ds] eqn:D; [congruence|].
  cbn [forallb] in A. apply andb_true_iff in A as [Hd Hds].
  set (suffix := if point then lit ".0" else []).
  assert (Hpre : forallb (fun c => negb (is_digit c)) (if z <? 0 then [45] else [])
                 = true) by (destruct (z <? 0); reflexivity).
  assert (Htok : forallb token_char (ds ++ suffix) = true).
  { rewrite forallb_app, (digit_is_token_char ds Hds).
    subst suffix; destruct point; reflexivity. }
  destruct (jooble_salary_token _ (ds ++ suffix) [] d Hpre Hd Htok eq_refl)
    as [_ E].
  rewrite app_nil_r in E.
  rewrite <- app_assoc.
  change ((d :: ds) ++ (if point then lit ".0" else [])) with (d :: ds ++ suffix).
  rewrite E.
  change (d :: ds ++ suffix) with ((d :: ds) ++ suffix). subst suffix.
  assert (Hall : forallb is_digit (d :: ds) = true)
    by (cbn [forallb]; now rewrite Hd, Hds).
  rewrite strip_numeral, float_to_int_numeral by (try exact Hall; lia).
  cbn [rbind]. now rewrite V.
Qed.

Lemma rmap_map_ok {A B C} (f : B -> result C) (g : A -> B) (h : A -> C) l :
  (forall x, In x l -> f (g x) = Ok (h x)) -> rmap f (map g l) = Ok (map h l).
Proof.
  induction l as [|x l IH]; cbn [map rmap]; intros H; [reflexivity|].
  rewrite (H x) by (left; reflexivity).
  rewrite IH by (intros y Hy; apply H; right; exact Hy). reflexivity.
Qed.

(** X13.  A Jooble salary column of integers (up to 2^53 in magnitude)
    and missing values comes out of the cleaning as absolute values and
    zeros, whether pandas holds the column as integers or, some value
    missing, as floats: the text of a number that is not negative is read
    back as that number, the sign of a negative one is not part of what the
    regex takes, and "None" and "nan" hold no digit. *)
Theorem X13_jooble_salary_of_integers (c : list pyval) :
  forallb small_or_missing c = true ->
  jooble_salaries c = Ok (map (fun v => PInt (Z.abs (number_of v))) c).
Proof.
  intros H. rewrite forallb_forall in H.
  unfold jooble_salaries, astype_str.
  destruct (float_column c); apply rmap_map_ok; intros v Hv;
    specialize (H v Hv); destruct v as [| | |z| | |]; try discriminate H;
    try reflexivity; cbn [small_or_missing] in H; apply Z.leb_le in H.
  - rewrite float_str_exact by lia.
    apply (jooble_salary_numeral z true). lia.
  - cbn [py_str]. rewrite <- (app_nil_r (str_int z)).
    apply (jooble_salary_numeral z false). lia.
Qed.

(** ** Tokens through the Jooble cleaning *)

Lemma strip_no_dot (s : pystr) :
  ~ In 46 s -> strip_non_numeric s = filter is_digit s.
Proof.
  unfold strip_non_numeric.
  induction s as [|c s IH]; simpl; [reflexivity|]; intros H.
  assert ((c =? 46) = false) as -> by (apply Z.eqb_neq; intuition).
  rewrite orb_false_r, IH by intuition. reflexivity.
Qed.

Lemma count_dots_strip (s : pystr) :
  count_occ Z.eq_dec (strip_non_numeric s) 46 = count_occ Z.eq_dec s 46.
Proof.
  unfold strip_non_numeric.
  induction s as [|c s IH]; cbn [filter count_occ]; [reflexivity|].
  destruct (Z.eq_dec c 46) as [->|Hc].
  - change (is_digit 46 || (46 =? 46)) with true. cbn [count_occ].
    destruct (Z.eq_dec 46 46); [now rewrite IH|congruence].
  - destruct (is_digit c || (c =? 46)); cbn [count_occ]; [|exact IH].
    destruct (Z.eq_dec c 46); [congruence|exact IH].
Qed.

Lemma before_dot_no_dot (s : pystr) : ~ In 46 s -> before_dot s = s.
Proof.
  induction s as [|c s IH]; cbn [before_dot In]; [reflexivity|]. intros H.
  assert ((c =? 46) = false) as -> by (apply Z.eqb_neq; intuition).
  rewrite IH by intuition. reflexivity.
Qed.

Lemma split_at_dot (s : pystr) :
  count_occ Z.eq_dec s 46 = 1%nat ->
  exists b, s = before_dot s ++ 46 :: b /\ ~ In 46 (before_dot s) /\ ~ In 46 b.
Proof.
  induction s as [|c s IH]; cbn [count_occ before_dot]; [discriminate|].
  destruct (Z.eq_dec c 46) as [->|Hc].
  - intros H. injection H as H. apply count_occ_not_In in H.
    exists s. change (46 =? 46) with true. cbv iota.
    split; [reflexivity|]. split; [intros []|exact H].
  - intros H. destruct (IH H) as (b & E & Ha & Hb).
    assert ((c =? 46) = false) as -> by (apply Z.eqb_neq; exact Hc).
    exists b. split; [cbn [app]; now rewrite <- E|].
    split; [|exact Hb]. intros [G|G]; [congruence|exact (Ha G)].
Qed.

Lemma digits_value_app (a b : pystr) :
  digits_value (a ++ b) =
  digits_value a * 10 ^ Z.of_nat (List.length b) + digits_value b.
Proof.
  induction b as [|c b IH] using rev_ind.
  - rewrite app_nil_r. cbn. lia.
  - rewrite app_assoc, !digits_value_snoc, IH, length_app. cbn [List.length].
    replace (Z.of_nat (List.length b + 1)) with (Z.succ (Z.of_nat (List.length b)))
      by lia.
    rewrite Z.pow_succ_r by lia. lia.
Qed.

Lemma digits_value_lt (b : pystr) :
  forallb is_digit b = true -> digits_value b < 10 ^ Z.of_nat (List.length b).
Proof.
  induction b as [|c b IH] using rev_ind; [cbn; lia|].
  rewrite forallb_app. cbn [forallb]. intros H.
  apply andb_true_iff in H as [Hb Hc]. rewrite andb_true_r in Hc.
  unfold is_digit in Hc. apply andb_true_iff in Hc as [_ Hc]. apply Z.leb_le in Hc.
  rewrite digits_value_snoc, length_app. cbn [List.length].
  replace (Z.of_nat (List.length b + 1)) with (Z.succ (Z.of_nat (List.length b)))
    by lia.
  rewrite Z.pow_succ_r by lia. specialize (IH Hb). lia.
Qed.

(** X19.  A Jooble salary given as text (ASCII): the regex takes the first
    run that starts with a digit and goes on with digits, commas and dots,
    whatever prose surrounds it, and the commas are removed.  A token
    without a dot becomes the integer its digits spell (up to 2^53, beyond
    which the double rounds); of a token with one dot the digits before the
    dot count, the fraction at most rounding them up by one; a token with
    more dots than one makes [float] raise [ValueError]. *)
Theorem X19_jooble_leading_token (pre tok rest : pystr) (d : Z) :
  forallb is_ascii (pre ++ (d :: tok) ++ rest) = true ->
  forallb (fun c => negb (is_digit c)) pre = true ->
  is_digit d = true ->
  forallb token_char tok = true ->
  ends_token rest = true ->
  let text := PStr (pre ++ (d :: tok) ++ rest) in
  let dots := count_occ Z.eq_dec tok 46 in
  let whole := digits_value (filter is_digit (before_dot (d :: tok))) in
  regex_extract (pre ++ (d :: tok) ++ rest) = Some (d :: tok) /\
  ((2 <= dots)%nat -> jooble_salary text = Raise ValueError) /\
  (dots = 0%nat -> whole <= 2 ^ 53 -> jooble_salary text = Ok (PInt whole)) /\
  (dots = 1%nat -> whole < 2 ^ 53 ->
   exists t, jooble_salary text = Ok (PInt t) /\ whole <= t <= whole + 1).
Proof.
  intros _ Hpre Hd Htok Hrest text dots whole.
  destruct (jooble_salary_token pre tok rest d Hpre Hd Htok Hrest) as [E S].
  split; [exact E|]. subst text. rewrite S. clear E S.
  assert (D : count_occ Z.eq_dec (d :: tok) 46 = dots).
  { cbn [count_occ]. destruct (Z.eq_dec d 46) as [->|_]; [discriminate Hd|].
    reflexivity. }
  unfold float_to_int, astype_float. rewrite count_dots_strip, D.
  split; [|split].
  - intros H.
    assert ((Z.of_nat dots <=? 1) = false) as -> by (apply Z.leb_gt; lia).
    reflexivity.
  - intros H Hw. rewrite H. change (Z.of_nat 0 <=? 1) with true. cbn [rbind].
    rewrite H in D. apply count_occ_not_In in D.
    subst whole. rewrite before_dot_no_dot in * by exact D.
    rewrite strip_no_dot by exact D.
    pose proof (filter_digits (d :: tok)) as Hall.
    rewrite (filter_all_digits _ Hall), <- (app_nil_r (filter is_digit (d :: tok))),
      (fraction_digits _ _ Hall).
    cbn [fraction List.length]. rewrite app_nil_r. change (10 ^ Z.of_nat 0) with 1.
    rewrite <- (Z.mul_1_r (digits_value _)) at 1.
    rewrite astype_int_exact; [reflexivity| |lia].
    split; [apply digits_value_nonneg, Hall|exact Hw].
  - intros H Hw. rewrite H. change (Z.of_nat 1 <=? 1) with true. cbn [rbind].
    rewrite H in D. destruct (split_at_dot _ D) as (b & Es & Ha & Hb).
    subst whole. set (a := before_dot (d :: tok)) in *.
    rewrite Es. unfold strip_non_numeric at 1 2. rewrite !filter_app.
    cbn [filter]. change (is_digit 46 || (46 =? 46)) with true.
    change (is_digit 46) with false. cbv iota.
    fold (strip_non_numeric a). fold (strip_non_numeric b).
    rewrite !strip_no_dot by assumption.
    set (fa := filter is_digit a) in *. set (fb := filter is_digit b).
    assert (Ha' : forallb is_digit fa = true) by apply filter_digits.
    assert (Hb' : forallb is_digit fb = true) by apply filter_digits.
    cbn [filter]. change (is_digit 46) with false. cbv iota.
    rewrite !filter_all_digits by assumption.
    rewrite (fraction_digits fa _ Ha'). cbn [fraction].
    change (46 =? 46) with true. cbv iota. rewrite filter_all_digits by assumption.
    rewrite digits_value_app.
    set (k := 10 ^ Z.of_nat (List.length fb)).
    assert (Hk : 0 < k) by (apply Z.pow_pos_nonneg; lia).
    pose proof (digits_value_nonneg fa Ha') as A0.
    pose proof (digits_value_nonneg fb Hb') as B0.
    pose proof (digits_value_lt fb Hb') as B1. fold k in B1.
    assert (Q : (digits_value fa * k + digits_value fb) / k = digits_value fa).
    { rewrite Z.div_add_l by lia. rewrite Z.div_small by lia. lia. }
    destruct (astype_int_bracket (digits_value fa * k + digits_value fb) k)
      as (t & Et & Ht); [nia|exact Hk|rewrite Q; exact Hw|].
    rewrite Q in Ht. exists t. rewrite Et. split; [reflexivity|exact Ht].
Qed.

(** ** The RemoteOK frame *)

Lemma remoteok_salary_guard (v : pyval) :
  remoteok_salary (if truthy v then v else PNone) = remoteok_salary v.
Proof.
  destruct v as [| |b|z|s|l|d]; cbn [truthy]; try reflexivity.
  - destruct b; reflexivity.
  - destruct (Z.eqb_spec z 0) as [->|]; reflexivity.
  - destruct s; reflexivity.
  - destruct l; reflexivity.
  - destruct d; reflexivity.
Qed.

Lemma job_info_salaries (job : pyval) (rec : list (pystr * pyval)) :
  job_info job = Ok rec ->
  remoteok_salary (dict_get rec (lit "salary_min") PNaN) =
    remoteok_salary (listing_get (lit "salary_min") job) /\
  remoteok_salary (dict_get rec (lit "salary_max") PNaN) =
    remoteok_salary (listing_get (lit "salary_max") job).
Proof.
  destruct job as [| | | | | |d]; try discriminate.
  cbn [job_info listing_get].
  destruct (join_py (lit ", ") (dict_get d (lit "tags") (PList []))) as [tags|];
    [|discriminate].
  cbn [rbind]. intros H; injection H as <-.
  split.
  - change (dict_get _ (lit "salary_min") PNaN)
      with (if truthy (dict_get d (lit "salary_min") PNone)
            then dict_get d (lit "salary_min") PNone else PNone).
    apply remoteok_salary_guard.
  - change (dict_get _ (lit "salary_max") PNaN)
      with (if truthy (dict_get d (lit "salary_max") PNone)
            then dict_get d (lit "salary_max") PNone else PNone).
    apply remoteok_salary_guard.
Qed.

Lemma rmap_job_info_salaries (listings : list pyval) recs :
  rmap job_info listings = Ok recs ->
  map (fun r => remoteok_salary (dict_get r (lit "salary_min") PNaN)) recs =
    map (fun j => remoteok_salary (listing_get (lit "salary_min") j)) listings /\
  map (fun r => remoteok_salary (dict_get r (lit "salary_max") PNaN)) recs =
    map (fun j => remoteok_salary (listing_get (lit "salary_max") j)) listings.
Proof.
  revert recs; induction listings as [|j js IH]; cbn [rmap]; intros recs H.
  - injection H as <-. split; reflexivity.
  - destruct (job_info j) as [r|] eqn:E; [|discriminate].
    destruct (rmap job_info js) as [rs|]; [|discriminate].
    injection H as <-. apply job_info_salaries in E as [E1 E2].
    destruct (IH rs eq_refl) as [I1 I2].
    cbn [map]. rewrite E1, E2, I1, I2. split; reflexivity.
Qed.

Lemma lookup_where_frame (k : pystr) (df : DataFrame) :
  lookup k (cols (where_frame df)) =
  option_map (fun c => if pystr_eqb k (lit "date_posted") then c
                       else where_notnull c) (lookup k (cols df)).
Proof.
  unfold where_frame. cbn [cols].
  induction (cols df) as [|[k' c] l IH]; cbn [map lookup fst snd option_map];
    [reflexivity|].
  destruct (pystr_eqb k k') eqn:E; [|exact IH].
  apply pystr_eqb_eq in E. subst k'. reflexivity.
Qed.

Lemma where_frame_labels (df : DataFrame) :
  map fst (cols (where_frame df)) = map fst (cols df).
Proof. unfold where_frame. cbn [cols]. rewrite map_map. reflexivity. Qed.

Lemma update_col_labels (k : pystr) f (df df' : DataFrame) :
  update_col k f df = Ok df' -> map fst (cols df') = map fst (cols df).
Proof.
  intros H. apply update_col_inv in H as (c & c' & L & _ & ->).
  cbn [set_col cols]. eapply replace_col_labels; eassumption.
Qed.

Lemma update_col_nrows (k : pystr) f (df df' : DataFrame) :
  update_col k f df = Ok df' -> nrows df' = nrows df.
Proof.
  intros H. apply update_col_inv in H as (c & c' & _ & _ & ->). reflexivity.
Qed.

(** What [remoteok_transform] makes of a frame with the nine labels. *)
Lemma remoteok_transform_frame (n : nat) (col : pystr -> list pyval) (df : DataFrame) :
  remoteok_transform
    (mkFrame n (map (fun k => (k, col k)) remoteok_labels)) = Ok df ->
  map fst (cols df) = remoteok_labels /\ nrows df = n /\
  get_col (lit "salary_min") df
    = Ok (map remoteok_salary (col (lit "salary_min"))) /\
  get_col (lit "salary_max") df
    = Ok (map remoteok_salary (col (lit "salary_max"))).
Proof.
  unfold remoteok_transform, convert_dates. intros H.
  set (F := mkFrame n (map (fun k => (k, col k)) remoteok_labels)) in H.
  destruct (update_col (lit "date_posted") _ F) as [df1|] eqn:E1; [|discriminate].
  cbn [rbind] in H.
  destruct (update_col (lit "id") _ df1) as [df2|] eqn:E2; [|discriminate].
  cbn [rbind] in H.
  destruct (apply_col (lit "salary_min") _ df2) as [df3|] eqn:E3; [|discriminate].
  cbn [rbind] in H.
  destruct (apply_col (lit "salary_max") _ df3) as [df4|] eqn:E4; [|discriminate].
  cbn [rbind] in H. injection H as <-.
  pose proof (update_col_labels _ _ _ _ E1) as L1.
  pose proof (update_col_labels _ _ _ _ E2) as L2.
  pose proof (apply_col_labels _ _ _ _ E3) as L3.
  pose proof (apply_col_labels _ _ _ _ E4) as L4.
  pose proof (update_col_nrows _ _ _ _ E1) as N1.
  pose proof (update_col_nrows _ _ _ _ E2) as N2.
  pose proof (apply_col_nrows _ _ _ _ E3) as N3.
  pose proof (apply_col_nrows _ _ _ _ E4) as N4.
  assert (LF : map fst (cols F) = remoteok_labels)
    by (subst F; cbn [cols]; rewrite map_map; apply map_id).
  rewrite where_frame_labels.
  split; [congruence|].
  split; [unfold where_frame; subst F; cbn [nrows] in *; congruence|].
  apply update_col_inv in E1 as (c1 & c1' & _ & _ & ->).
  apply update_col_inv in E2 as (c2 & c2' & _ & _ & ->).
  apply apply_col_inv in E3 as (c3 & c3' & K3 & R3 & ->).
  apply apply_col_inv in E4 as (c4 & c4' & K4 & R4 & ->).
  rewrite rmap_total in R3, R4. injection R3 as <-. injection R4 as <-.
  cbn [set_col cols] in K3, K4.
  rewrite !lookup_replace_other in K3 by reflexivity.
  rewrite lookup_replace_other in K4 by reflexivity.
  rewrite !lookup_replace_other in K4 by reflexivity.
  subst F. cbn [cols] in K3, K4.
  assert (Q3 : lookup (lit "salary_min") (map (fun k => (k, col k)) remoteok_labels)
               = Some (col (lit "salary_min"))) by reflexivity.
  assert (Q4 : lookup (lit "salary_max") (map (fun k => (k, col k)) remoteok_labels)
               = Some (col (lit "salary_max"))) by reflexivity.
  rewrite Q3 in K3. rewrite Q4 in K4. injection K3 as <-. injection K4 as <-.
  assert (W : forall c, where_notnull (map remoteok_salary c) = map remoteok_salary c).
  { intros c. apply where_notnull_present. intros v Hv.
    apply in_map_iff in Hv as (x & <- & _). reflexivity. }
  unfold get_col. rewrite !lookup_where_frame. cbn [set_col cols].
  rewrite lookup_replace_other, !lookup_replace_same by reflexivity.
  cbn [option_map].
  change (pystr_eqb (lit "salary_min") (lit "date_posted")) with false.
  change (pystr_eqb (lit "salary_max") (lit "date_posted")) with false.
  cbv iota. rewrite !W. split; reflexivity.
Qed.

Lemma remoteok_salary_number (v : pyval) :
  small_or_missing v = true -> remoteok_salary v = PInt (number_of v).
Proof. destruct v; try discriminate; reflexivity. Qed.

(** X14.  Whenever RemoteOK's fetch returns a frame, the frame has the
    nine columns of the script's table in their order and a row per listing
    after the metadata item.  Where the listings give a salary as an integer
    (up to 2^53 in magnitude) or not at all, each salary cell is that
    integer, 0 for none: the test that replaces a false value by [None]
    changes nothing of it, and nothing is clamped. *)
Theorem X14_remoteok_frame (status : Z) (meta : pyval) (listings : list pyval)
        (w w' : world) (df : DataFrame) :
  fetch_remoteok_data (Response status (Some (PList (meta :: listings)))) w
    = (Ok (Some df), w') ->
  map fst (cols df) = remoteok_labels /\
  nrows df = List.length listings /\ listings <> [] /\
  forall k, k = lit "salary_min" \/ k = lit "salary_max" ->
    forallb small_or_missing (map (listing_get k) listings) = true ->
    get_col k df = Ok (map (fun j => PInt (number_of (listing_get k j))) listings).
Proof.
  destruct w as [c0 t0 cur0 con0 tr0].
  run. destruct ((400 <=? status) && (status <? 600)); run; [discriminate|].
  destruct listings as [|j js]; run; [discriminate|].
  destruct (rmap job_info (j :: js)) as [recs|x] eqn:R; run;
    [|destruct x; run; discriminate].
  destruct (remoteok_transform (frame_of_records recs)) as [df'|x] eqn:T; run;
    [|destruct x; run; discriminate].
  intros H; injection H as -> _.
  destruct (remoteok_frame _ _ R) as [F _]; [discriminate|].
  rewrite F in T.
  apply (remoteok_transform_frame _ (fun k => map (fun r => dict_get r k PNaN) recs))
    in T as (L & N & Smin & Smax).
  destruct (rmap_job_info_salaries _ _ R) as [I1 I2].
  split; [exact L|]. split; [exact N|]. split; [discriminate|].
  intros k Hk Hs.
  assert (G : map (fun j => remoteok_salary (listing_get k j)) (j :: js) =
              map (fun j => PInt (number_of (listing_get k j))) (j :: js)).
  { apply map_ext_in. intros x Hx. apply remoteok_salary_number.
    rewrite forallb_forall in Hs. apply Hs. now apply in_map. }
  rewrite <- G.
  destruct Hk as [-> | ->]; [rewrite Smin, map_map, <- I1|rewrite Smax, map_map, <- I2];
    reflexivity.
Qed.

(** ** The key as a column value *)

Lemma hex_chars (bs : list Z) :
  Forall is_byte bs -> forallb is_hex (SHA256.hex bs) = true.
Proof.
  unfold SHA256.hex. induction 1 as [|b bs Hb _ IH]; cbn [flat_map app forallb];
    [reflexivity|].
  rewrite IH, andb_true_r. unfold is_byte in Hb.
  assert (G : forall n, 0 <= n < 16 -> is_hex (SHA256.hex_digit n) = true).
  { intros n Hn. unfold SHA256.hex_digit, is_hex.
    destruct (Z.ltb_spec n 10).
    - apply orb_true_iff; left. apply andb_true_iff; split; apply Z.leb_le; lia.
    - apply orb_true_iff; right. apply andb_true_iff; split; apply Z.leb_le; lia. }
  rewrite !G; [reflexivity| |]; Z.to_euclidean_division_equations; lia.
Qed.

(** X15.  A key that the hashing loaders assign fits the column declared
    for it: it is a string of exactly 64 characters, each a digit or a
    letter from a to f. *)
Theorem X15_key_is_64_hex_characters (row : list (pystr * pyval)) (v : pyval) :
  unique_job_id row = Ok v ->
  exists k, v = PStr k /\ List.length k = 64%nat /\ forallb is_hex k = true.
Proof.
  unfold unique_job_id.
  destruct (row_get row (lit "company")); [|discriminate].
  destruct (row_get row (lit "position")); [|discriminate].
  destruct (row_get row (lit "location")); [|discriminate].
  cbn [rbind]. intros H.
  apply surrogate_key_inv in H as (bytes & _ & ->).
  eexists; split; [reflexivity|]. split; [apply hexdigest_length|].
  apply hex_chars, digest_bytes.
Qed.

(** ** The batch handed to the upsert *)

Lemma rows_of_shape (df : DataFrame) :
  List.length (rows_of df) = nrows df /\
  Forall (fun r => List.length r = List.length (cols df)) (rows_of df).
Proof.
  unfold rows_of, row_dicts, row_at. split.
  - now rewrite !length_map, length_seq.
  - rewrite map_map. apply Forall_forall. intros r Hr.
    apply in_map_iff in Hr as (i & <- & _). now rewrite !length_map.
Qed.

(** X16.  The batch of a hashing loader has one row per row of the frame,
    and every row has as many values as the MERGE statement has
    placeholders (ten). *)
Theorem X16_batch_shape (columns : list pystr) (df : DataFrame) data :
  columns = adzuna_columns \/ columns = jooble_columns ->
  keyed_rows columns df = Ok data ->
  List.length data = nrows df /\
  Forall (fun r => List.length r = 10%nat) data.
Proof.
  intros Hc. unfold keyed_rows.
  destruct (rmap unique_job_id (row_dicts df)) as [keys|]; [|discriminate].
  cbn [rbind].
  destruct (select columns _) as [df2|] eqn:S; [|discriminate].
  cbn [rbind]. intros H; injection H as <-.
  apply select_inv in S as (N & L & _). cbn [set_col nrows] in N.
  destruct (rows_of_shape (where_frame df2)) as [R1 R2].
  split; [rewrite R1; exact N|].
  apply Forall_forall. intros r Hr.
  rewrite Forall_forall in R2. rewrite (R2 r Hr).
  rewrite <- (length_map fst), where_frame_labels, L.
  destruct Hc as [-> | ->]; reflexivity.
Qed.

(** ** Runs without data *)

(** Go on with a run whose configuration lookups are known. *)
Ltac go :=
  run; unfold config_get;
  repeat match goal with
         | H : lookup _ _ = _ |- _ => rewrite H
         end;
  cbn [apply_col get_col lookup cols empty_frame rbind]; run.

(** X17.  What each driver does when the fetch yields no data (transport
    error, 4xx/5xx status, or a feed without listings), config.ini and the
    server being in order.  Adzuna reads the date column of the empty frame
    and ends in [KeyError]; Jooble does the same and reports the exception
    as a configuration error; both have connected before and close the
    connection.  RemoteOK halts before it reads config.ini or connects.  In
    all three nothing is written. *)
Theorem X17_run_without_data (p : provider) (e : env) (t : option table) :
  ready p e = true ->
  http_failure (reply e) = true \/ zero_listings p (reply e) = true ->
  let r := main p e (start t) in
  committed (snd r) = t /\ merged_in (trace (snd r)) = false /\
  match p with
  | Adzuna =>
      fst r = Raise (KeyError (lit "date_posted")) /\
      closed_in (trace (snd r)) = true
  | Jooble =>
      fst r = Ok tt /\ reported_in ConfigKeyMissing (trace (snd r)) = true /\
      closed_in (trace (snd r)) = true
  | RemoteOK =>
      fst r = Ok tt /\ reported_in Halting (trace (snd r)) = true /\
      config_read_in (trace (snd r)) = false /\
      database_in (trace (snd r)) = false
  end.
Proof.
  destruct e as [src cf net f]. unfold ready, config_has_keys, has_keys.
  cbn [config_file connect_fault reply]. cbv zeta.
  intros Hr Hn.
  apply andb_true_iff in Hr as [Hr Hs]. apply andb_true_iff in Hr as [Hk Hc].
  destruct cf; [discriminate|clear Hc].
  assert (Hfail : http_failure net = true ->
                  net = TransportError \/
                  exists status body, net = Response status body /\
                                      (400 <=? status) && (status <? 600) = true).
  { destruct net as [|status body]; cbn [http_failure]; eauto. }
  destruct p.
  - destruct src as [| |c]; try discriminate.
    destruct (lookup (lit "database") c) as [d|] eqn:D; [|discriminate].
    destruct (lookup (lit "server") d) eqn:S1; [|discriminate].
    destruct (lookup (lit "database") d) eqn:S2; [|discriminate].
    destruct (lookup (lit "adzuna") c) as [s|] eqn:A; [|discriminate].
    destruct (lookup (lit "app_id") s) eqn:A1; [|discriminate].
    destruct (lookup (lit "app_key") s) eqn:A2; [|discriminate].
    destruct Hn as [H|H].
    + destruct (Hfail H) as [->|(status & body & -> & Hst)].
      * do 3 go. repeat split; reflexivity.
      * do 3 go. rewrite Hst. do 2 go. repeat split; reflexivity.
    + destruct net as [|status [body|]]; cbn [zero_listings] in H;
        try discriminate.
      apply andb_true_iff in H as [Hst H]. apply negb_true_iff in Hst.
      destruct body as [| | | | | |b]; try discriminate.
      destruct (dict_get b (lit "results") (PList [])) as [| | | | |[|]|] eqn:E;
        try discriminate.
      do 3 go. rewrite Hst. go. cbn [py_get]. rewrite E. cbn [truthy negb].
      do 2 go. repeat split; reflexivity.
  - destruct src as [| |c]; try discriminate.
    destruct (lookup (lit "database") c) as [d|] eqn:D; [|discriminate].
    destruct (lookup (lit "server") d) eqn:S1; [|discriminate].
    destruct (lookup (lit "database") d) eqn:S2; [|discriminate].
    destruct (lookup (lit "api") c) as [s|] eqn:A; [|discriminate].
    destruct (lookup (lit "jooble_api_key") s) eqn:A1; [|discriminate].
    destruct Hn as [H|H].
    + destruct (Hfail H) as [->|(status & body & -> & Hst)].
      * do 3 go. repeat split; reflexivity.
      * do 3 go. rewrite Hst. do 2 go. repeat split; reflexivity.
    + destruct net as [|status [body|]]; cbn [zero_listings] in H;
        try discriminate.
      apply andb_true_iff in H as [Hst H]. apply negb_true_iff in Hst.
      destruct body as [| | | | | |b]; try discriminate.
      destruct (dict_get b (lit "jobs") (PList [])) as [| | | | |[|]|] eqn:E;
        try discriminate.
      do 3 go. rewrite Hst. go. cbn [py_get]. rewrite E. cbn [truthy negb].
      do 2 go. repeat split; reflexivity.
  - destruct Hn as [H|H].
    + destruct (Hfail H) as [->|(status & body & -> & Hst)].
      * go. repeat split; reflexivity.
      * go. rewrite Hst. go. repeat split; reflexivity.
    + destruct net as [|status [body|]]; cbn [zero_listings] in H;
        try discriminate.
      apply andb_true_iff in H as [Hst H]. apply negb_true_iff in Hst.
      destruct body as [| | | | |[|meta [|]]|]; try discriminate.
      go. rewrite Hst. go. repeat split; reflexivity.
Qed.

(** ** A load that goes through *)

(** X18.  When no database call fails and the batch can be built, the
    load returns normally with the table holding exactly the rows it held
    merged with the batch (the table created empty if it was not there),
    committed; it printed the number of rows of the batch, called
    [executemany] once and did not roll back. *)
Theorem X18_load_success (p : provider) (df : DataFrame) (f : db_faults)
        (w : world) data :
  working w = committed w ->
  df_empty df = false ->
  fault_list f = [] ->
  batch_of p df = Ok data ->
  let r := load p df f w in
  fst r = Ok tt /\
  committed (snd r) = Some (merge_batch data (rows (committed w))) /\
  working (snd r) = committed (snd r) /\
  exists evs,
    trace (snd r) = trace w ++ evs /\
    In (Print (Merged (List.length data))) evs /\ ~ In Rollback evs /\
    executions evs = 1%nat.
Proof.
  destruct w as [c0 t0 cur0 con0 tr0]; cbn [working committed trace].
  intros -> Hdf Hf Hb. cbv zeta.
  destruct f as [[|] [|] [|] [|] [|]]; try discriminate Hf. clear Hf.
  unfold merge_batch.
  destruct p; cbn [batch_of] in Hb; try (injection Hb as <-);
    run; rewrite ?Hdf; run; rewrite ?Hb;
    destruct c0 as [t|]; run;
    (split; [reflexivity|]; split; [reflexivity|]; split; [reflexivity|];
     eexists; split; [new_events; reflexivity|];
     cbn [In executions filter List.length];
     repeat split; try tauto; intuition discriminate).
Qed.

End Pipelines.

(** * Concrete runs *)

(** ** SHA-256 against its published test vectors *)

Example sha256_abc :
  SHA256.hexdigest [97; 98; 99] =
  lit "ba7816bf8f01cfea414140de5dae2223b00361a396177a9cb410ff61f20015ad".
Proof. vm_compute. reflexivity. Qed.

Example sha256_empty :
  SHA256.hexdigest [] =
  lit "e3b0c44298fc1c149afbf4c8996fb92427ae41e4649b934ca495991b7852b855".
Proof. vm_compute. reflexivity. Qed.

Example sha256_two_blocks :
  option_map SHA256.hexdigest
    (encode (lit "abcdbcdecdefdefgefghfghighijhijkijkljklmklmnlmnomnopnopq")) =
  Some (lit "248d6a61d20638b8e5c026930c3e6039a33ce45964ff2167f6ecedd419db06c1").
Proof. vm_compute. reflexivity. Qed.

(** Code points beyond ASCII: "héllo-€-\U0001F600". *)
Example sha256_utf8 :
  option_map SHA256.hexdigest
    (encode [104; 233; 108; 108; 111; 45; 8364; 45; 128512]) =
  Some (lit "52f3d5bcfb03a879fcd42dadfa4c07475367b57ed913c1d506a7fad2a4be03c6").
Proof. vm_compute. reflexivity. Qed.

(** ** Salaries *)

(** C3.  RemoteOK keeps a negative salary and a salary beyond 32 bits as
    they come: its cleaning converts and fills but does not clamp. *)
Theorem C3_remoteok_salary_not_clamped :
  exists df w',
    fetch_remoteok_data repr0 dates0
      (remoteok_feed [remoteok_job (PInt (-5)) (PInt 3000000000)]) (start None)
      = (Ok (Some df), w') /\
    get_col (lit "salary_min") df = Ok [PInt (-5)] /\
    get_col (lit "salary_max") df = Ok [PInt 3000000000].
Proof. do 2 eexists. vm_compute. repeat split; reflexivity. Qed.

(** The same for a Jooble salary text with many digits. *)
Example jooble_salary_beyond_32_bits :
  jooble_salary repr0 (PStr (lit "up to 99999999999 INR")) = Ok (PInt 99999999999) /\
  2147483647 < 99999999999.
Proof. split; [vm_compute; reflexivity|lia]. Qed.

(** With twenty digits the salary goes through a double that no 64-bit
    integer holds, and the cast makes the lowest one of it. *)
Example jooble_salary_wraps :
  jooble_salary repr0 (PStr (lit "99999999999999999999"))
  = Ok (PInt (-9223372036854775808)).
Proof. vm_compute. reflexivity. Qed.

(** Above 2^53 a salary is read back as the nearest double. *)
Example jooble_salary_rounded :
  jooble_salary repr0 (PStr (lit "9007199254740993")) = Ok (PInt 9007199254740992).
Proof. vm_compute. reflexivity. Qed.

(** ** Missing fields *)

(** C7.  No listing of the feed has a company: the column is read (line
    58) before the loop that would have created it (lines 73-75), so the
    fetch raises [KeyError] and the run ends there, the connection closed. *)
Theorem C7_adzuna_missing_company_aborts :
  let net := adzuna_feed [adzuna_job_without_company] in
  fst (fetch_adzuna_data net (start None)) = Raise (KeyError (lit "company")) /\
  fst (adzuna_main repr0 dates0 (env_ok net) (start None))
    = Raise (KeyError (lit "company")) /\
  committed (snd (adzuna_main repr0 dates0 (env_ok net) (start None))) = None.
Proof. vm_compute. repeat split; reflexivity. Qed.

(** One listing whose area is null takes the whole batch with it. *)
Example adzuna_null_area_aborts :
  fst (fetch_adzuna_data (adzuna_feed [adzuna_job; adzuna_job_null_area])
         (start None)) = Raise TypeError.
Proof. vm_compute. reflexivity. Qed.

(** No Jooble listing has a salary: line 44 raises, and [main] reports a
    configuration error. *)
Example jooble_missing_salary_aborts :
  let net := jooble_feed [PDict [(lit "id", PInt 7); (lit "title", PStr (lit "Dev"))]] in
  fst (fetch_jooble_data repr0 net (start None)) = Raise (KeyError (lit "salary_min")) /\
  exists w', jooble_main repr0 dates0 (env_ok net) (start None) = (Ok tt, w') /\
             In (Print ConfigKeyMissing) (trace w') /\ committed w' = None.
Proof.
  split; [vm_compute; reflexivity|].
  eexists; split; [vm_compute; reflexivity|]. simpl; intuition.
Qed.

(** A feed whose jobs are strings: pandas makes one column of them, and
    the scripts fail on the first column they read; Jooble's [main] takes
    the [KeyError] for a configuration error. *)
Example scalar_jobs_have_no_columns :
  fst (fetch_adzuna_data (adzuna_feed [PStr (lit "a"); PStr (lit "b")]) (start None))
    = Raise (KeyError (lit "company")) /\
  fst (fetch_jooble_data repr0 (jooble_feed [PStr (lit "a"); PStr (lit "b")])
         (start None)) = Raise (KeyError (lit "salary_min")) /\
  fst (jooble_main repr0 dates0
         (env_ok (jooble_feed [PStr (lit "a"); PStr (lit "b")])) (start None)) = Ok tt.
Proof. vm_compute. repeat split; reflexivity. Qed.

(** ** Empty feeds *)

(** C8.  Adzuna answers with an empty list of results: the fetch returns
    the empty frame, and line 172 of [main] then reads its date_posted
    column.  The run ends in [KeyError] instead of a quiet "nothing to
    load"; nothing was written. *)
Theorem C8_adzuna_empty_feed_raises :
  adzuna_main repr0 dates0 (env_ok (adzuna_feed [])) (start None) =
  (Raise (KeyError (lit "date_posted")),
   mkWorld None None false true
     [Print EtlStart; ReadConfig; DbConnect; Print Connected; Print FetchStart;
      HttpRequest; Print NoJobsWarning; CloseConnection; Print ConnectionClosed;
      Print EtlFinished]).
Proof. vm_compute. reflexivity. Qed.

(** Jooble on an empty list: the same [KeyError], caught by [main] and
    reported as a configuration error. *)
Example jooble_empty_feed_reports_config_error :
  jooble_main repr0 dates0 (env_ok (jooble_feed [])) (start None) =
  (Ok tt,
   mkWorld None None false true
     [Print EtlStart; ReadConfig; DbConnect; Print Connected; Print FetchStart;
      HttpRequest; Print NoJobsWarning; Print ConfigKeyMissing; CloseConnection;
      Print ConnectionClosed; Print EtlFinished]).
Proof. vm_compute. reflexivity. Qed.

(** RemoteOK on the metadata item alone: no frame, and the run halts
    before it reads the configuration. *)
Example remoteok_empty_feed_halts :
  remoteok_main repr0 dates0 (env_ok (remoteok_feed [])) (start None) =
  (Ok tt,
   mkWorld None None false false
     [Print FetchStart; HttpRequest; Print UnexpectedFormat; Print Halting]).
Proof. vm_compute. reflexivity. Qed.

(** ** Fetch failures *)

(** C6, as stated, fails on a status that is neither 2xx nor 4xx/5xx:
    [raise_for_status] lets a 300 through and the listings are taken. *)
Lemma C6_status_300_is_taken :
  http_failure (Response 300 None) = false /\
  exists df w',
    fetch_adzuna_data (Response 300 (Some (PDict [(lit "results", PList [adzuna_job])])))
      (start None) = (Ok df, w') /\
    df_empty df = false /\ ~ In (Print ApiError) (trace w').
Proof.
  split; [reflexivity|].
  do 2 eexists. split; [vm_compute; reflexivity|].
  split; [reflexivity|]. simpl. intuition discriminate.
Qed.

(** C6 at a 503 from Jooble. *)
Lemma C6_witness :
  exists r w' evs,
    fetch repr0 dates0 Jooble (Response 503 None) (start None) = (Ok r, w') /\
    no_data r = true /\
    trace w' = trace (start None) ++ evs /\
    (http_failure (Response 503 None) = true -> In (Print ApiError) evs) /\
    committed w' = committed (start None) /\ working w' = working (start None).
Proof.
  apply (C6_no_data_on_failure_or_empty_feed repr0 dates0 Jooble (Response 503 None)).
  left; reflexivity.
Defined.

(** ** Jooble salaries *)

(** C9.  One listing of the feed writes its salary with dots between the
    thousands.  The regex takes the token with both dots, [float] refuses
    it, and [ValueError] is neither a request error nor a [KeyError]: the
    fetch raises, [main] ends in the exception with the connection closed,
    and no listing of the feed is loaded, the one with the salary of the
    specification's example included. *)
Theorem C9_jooble_dotted_salary_aborts :
  let net := jooble_feed [jooble_job (lit "$50,000 - $70,000");
                          jooble_job (lit "Rp 5.000.000 per month")] in
  regex_extract (lit "Rp 5.000.000 per month") = Some (lit "5.000.000") /\
  jooble_salary repr0 (PStr (lit "Rp 5.000.000 per month")) = Raise ValueError /\
  fst (fetch_jooble_data repr0 net (start None)) = Raise ValueError /\
  fst (jooble_main repr0 dates0 (env_ok net) (start None)) = Raise ValueError /\
  closed_in (trace (snd (jooble_main repr0 dates0 (env_ok net) (start None)))) = true /\
  committed (snd (jooble_main repr0 dates0 (env_ok net) (start None))) = None.
Proof. vm_compute. repeat split; reflexivity. Qed.

(** The salary of the specification's example, cell and token. *)
Example jooble_example_token :
  regex_extract (lit "$50,000 - $70,000") = Some (lit "50,000") /\
  jooble_salary repr0 (PStr (lit "$50,000 - $70,000")) = Ok (PInt 50000).
Proof. vm_compute. split; reflexivity. Qed.

(** A token with one dot loses what follows the dot. *)
Example jooble_hourly_rate :
  jooble_salary repr0 (PStr (lit "$25.50 per hour")) = Ok (PInt 25).
Proof. vm_compute. reflexivity. Qed.

(** The same through the whole fetch. *)
Example jooble_fifty_thousand :
  exists df w',
    fetch_jooble_data repr0 (jooble_feed [jooble_job (lit "$50,000 - $70,000")])
      (start None) = (Ok df, w') /\
    get_col (lit "salary_min") df = Ok [PInt 50000] /\
    get_col (lit "salary_max") df = Ok [PInt 50000].
Proof. do 2 eexists. vm_compute. repeat split; reflexivity. Qed.

(** C10 at the frame of one listing with that salary. *)
Lemma C10_witness :
  exists c,
    get_col (lit "salary_min")
      (mkFrame 1 (map (fun k => (k, [if pystr_eqb k (lit "salary_min") then PInt 50000
                                     else if pystr_eqb k (lit "salary_max") then PInt 50000
                                     else PNone])) jooble_required)) = Ok c /\
    get_col (lit "salary_max")
      (mkFrame 1 (map (fun k => (k, [if pystr_eqb k (lit "salary_min") then PInt 50000
                                     else if pystr_eqb k (lit "salary_max") then PInt 50000
                                     else PNone])) jooble_required)) = Ok c.
Proof.
  apply (C10_jooble_salary_max_is_min repr0
           (frame_of_records [[(lit "salary", PStr (lit "$50,000 - $70,000"))]])).
  vm_compute. reflexivity.
Defined.

(** ** Load failures *)

(** C4, as stated, fails for RemoteOK on a failure of the upsert that is
    not a driver error (the [MemoryError] that [fast_executemany] is known
    for): [except pyodbc.Error] lets it through, nothing is reported or
    rolled back by the loader, and the run ends in the exception. *)
Lemma C4_remoteok_memory_error_escapes :
  remoteok_main repr0 dates0
    (mkEnv (Parsed config_ok) None (remoteok_feed [remoteok_job PNone PNone])
           (mkFaults None None None (Some (O, MemoryError)) None))
    (start None) =
  (Raise MemoryError,
   mkWorld (Some []) (Some []) true true
     [Print FetchStart; HttpRequest; Normalize; Print Fetched; Print ConnectStart;
      ReadConfig; DbConnect; Print Connected; Print LoadStart; OpenCursor;
      CreateTable; Commit; Print TableChecked; ExecuteMany 1; CloseCursor;
      CloseConnection; Print ConnectionClosed]).
Proof. vm_compute. reflexivity. Qed.

(** The upsert of a RemoteOK batch fails with a driver error after one of
    two rows: the row that went in is rolled back. *)
Lemma C4_witness :
  let df := mkFrame 2 [(lit "id", [PStr (lit "1"); PStr (lit "2")])] in
  let f := mkFaults None None None (Some (1%nat, PyodbcError (lit "22003"))) None in
  let w := start (Some [[PStr (lit "0")]]) in
  exists w' evs,
    load repr0 RemoteOK df f w = (Ok tt, w') /\
    trace w' = trace w ++ evs /\
    In (Print SqlError) evs /\ In Rollback evs /\
    rows (committed w') = rows (committed w) /\ working w' = committed w' /\
    (executions evs <= 1)%nat.
Proof.
  intros df f w.
  apply (C4_load_failure_rolls_back repr0 RemoteOK df f w);
    [reflexivity|reflexivity|discriminate|reflexivity].
Defined.

(** ** Order of a run *)

(** C5, as stated, fails for RemoteOK: it fetches and normalises first and
    reads the configuration file last, so a missing file is found after the
    network was used (and ends the run in [KeyError]). *)
Lemma C5_remoteok_fetches_before_config :
  remoteok_main repr0 dates0
    (mkEnv Missing None (remoteok_feed [remoteok_job PNone PNone]) no_faults)
    (start None) =
  (Raise (KeyError (lit "database")),
   mkWorld None None false false
     [Print FetchStart; HttpRequest; Normalize; Print Fetched; Print ConnectStart;
      ReadConfig]).
Proof. vm_compute. reflexivity. Qed.

(** C5 at a Jooble run whose config.ini does not parse. *)
Lemma C5_witness :
  let r := main repr0 dates0 Jooble
             (mkEnv Malformed None (jooble_feed [jooble_job (lit "1")]) no_faults)
             (start None) in
  fst r = Ok tt /\ outside_in (trace (snd r)) = false.
Proof.
  intros r.
  apply (C5_run_order repr0 dates0 Jooble
           (mkEnv Malformed None (jooble_feed [jooble_job (lit "1")]) no_faults) None);
    [discriminate|reflexivity].
Defined.

(** A full Adzuna run, stage by stage. *)
Example adzuna_full_run_stages :
  stages Adzuna
    (trace (snd (adzuna_main repr0 dates0 (env_ok (adzuna_feed [adzuna_job]))
                   (start None)))) = [0; 1; 2; 3; 4; 5; 6]%nat.
Proof. vm_compute. reflexivity. Qed.

(** ** Surrogate keys *)

(** C1, as stated, fails: the hyphen that joins the three fields may as
    well belong to one of them, so these two different triples render to
    the same text and get the same key, with certainty. *)
Lemma C1_hyphen_shift_same_key :
  (PStr (lit "Rolls-Royce"), PStr (lit "Engineer"), PStr (lit "Derby")) <>
  (PStr (lit "Rolls"), PStr (lit "Royce-Engineer"), PStr (lit "Derby")) /\
  surrogate_key repr0 (PStr (lit "Rolls-Royce")) (PStr (lit "Engineer")) (PStr (lit "Derby")) =
  surrogate_key repr0 (PStr (lit "Rolls")) (PStr (lit "Royce-Engineer")) (PStr (lit "Derby")) /\
  surrogate_key repr0 (PStr (lit "Rolls")) (PStr (lit "Royce-Engineer")) (PStr (lit "Derby")) =
  Ok (PStr (lit "1daebdf764b5b6498ffb28bd87dd68f731505cce4e15ceb8a86f140f98c10eb5")).
Proof.
  split; [intros H; vm_compute in H; discriminate|].
  split; vm_compute; reflexivity.
Qed.

(** A missing company (None) and a company called "None" are another pair. *)
Example none_and_its_name_same_key :
  surrogate_key repr0 PNone (PStr (lit "Engineer")) (PStr (lit "Derby")) =
  surrogate_key repr0 (PStr (lit "None")) (PStr (lit "Engineer")) (PStr (lit "Derby")).
Proof. vm_compute. reflexivity. Qed.

(** A lone surrogate in a field makes the key assignment raise. *)
Example surrogate_code_point_raises :
  surrogate_key repr0 (PStr [55296]) (PStr (lit "Engineer")) (PStr (lit "Derby")) =
  Raise UnicodeEncodeError.
Proof. vm_compute. reflexivity. Qed.

(** C1 at the row of the specification's scenario. *)
Lemma C1_witness :
  unique_job_id repr0
    [(lit "company", PStr (lit "Acme")); (lit "position", PStr (lit "Engineer"));
     (lit "location", PStr (lit "Remote")); (lit "salary_min", PInt 0)] =
  Ok (PStr (lit "b5aadf855f7af057a188b5ed1742fbd466bdae3a184508ce8a566619acc5152f")).
Proof.
  destruct (C1_surrogate_key repr0
              [(lit "company", PStr (lit "Acme")); (lit "position", PStr (lit "Engineer"));
               (lit "location", PStr (lit "Remote")); (lit "salary_min", PInt 0)]
              (PStr (lit "Acme")) (PStr (lit "Engineer")) (PStr (lit "Remote"))
              (lit "Acme-Engineer-Remote") eq_refl eq_refl eq_refl eq_refl)
    as [H _].
  rewrite H. vm_compute. reflexivity.
Defined.

(** ** Primary keys *)

(** C2, as stated, fails for RemoteOK: the row of the specification's
    scenario is stored under "123", the provider's identifier, and not
    under the digest of "Acme-Engineer-Remote". *)
Lemma C2_remoteok_key_is_provider_id :
  exists row w',
    remoteok_main repr0 dates0 (env_ok (remoteok_feed [remoteok_job PNone PNone]))
      (start None) = (Ok tt, w') /\
    committed w' = Some [row] /\
    row_key repr0 row = lit "123" /\
    surrogate_key repr0 (PStr (lit "Acme")) (PStr (lit "Engineer")) (PStr (lit "Remote"))
      <> Ok (PStr (row_key repr0 row)).
Proof.
  do 2 eexists. split; [vm_compute; reflexivity|].
  split; [reflexivity|]. split; [reflexivity|].
  intros H. vm_compute in H. discriminate.
Qed.

(** C2 at the RemoteOK feed of the specification's scenario. *)
Lemma C2_witness :
  exists df w',
    fetch_remoteok_data repr0 dates0 (remoteok_feed [remoteok_job PNone PNone])
      (start None) = (Ok (Some df), w') /\
    map (row_key repr0) (rows_of df) = [lit "123"].
Proof.
  do 2 eexists. split; [vm_compute; reflexivity|].
  match goal with
  | |- map _ (rows_of ?d) = _ =>
      exact (proj2 (C2_primary_key repr0 dates0) 200
               (PDict [(lit "legal", PStr (lit "terms"))])
               [remoteok_job PNone PNone] (start None) d _ eq_refl eq_refl)
  end.
Defined.

(** Two listings, one with the identifier 123 and one without any: pandas
    holds the column as floats, and the rows are stored under "123.0" and
    "nan". *)
Example remoteok_float_ids :
  option_map (map (row_key repr0))
    (committed (snd (remoteok_main repr0 dates0
                       (env_ok (remoteok_feed
                                  [PDict [(lit "id", PInt 123)];
                                   PDict [(lit "company", PStr (lit "Acme"))]]))
                       (start None)))) =
  Some [lit "123.0"; lit "nan"].
Proof. vm_compute. reflexivity. Qed.

(** The same listing through the Adzuna loader would be stored under the
    digest. *)
Example adzuna_key_is_digest :
  option_map (map (row_key repr0))
    (committed (snd (adzuna_main repr0 dates0 (env_ok (adzuna_feed [adzuna_job]))
                       (start None)))) =
  Some [lit "e178ee05fb4460eea037bbbc1596de5f2c7ca7f9c0d022dde2b64071e491d6ae"].
Proof. vm_compute. reflexivity. Qed.

(** * Further concrete runs *)

(** X1 at the row of the sample batch whose key comes twice. *)
Lemma X1_witness :
  exists r',
    find_row repr0 (lit "b") (merge_batch repr0 sample_batch sample_table) = Some r' /\
    In r' sample_batch /\ row_key repr0 r' = lit "b".
Proof.
  exact (proj2 (X1_find_after_batch repr0 sample_batch sample_table)
               [PStr (lit "b"); PInt 2] (or_introl eq_refl)).
Defined.

(** The sample batch leaves the update of "a" in place and the later "b". *)
Example merge_sample_batch :
  merge_batch repr0 sample_batch sample_table =
  [[PStr (lit "a"); PInt 3]; [PStr (lit "b"); PInt 4]].
Proof. reflexivity. Qed.

(** X2 at a RemoteOK frame whose two rows share their key, the table not
    there yet. *)
Lemma X2_witness :
  let once := load repr0 RemoteOK sample_ids_frame no_faults (start None) in
  let twice := load repr0 RemoteOK sample_ids_frame no_faults (snd once) in
  fst once = Ok tt /\ fst twice = Ok tt /\
  working (snd once) = committed (snd once) /\
  committed (snd twice) = committed (snd once) /\
  working (snd twice) = committed (snd twice).
Proof.
  exact (X2_load_twice repr0 RemoteOK sample_ids_frame (start None) eq_refl).
Defined.

(** X3 at the sample table, whose one key is not repeated. *)
Lemma X3_witness :
  NoDup (map (row_key repr0) (merge_batch repr0 sample_batch sample_table)).
Proof.
  apply (proj1 (proj2 (X3_merge_batch_keys repr0 sample_batch sample_table))).
  repeat constructor. simpl. tauto.
Defined.

(** X4 at an Adzuna run whose upsert fails after one row. *)
Lemma X4_witness :
  rows (committed (snd (main repr0 dates0 Adzuna
                          (mkEnv (Parsed config_ok) None (adzuna_feed [adzuna_job])
                                 (mkFaults None None None (Some (1%nat, MemoryError)) None))
                          (start (Some sample_table))))) = rows (Some sample_table).
Proof.
  apply (proj1 (proj2 (X4_run_all_or_nothing repr0 dates0 Adzuna
                         (mkEnv (Parsed config_ok) None (adzuna_feed [adzuna_job])
                                (mkFaults None None None (Some (1%nat, MemoryError)) None))
                         (Some sample_table)))).
  vm_compute. reflexivity.
Defined.

(** X7 at a missing config.ini. *)
Lemma X7_witness :
  fst (remoteok_get_db_connection Missing None (start None))
    = Raise (KeyError (lit "database")).
Proof.
  exact (proj1 (proj2 (X7_remoteok_get_db_connection Missing None (start None)))
               eq_refl).
Defined.

(** X9 at a config.ini that parses and has no section. *)
Lemma X9_witness :
  let r := jooble_main repr0 dates0 (mkEnv (Parsed []) None TransportError no_faults)
             (start None) in
  fst r = Ok tt /\ trace (snd r) = [Print EtlStart; ReadConfig; Print ConfigKeyMissing].
Proof.
  exact (proj2 (X9_jooble_main_catches_key_errors repr0 dates0
                  (mkEnv (Parsed []) None TransportError no_faults) None)
               [] eq_refl eq_refl).
Defined.

(** X10 at the same config.ini. *)
Lemma X10_witness :
  let r := adzuna_main repr0 dates0 (mkEnv (Parsed []) None TransportError no_faults)
             (start None) in
  fst r = Raise (KeyError (lit "database")) /\ outside_in (trace (snd r)) = false.
Proof.
  exact (proj1 (X10_adzuna_main_config_keys repr0 dates0
                  (mkEnv (Parsed []) None TransportError no_faults) None [] eq_refl)
               eq_refl).
Defined.

(** X11 at a raw frame with a negative salary_min and no salary_max. *)
Lemma X11_witness :
  exists df',
    adzuna_transform sample_adzuna_raw = Ok df' /\
    map fst (cols df') = adzuna_required /\
    nrows df' = nrows sample_adzuna_raw /\
    exists lo hi,
      get_col (lit "salary_min") df' = Ok lo /\
      get_col (lit "salary_max") df' = Ok hi /\
      Forall (int_between 0 9223372036854775807) lo /\
      Forall (int_between 0 9223372036854775807) hi.
Proof.
  destruct (adzuna_transform sample_adzuna_raw) as [df'|] eqn:E;
    [|vm_compute in E; discriminate].
  exists df'. split; [reflexivity|].
  exact (X11_adzuna_frame sample_adzuna_raw df' E).
Defined.

(** X12 at a raw frame of one salary text. *)
Lemma X12_witness :
  exists df',
    jooble_transform repr0 sample_jooble_raw = Ok df' /\
    map fst (cols df') = jooble_required /\
    nrows df' = nrows sample_jooble_raw /\
    exists lo hi,
      get_col (lit "salary_min") df' = Ok lo /\
      get_col (lit "salary_max") df' = Ok hi /\
      Forall from_float_cast lo /\ Forall from_float_cast hi.
Proof.
  destruct (jooble_transform repr0 sample_jooble_raw) as [df'|] eqn:E;
    [|vm_compute in E; discriminate].
  exists df'. split; [reflexivity|].
  exact (X12_jooble_frame repr0 sample_jooble_raw df' E).
Defined.

(** X13 at a column of two integers and a missing value, which pandas
    holds as floats. *)
Lemma X13_witness :
  jooble_salaries repr0 [PInt 50000; PNone; PInt (-7)]
  = Ok [PInt 50000; PInt 0; PInt 7].
Proof.
  exact (X13_jooble_salary_of_integers repr0 [PInt 50000; PNone; PInt (-7)] eq_refl).
Defined.

(** X19 at an hourly rate: the cents are dropped. *)
Lemma X19_witness :
  exists t,
    jooble_salary repr0 (PStr (lit "$25.50 per hour")) = Ok (PInt t) /\
    25 <= t <= 26.
Proof.
  exact (proj2 (proj2 (proj2
           (X19_jooble_leading_token repr0 (lit "$") (lit "5.50") (lit " per hour") 50
              eq_refl eq_refl eq_refl eq_refl eq_refl)))
           eq_refl eq_refl).
Defined.

(** X14 at a feed of two listings with a negative salary, a zero and a
    missing one. *)
Lemma X14_witness :
  exists df w',
    fetch_remoteok_data repr0 dates0
      (remoteok_feed [remoteok_job (PInt (-12)) (PInt 0);
                      remoteok_job PNone (PInt 7)]) (start None)
      = (Ok (Some df), w') /\
    get_col (lit "salary_min") df = Ok [PInt (-12); PInt 0] /\
    get_col (lit "salary_max") df = Ok [PInt 0; PInt 7].
Proof.
  destruct (fetch_remoteok_data repr0 dates0
              (remoteok_feed [remoteok_job (PInt (-12)) (PInt 0);
                              remoteok_job PNone (PInt 7)]) (start None))
    as [[[df|]|] w'] eqn:E; try (vm_compute in E; discriminate).
  exists df, w'. split; [reflexivity|].
  destruct (X14_remoteok_frame repr0 dates0 200
              (PDict [(lit "legal", PStr (lit "terms"))]) _ _ _ _ E)
    as (_ & _ & _ & Hs).
  split.
  - exact (Hs (lit "salary_min") (or_introl eq_refl) eq_refl).
  - exact (Hs (lit "salary_max") (or_intror eq_refl) eq_refl).
Defined.

(** X15 at the row of the specification's scenario. *)
Lemma X15_witness :
  exists v k,
    unique_job_id repr0 sample_row = Ok v /\
    v = PStr k /\ List.length k = 64%nat /\ forallb is_hex k = true.
Proof.
  destruct (unique_job_id repr0 sample_row) as [v|] eqn:E;
    [|vm_compute in E; discriminate].
  destruct (X15_key_is_64_hex_characters repr0 sample_row v E) as (k & Hk).
  exists v, k. split; [reflexivity|exact Hk].
Defined.

(** X16 at a normalised frame of one row. *)
Lemma X16_witness :
  exists data,
    keyed_rows repr0 adzuna_columns sample_normal_frame = Ok data /\
    List.length data = nrows sample_normal_frame /\
    Forall (fun r => List.length r = 10%nat) data.
Proof.
  destruct (keyed_rows repr0 adzuna_columns sample_normal_frame) as [data|] eqn:E;
    [|vm_compute in E; discriminate].
  exists data. split; [reflexivity|].
  exact (X16_batch_shape repr0 adzuna_columns sample_normal_frame data
           (or_introl eq_refl) E).
Defined.

(** X17 at a RemoteOK run that gets a 503. *)
Lemma X17_witness :
  let r := main repr0 dates0 RemoteOK (env_ok (Response 503 None)) (start None) in
  committed (snd r) = None /\ merged_in (trace (snd r)) = false /\
  fst r = Ok tt /\ reported_in Halting (trace (snd r)) = true /\
  config_read_in (trace (snd r)) = false /\
  database_in (trace (snd r)) = false.
Proof.
  exact (X17_run_without_data repr0 dates0 RemoteOK (env_ok (Response 503 None)) None
           eq_refl (or_introl eq_refl)).
Defined.

(** The same reply in an Adzuna run. *)
Example adzuna_503_ends_in_key_error :
  fst (main repr0 dates0 Adzuna (env_ok (Response 503 None)) (start None))
    = Raise (KeyError (lit "date_posted")).
Proof. vm_compute. reflexivity. Qed.

(** X18 at the RemoteOK frame with a repeated key. *)
Lemma X18_witness :
  let r := load repr0 RemoteOK sample_ids_frame no_faults (start None) in
  fst r = Ok tt /\
  committed (snd r) = Some (merge_batch repr0 (rows_of sample_ids_frame) []) /\
  working (snd r) = committed (snd r) /\
  exists evs,
    trace (snd r) = trace (start None) ++ evs /\
    In (Print (Merged 2)) evs /\ ~ In Rollback evs /\
    executions evs = 1%nat.
Proof.
  exact (X18_load_success repr0 RemoteOK sample_ids_frame no_faults (start None)
           (rows_of sample_ids_frame) eq_refl eq_refl eq_refl eq_refl).
Defined.
